(** * make_docker_images.py: recipe and build-command generator

    A shallow embedding of the parts of [make_docker_images.py] that validate
    names, parse and print version numbers, parse MPI names, assemble the
    full build recipe, and write files, followed by the properties proved of
    them.

    Conventions of the embedding.
    - A Python [str] is a [string]: a sequence of characters with code
      points below 256.  On these the regular-expression class [\d] is the
      ten characters [0] to [9].
    - A Python value that reaches a run-time type test is a [pyval].
    - A function that can raise returns a [result]; a method that can raise
      after or before changing an object returns a [stexn], which hands back
      the state the exception left behind.
    - The files are those of the working directory, which holds regular
      files only and which the process may write to.  Opening a file for
      writing fails on a path that names no file there; a write to an open
      file does not fail. *)

From Stdlib Require Import ZArith Ascii String List Lia DecimalString DecimalZ DecimalN DecimalFacts.
From stdpp Require Import base option strings gmap.

Local Open Scope Z_scope.

(** ** Python values and exceptions *)

Inductive pyval : Type :=
  | PyNone
  | PyBool (b : bool)
  | PyInt (z : Z)
  | PyStr (s : string)
  | PyList (l : list Z).

(** The lists of the program hold integers only (the version triples). *)

(** The exceptions, by class.  [OSError] stands for the error that [open]
    raises when the file system refuses a path, whichever of its subclasses
    it is. *)
Inductive exn : Type :=
  | TypeError (args : list pyval)
  | ValueError (args : list pyval)
  | UnboundLocalError (name : string)
  | FileExistsError (args : list pyval)
  | OSError (filename : string).

Inductive result (A : Type) : Type :=
  | Ok (a : A)
  | Raise (e : exn).
Arguments Ok {A} a.
Arguments Raise {A} e.

#[global] Instance result_ret : MRet result := fun A a => Ok a.
#[global] Instance result_bind : MBind result := fun A B f m =>
  match m with
  | Ok a => f a
  | Raise e => Raise e
  end.

(** State and exception: the state is returned on both outcomes. *)
Definition stexn (S A : Type) : Type := S -> result A * S.

#[global] Instance stexn_ret {S} : MRet (stexn S) := fun A a s => (Ok a, s).
#[global] Instance stexn_bind {S} : MBind (stexn S) := fun A B f m s =>
  match m s with
  | (Ok a, s') => f a s'
  | (Raise e, s') => (Raise e, s')
  end.

Definition get_state {S} : stexn S S := fun s => (Ok s, s).
Definition put_state {S} (s : S) : stexn S unit := fun _ => (Ok tt, s).
Definition raise {S A} (e : exn) : stexn S A := fun s => (Raise e, s).
Definition lift {S A} (r : result A) : stexn S A := fun s => (r, s).

Definition is_raise {A} (r : result A) : bool :=
  match r with Ok _ => false | Raise _ => true end.

Definition is_value_error {A} (r : result A) : bool :=
  match r with Raise (ValueError _) => true | _ => false end.

Definition is_type_error {A} (r : result A) : bool :=
  match r with Raise (TypeError _) => true | _ => false end.

(** ** Builtins on strings *)

Definition chr (n : nat) : string := String (ascii_of_nat n) "".

(** The escapes of the source's literals. *)
Definition bel : string := chr 7.    (* \a *)
Definition bs_ : string := chr 8.    (* \b *)
Definition tab : string := chr 9.    (* \t *)
Definition nl : string := chr 10.    (* \n *)
Definition vt : string := chr 11.    (* \v *)
Definition ff : string := chr 12.    (* \f *)
Definition cr : string := chr 13.    (* \r *)
Definition dq : string := chr 34.    (* the double quote *)

(** [s[:n]] and [s[n:]] for [0 <= n]. *)
Fixpoint str_take (n : nat) (s : string) : string :=
  match n, s with
  | S n', String c s' => String c (str_take n' s')
  | _, _ => ""
  end.

Fixpoint str_drop (n : nat) (s : string) : string :=
  match n, s with
  | S n', String c s' => str_drop n' s'
  | _, _ => s
  end.

(** [s[i:j]] for [0 <= i <= j]. *)
Definition slice (i j : nat) (s : string) : string :=
  str_take (j - i) (str_drop i s).

Fixpoint startswith (p s : string) : bool :=
  match p, s with
  | "", _ => true
  | String a p', String b s' => if Ascii.eqb a b then startswith p' s' else false
  | String _ _, "" => false
  end.

(** [s.find(sub)]: the lowest index at which [sub] occurs, or [-1]. *)
Fixpoint find_from (i : Z) (sub s : string) : Z :=
  if startswith sub s then i
  else match s with
       | "" => -1
       | String _ s' => find_from (i + 1) sub s'
       end.

Definition str_find (s sub : string) : Z := find_from 0 sub s.

(** [s.split(sep)] for a separator of one character. *)
Fixpoint str_split_go (sep : ascii) (cur s : string) : list string :=
  match s with
  | "" => [cur]
  | String c s' =>
      if Ascii.eqb c sep then cur :: str_split_go sep "" s'
      else str_split_go sep (cur +:+ String c "") s'
  end.

Definition str_split (sep : ascii) (s : string) : list string :=
  str_split_go sep "" s.

(** [list(s)]: the characters of [s], each a string of length one. *)
Fixpoint list_of_str (s : string) : list string :=
  match s with
  | "" => []
  | String c s' => String c "" :: list_of_str s'
  end.

(** [type(v) == str] *)
Definition is_str (v : pyval) : bool :=
  match v with PyStr _ => true | _ => false end.

(** [a != b], on the values of this program. *)
Definition py_eq (a b : pyval) : bool :=
  match a, b with
  | PyNone, PyNone => true
  | PyBool x, PyBool y => Bool.eqb x y
  | PyInt x, PyInt y => Z.eqb x y
  | PyBool x, PyInt y | PyInt y, PyBool x => Z.eqb (if x then 1 else 0) y
  | PyStr x, PyStr y => String.eqb x y
  | PyList x, PyList y => bool_decide (x = y)
  | _, _ => false
  end.

Definition py_ne (a b : pyval) : bool := negb (py_eq a b).

(** [len(v)] *)
Definition py_len (v : pyval) : result nat :=
  match v with
  | PyStr s => Ok (String.length s)
  | PyList l => Ok (length l)
  | _ => Raise (TypeError [PyStr "object has no len()"])
  end.

(** ** Name validation *)

Definition forbidden_chars_string : string :=
  "?!@#$%^&* ;<>?|" +:+ dq +:+ bel +:+ bs_ +:+ ff +:+ nl +:+ cr +:+ tab +:+ vt.

Definition forbidden_chars : list string :=
  Eval cbv in list_of_str forbidden_chars_string.

(** The [for c in forbidden_chars] loop with its early [return False]. *)
Fixpoint no_forbidden (cs : list string) (name : string) : bool :=
  match cs with
  | [] => true
  | c :: cs' => if (str_find name c >=? 0) then false else no_forbidden cs' name
  end.

Definition is_proper_name (name : pyval) : result bool :=
  match name with
  | PyStr s =>
      if String.eqb s "" then Ok false
      else Ok (no_forbidden forbidden_chars s)
  | _ => Raise (TypeError [PyStr "Name is not string"])
  end.

(** ** The build-target record *)

Record DockerClass : Type := mkDocker {
  recipe_name : string;
  image_name : string;
  recipe : string
}.

(** [DockerClass()]: the class attributes are the defaults. *)
Definition new_DockerClass : DockerClass :=
  {| recipe_name := ""; image_name := ""; recipe := "" |}.

Definition set_recipe_name (v : pyval) : stexn DockerClass unit :=
  ok ← lift (is_proper_name v);
  if ok : bool then
    match v with
    | PyStr s => self ← get_state;
                 put_state {| recipe_name := s; image_name := image_name self;
                              recipe := recipe self |}
    | _ => (* not reached: [is_proper_name] is true of strings only *)
           raise (TypeError [PyStr "Name is not string"])
    end
  else raise (ValueError [PyStr "Illegal recipe_name:"; v]).

Definition set_recipe (v : pyval) : stexn DockerClass unit :=
  match v with
  | PyStr s =>
      if negb (String.eqb s "") then
        self ← get_state;
        put_state {| recipe_name := recipe_name self; image_name := image_name self;
                     recipe := s |}
      else raise (ValueError [PyStr "Recipe is empty string"])
  | _ => raise (TypeError [PyStr "Recipe is not string"])
  end.

Definition set_image_name (v : pyval) : stexn DockerClass unit :=
  ok ← lift (is_proper_name v);
  if ok : bool then
    match v with
    | PyStr s => self ← get_state;
                 put_state {| recipe_name := recipe_name self; image_name := s;
                              recipe := recipe self |}
    | _ => (* not reached: [is_proper_name] is true of strings only *)
           raise (TypeError [PyStr "Name is not string"])
    end
  else raise (ValueError [PyStr "Illegal image_name:"; v]).

(** The world outside the process: the files, and what was printed.  The
    files are those of the working directory of the process, which holds
    regular files only and which the process may write to; a file is told
    by the path it was written under. *)
Record world : Type := mkWorld {
  files : gmap string string;
  stdout : list string
}.

(** Whether [open(name, "w")] can create or truncate a file, by the
    components of the path [name].  The last component is the name of the
    file: it is neither empty nor [.] nor [..].  The components before it
    lead to the directory of the file, and the only one that leads anywhere
    in a directory without directories is [.] (and the empty one that a
    doubled slash leaves behind it): a path through another name, through
    [..], or from the root is refused.  Which subclass of [OSError] tells
    the refusal ([FileNotFoundError], [IsADirectoryError],
    [NotADirectoryError], [PermissionError]) is not modelled, and neither
    is a limit on the length of a name. *)
Fixpoint open_components (first : bool) (name : string) (cs : list string)
  : option exn :=
  match cs with
  | [] => Some (OSError name)
  | [c] =>
      if String.eqb c "" || String.eqb c "." || String.eqb c ".."
      then Some (OSError name) else None
  | c :: cs' =>
      if String.eqb c "." || (negb first && String.eqb c "")
      then open_components false name cs'
      else Some (OSError name)
  end.

Definition open_error (name : string) : option exn :=
  if str_find name (chr 0) >=? 0 then Some (ValueError [PyStr "embedded null byte"])
  else open_components true name (str_split "/" name).

(** [open(name, "w")]: the file is created, or emptied when it exists. *)
Definition open_w (name : string) : stexn world unit := fun w =>
  match open_error name with
  | Some e => (Raise e, w)
  | None => (Ok tt, {| files := <[name := ""]> (files w); stdout := stdout w |})
  end.

(** [file.write(text)] on the file just opened, and the end of the [with]
    block. *)
Definition file_write (name text : string) : stexn world unit := fun w =>
  (Ok tt, {| files := <[name := text]> (files w); stdout := stdout w |}).

(** [with open(name, "w") as file: file.write(text)]. *)
Definition write_file (name text : string) : stexn world unit :=
  open_w name;; file_write name text.

Definition print (line : string) : stexn world unit := fun w =>
  (Ok tt, {| files := files w; stdout := stdout w ++ [line] |}).

Definition write_recipe (self : DockerClass) : stexn world unit :=
  if String.eqb (recipe_name self) "" then
    raise (ValueError [PyStr "Docker recipe file name has not been set"])
  else if String.eqb (recipe self) "" then
    raise (ValueError [PyStr "Docker recipe content has not been set"])
  else write_file (recipe_name self) (recipe self).

Definition get_build_command (self : DockerClass) : result string :=
  if String.eqb (recipe_name self) "" then
    Raise (ValueError [PyStr "Docker recipe file name has not been set"])
  else if String.eqb (image_name self) "" then
    Raise (ValueError [PyStr "Docker image file name has not been set"])
  else Ok ("docker build --no-cache --pull -t " +:+ image_name self +:+ " -f " +:+
           recipe_name self +:+ " .").

(** ** The version-number codec *)

(** The class [\d] on code points below 256. *)
Definition isdigit (c : ascii) : bool :=
  match c with
  | "0" | "1" | "2" | "3" | "4" | "5" | "6" | "7" | "8" | "9" => true
  | _ => false
  end%char.

Definition flush (cur : string) : list string :=
  match cur with
  | "" => []
  | _ => [cur]
  end.

(** [re.findall(r'\d+', s)]: a left-to-right scan; [cur] is the run of
    digits read since the last character that is not a digit. *)
Fixpoint findall_digits_go (cur s : string) : list string :=
  match s with
  | "" => flush cur
  | String c s' =>
      if isdigit c then findall_digits_go (cur +:+ String c "") s'
      else flush cur ++ findall_digits_go "" s'
  end.

Definition findall_digits (s : string) : list string := findall_digits_go "" s.

(** [int(x)] on a string of decimal digits.  Python's [int] also takes a
    sign, surrounding blanks and underscores; no match of [\d+] has them, and
    on every other string it raises [ValueError]. *)
Definition py_int (x : string) : result Z :=
  match x with
  | "" => Raise (ValueError [PyStr "invalid literal for int() with base 10"; PyStr x])
  | _ =>
      match NilEmpty.uint_of_string x with
      | Some d => Ok (Z.of_uint d)
      | None => Raise (ValueError [PyStr "invalid literal for int() with base 10"; PyStr x])
      end
  end.

(** [str(n)] *)
Definition py_str (n : Z) : string := NilZero.string_of_int (Z.to_int n).

Definition split_version_number (input_ver : string) : result (list Z) :=
  let string_list := findall_digits input_ver in
  if (length string_list =? 3)%nat then mapM py_int string_list
  else Ok [].

Definition compose_version_number (int_list : pyval) : string :=
  match int_list with
  | PyList l => (* isinstance(int_list, list) *)
      if (length l =? 3)%nat then
        match l with
        | [a; b; c] => py_str a +:+ "." +:+ py_str b +:+ "." +:+ py_str c
        | _ => ""
        end
      else ""
  | _ => ""
  end.

(** ** The MPI-name parser *)

Definition get_mpi_type_and_version (mpi_name : pyval) : result (string * pyval) :=
  len ← py_len mpi_name;
  match mpi_name with
  | PyStr s =>
      if (len <? 5)%nat then
        Raise (ValueError [PyStr "MPI name is too short:"; mpi_name])
      else if (len =? 5)%nat then
        if String.eqb s "mpich" then Ok ("mpich", PyNone)
        else Raise (ValueError [PyStr "Expecting mpich:"; mpi_name])
      else if (len =? 6)%nat then
        Raise (ValueError [PyStr "Illegal MPI name:"; mpi_name])
      else if (len =? 7)%nat then
        if String.eqb s "openmpi" then Ok ("openmpi", PyNone)
        else Raise (ValueError [PyStr "Expecting openmpi:"; mpi_name])
      else
        if String.eqb (slice 0 5 s) "mpich" then
          int_ver ← split_version_number (str_drop 6 s);
          if (length int_ver =? 3)%nat then Ok ("mpich", PyList int_ver)
          else Raise (ValueError [PyStr "Illegal mpich version:"; PyStr (str_drop 6 s)])
        else if String.eqb (slice 0 7 s) "openmpi" then
          int_ver ← split_version_number (str_drop 8 s);
          if (length int_ver =? 3)%nat then Ok ("openmpi", PyList int_ver)
          else Raise (ValueError [PyStr "Illegal openmpi version:"; PyStr (str_drop 8 s)])
        else Raise (ValueError [PyStr "Illegal MPI name:"; mpi_name])
  | _ => Raise (TypeError [PyStr "MPI name is not a string:"; mpi_name])
  end.

(** ** Recipes and batch files *)

Definition cmake_cxx_compiler : string := "-DCMAKE_CXX_COMPILER=mpicxx".
Definition MPI_COMPILE_FLAGS : string := "-I/usr/local/include -pthread".

Section Environment.

(** [__file__] and [os.cpu_count()], fixed when the script is loaded. *)
Variable script_file : string.
Variable nproc_available : Z.

Definition nproc : Z :=
  if nproc_available >? 1 then nproc_available - 1 else 1.

Definition header : string :=
  "# This file is automatically created by " +:+ script_file +:+ nl.

Definition make_big_yandasoft_recipe (base_image image git_branch : string)
  : result string :=
  let cmake_cxx_flags :=
    "-DCMAKE_CXX_FLAGS=" +:+ dq +:+ MPI_COMPILE_FLAGS +:+
    dq +:+ " -DCMAKE_BUILD_TYPE=Release -DENABLE_OPENMP=YES" in
  cmake_build_flags ←
    (if String.eqb image "yandasoft" then
       Ok ("-DBUILD_ANALYSIS=OFF -DBUILD_PIPELINE=OFF -DBUILD_COMPONENTS=OFF " +:+
           "-DBUILD_SERVICES=OFF")
     else if String.eqb image "askapsoft" then
       Ok ("-DBUILD_ANALYSIS=ON -DBUILD_PIPELINE=ON -DBUILD_COMPONENTS=ON " +:+
           "-DBUILD_SERVICES=OFF")
     else Raise (ValueError [PyStr "Illegal image name:"; PyStr image]));
  if String.eqb git_branch "develop" || String.eqb git_branch "master" then
    Ok (
      "# Build Yandasoft" +:+ nl +:+
      "FROM " +:+ base_image +:+ " AS build_image " +:+ nl +:+
      "WORKDIR /home" +:+ nl +:+
      "RUN git clone https://gitlab.com/ASKAPSDP/all_yandasoft.git" +:+ nl +:+
      "WORKDIR /home/all_yandasoft" +:+ nl +:+
      "RUN ./git-do clone" +:+ nl +:+
      "RUN ./git-do checkout -b " +:+ git_branch +:+ nl +:+
      "# To fix version problem, use develop branch in askap-cmake " +:+ nl +:+
      "WORKDIR /home/all_yandasoft/askap-cmake " +:+ nl +:+
      "RUN git checkout develop " +:+ nl +:+
      "WORKDIR /home/all_yandasoft " +:+ nl +:+
      "RUN mkdir build" +:+ nl +:+
      "WORKDIR /home/all_yandasoft/build" +:+ nl +:+
      "RUN cmake " +:+ cmake_cxx_compiler +:+ " " +:+ cmake_cxx_flags +:+ " " +:+
        cmake_build_flags +:+ " .. \" +:+ nl +:+
      "    && make -j" +:+ py_str nproc +:+ " \" +:+ nl +:+
      "    && make install" +:+ nl)
  else
    (* Workaround for release version *)
    Ok (
      "# Build Yandasoft" +:+ nl +:+
      "FROM " +:+ base_image +:+ " AS build_image " +:+ nl +:+
      "WORKDIR /home" +:+ nl +:+
      "RUN git clone https://gitlab.com/ASKAPSDP/all_yandasoft.git" +:+ nl +:+
      "WORKDIR /home/all_yandasoft" +:+ nl +:+
      "RUN ./git-do clone" +:+ nl +:+
      "# Workaround for versioning" +:+ nl +:+
      "RUN ./git-do checkout -b release/" +:+ git_branch +:+ nl +:+
      "RUN ./git-do checkout -b " +:+ git_branch +:+ nl +:+
      "# To fix version problem, use develop branch in askap-cmake " +:+ nl +:+
      "WORKDIR /home/all_yandasoft/askap-cmake " +:+ nl +:+
      "RUN git checkout develop " +:+ nl +:+
      "WORKDIR /home/all_yandasoft " +:+ nl +:+
      "RUN mkdir build" +:+ nl +:+
      "WORKDIR /home/all_yandasoft/build" +:+ nl +:+
      "RUN cmake " +:+ cmake_cxx_compiler +:+ " " +:+ cmake_cxx_flags +:+ " " +:+
        cmake_build_flags +:+ " .. \" +:+ nl +:+
      "    && make -j" +:+ py_str nproc +:+ " \" +:+ nl +:+
      "    && make install" +:+ nl).

Definition batch_common_part : string :=
  "#!/bin/bash -l" +:+ nl +:+
  "## This file is automatically created by " +:+ script_file +:+ nl +:+
  "#SBATCH --ntasks=5" +:+ nl +:+
  "##SBATCH --ntasks=305" +:+ nl +:+
  "#SBATCH --time=02:00:00" +:+ nl +:+
  "#SBATCH --job-name=cimager" +:+ nl +:+
  "#SBATCH --export=NONE" +:+ nl +:+ nl +:+
  "module load singularity/3.5.0" +:+ nl.

(** The [if]/[elif]/[else] of [make_batch_file] that binds the local names
    [module], [image] and [batch_mpi_part]: the result is the binding of
    [batch_mpi_part] when control leaves it, [None] when no branch that
    assigns it was entered. *)
Definition batch_mpi_branch (mpi : string) (mpi_type mpi_ver : string)
  : result (option string) :=
  if String.eqb mpi_type "mpich" then
    let module := "mpich/3.3.0" in
    let image := "yandasoft-mpich_latest.sif" in
    Ok (Some (
      "module load " +:+ module +:+ nl +:+ nl +:+
      "mpirun -n 5 singularity exec " +:+ image +:+
      " cimager -c dirty.in > dirty_${SLURM_JOB_ID}.log" +:+ nl))
  else if String.eqb mpi_type "openmpi" then
    if py_ne (PyStr mpi_ver) PyNone then
      let module := "openmpi/" +:+ mpi_ver +:+ "-ofed45-gcc" in
      let image := "yandasoft-" +:+ mpi_ver +:+ "_latest.sif" in
      Ok (Some (
        "module load " +:+ module +:+ nl +:+ nl +:+
        "mpirun -n 5 -oversubscribe singularity exec " +:+ image +:+
        " cimager -c dirty.in > dirty_${SLURM_JOB_ID}.log" +:+ nl))
    else Ok None
  else Raise (ValueError [PyStr "Unknown MPI target:"; PyStr mpi]).

(** Reading a local name: unbound names raise. *)
Definition read_local {S} (name : string) (v : option string) : stexn S string :=
  match v with
  | Some s => mret s
  | None => raise (UnboundLocalError name)
  end.

Definition make_batch_file (machine mpi : string) : stexn world unit :=
  '(mpi_type, mpi_num) ← lift (get_mpi_type_and_version (PyStr mpi));
  let mpi_ver := compose_version_number mpi_num in
  batch_mpi_part ← lift (batch_mpi_branch mpi mpi_type mpi_ver);
  let batch_file := "sample-" +:+ machine +:+ "-" +:+ mpi +:+ ".sbatch" in
  print ("Making batch file: " +:+ batch_file);;
  (* open(batch_file, "w") truncates before the argument of write is evaluated *)
  open_w batch_file;;
  part ← read_local "batch_mpi_part" batch_mpi_part;
  file_write batch_file (batch_common_part +:+ part).

End Environment.

Definition empty_world : world := {| files := ∅; stdout := [] |}.

(** ** Vocabulary of the properties *)

(** The character [c] occurs in [s]. *)
Definition has_char (c : ascii) (s : string) : Prop :=
  In c (list_ascii_of_string s).

Fixpoint has_charb (c : ascii) (s : string) : bool :=
  match s with
  | "" => false
  | String b s' => Ascii.eqb c b || has_charb c s'
  end.

(** The characters of the forbidden set. *)
Definition forbidden (c : ascii) : Prop := has_char c forbidden_chars_string.

Definition newline : ascii := "010"%char.
Definition nul : ascii := "000"%char.

(** The string can stand inside a file name: it holds no slash and no
    NUL character. *)
Definition no_path_chars (s : string) : Prop :=
  has_charb "/" s = false /\ has_charb nul s = false.

Fixpoint all_chars (p : ascii -> bool) (s : string) : bool :=
  match s with
  | "" => true
  | String c s' => p c && all_chars p s'
  end.

Definition all_digits (s : string) : bool := all_chars isdigit s.
Definition no_digits (s : string) : bool := all_chars (fun c => negb (isdigit c)) s.

(** [rs] is the list of the maximal runs of digits of [s], from left to
    right: [s] is cut into stretches without a digit and non-empty
    stretches of digits, and a run ends at the end of [s] or before a
    character that is not a digit. *)
Inductive digit_runs : string -> list string -> Prop :=
  | runs_none sep :
      no_digits sep = true ->
      digit_runs sep []
  | runs_last sep r :
      no_digits sep = true -> r <> "" -> all_digits r = true ->
      digit_runs (sep +:+ r) [r]
  | runs_more sep r c rest rs :
      no_digits sep = true -> r <> "" -> all_digits r = true ->
      isdigit c = false ->
      digit_runs (String c rest) rs ->
      digit_runs (sep +:+ r +:+ String c rest) (r :: rs).

(** The value of a digit, and of a string of digits read in base ten. *)
Definition digit_value (c : ascii) : Z := Z.of_nat (nat_of_ascii c) - 48.

Fixpoint digits_value_from (acc : Z) (s : string) : Z :=
  match s with
  | "" => acc
  | String c s' => digits_value_from (10 * acc + digit_value c) s'
  end.

Definition digits_value (s : string) : Z := digits_value_from 0 s.

(** The lines of a text. *)
Definition lines (s : string) : list string := str_split newline s.

(** A decimal numeral as [str] prints a non-negative integer: digits only,
    at least one, and no leading zero except for zero itself. *)
Definition is_numeral (x : string) : bool :=
  all_digits x && negb (String.eqb x "") &&
  (String.eqb x "0" || negb (startswith "0" x)).

(** A group of digits: at least one digit, and digits only. *)
Definition is_digit_group (x : string) : bool :=
  all_digits x && negb (String.eqb x "").

(** A three-part dotted version string: three groups of digits separated
    by two dots, as in the pattern [\d+\.\d+\.\d+]. *)
Definition three_part_version (s : string) : bool :=
  match str_split "." s with
  | [x; y; z] => is_digit_group x && is_digit_group y && is_digit_group z
  | _ => false
  end.

(** The canonical ones among them: each group is a numeral, with no
    leading zero. *)
Definition canonical_version (s : string) : bool :=
  match str_split "." s with
  | [x; y; z] => is_numeral x && is_numeral y && is_numeral z
  | _ => false
  end.

(** The number of places where the line [a] is directly followed by the
    line [b]. *)
Fixpoint count_adjacent (a b : string) (l : list string) : nat :=
  match l with
  | x :: ((y :: _) as l') =>
      ((if String.eqb x a && String.eqb y b then 1 else 0) + count_adjacent a b l')%nat
  | _ => 0%nat
  end.

(** The steps of the release-tag workaround in a full build recipe. *)
Definition checkout_prefix : string := "RUN ./git-do checkout -b ".
Definition release_checkout (tag : string) : string :=
  "RUN ./git-do checkout -b release/" +:+ tag.
Definition branch_checkout (branch : string) : string :=
  "RUN ./git-do checkout -b " +:+ branch.
Definition is_release_checkout (line : string) : bool :=
  startswith "RUN ./git-do checkout -b release/" line.

(** An argument that is no name: not a string, the empty string, or a
    string with a forbidden character. *)
Definition invalid_name (v : pyval) : Prop :=
  match v with
  | PyStr s => s = "" \/ exists c, forbidden c /\ has_char c s
  | _ => True
  end.

(** An argument that is no recipe text: not a string, or the empty string. *)
Definition invalid_text (v : pyval) : Prop :=
  match v with
  | PyStr s => s = ""
  | _ => True
  end.

(** A setter raises on [v] and leaves the record as it was. *)
Definition raises_unchanged (setter : pyval -> stexn DockerClass unit)
  (v : pyval) (self : DockerClass) : Prop :=
  is_raise (fst (setter v self)) = true /\ snd (setter v self) = self.

(** What the parser does with the version suffix. *)
Definition parse_suffix (family label suffix : string) : result (string * pyval) :=
  match findall_digits suffix with
  | [x; y; z] => Ok (family, PyList [digits_value x; digits_value y; digits_value z])
  | _ => Raise (ValueError [PyStr label; PyStr suffix])
  end.


(** The lines of a full build recipe before and after its checkout
    steps. *)
Definition recipe_head (base_image : string) : list string :=
  ["# Build Yandasoft";
   "FROM " +:+ base_image +:+ " AS build_image ";
   "WORKDIR /home";
   "RUN git clone https://gitlab.com/ASKAPSDP/all_yandasoft.git";
   "WORKDIR /home/all_yandasoft";
   "RUN ./git-do clone"].

Definition recipe_tail (nproc_available : Z) (cmake_build_flags : string) : list string :=
  ["# To fix version problem, use develop branch in askap-cmake ";
   "WORKDIR /home/all_yandasoft/askap-cmake ";
   "RUN git checkout develop ";
   "WORKDIR /home/all_yandasoft ";
   "RUN mkdir build";
   "WORKDIR /home/all_yandasoft/build";
   "RUN cmake -DCMAKE_CXX_COMPILER=mpicxx -DCMAKE_CXX_FLAGS=" +:+ dq +:+
     "-I/usr/local/include -pthread" +:+ dq +:+
     " -DCMAKE_BUILD_TYPE=Release -DENABLE_OPENMP=YES " +:+ cmake_build_flags +:+ " .. \";
   "    && make -j" +:+ py_str (nproc nproc_available) +:+ " \";
   "    && make install";
   ""].

(** ** The configuration *)

(** [str.lower()] on code points below 256: the letters [A] to [Z] and the
    accented capitals 192 to 222 (215, the multiplication sign, apart). *)
Definition lower_char (c : ascii) : ascii :=
  let n := nat_of_ascii c in
  if ((65 <=? n) && (n <=? 90) || (192 <=? n) && (n <=? 214) ||
      (216 <=? n) && (n <=? 222))%nat
  then ascii_of_nat (n + 32) else c.

Fixpoint str_lower (s : string) : string :=
  match s with
  | "" => ""
  | String c s' => String (lower_char c) (str_lower s')
  end.

(** The user settings, sanitized as the script does when it is loaded. *)
Definition machine_targets : list string := map str_lower ["generic"].

Definition mpi_targets : list string :=
  map str_lower ["mpich"; "openmpi4"; "openmpi3"; "openmpi2"; "openmpi2.0"].

Definition cmake_ver : string := "3.20.3".
Definition casacore_ver : string := "3.3.0".
Definition docker_account : string := "csirocass".

Definition library_list : list string :=
  ["libboost-dev";
   "libboost-filesystem-dev";
   "libboost-program-options-dev";
   "libboost-python-dev";
   "libboost-regex-dev";
   "libboost-signals-dev";
   "libboost-system-dev";
   "libboost-thread-dev";
   "libcfitsio-dev";
   "libcppunit-dev";
   "libcurl4-openssl-dev";
   "libczmq-dev";
   "libfftw3-dev";
   "libffi-dev";
   "libgsl-dev";
   "libhdf5-serial-dev";
   "liblapacke-dev";
   "liblog4cxx-dev";
   "libncurses5-dev";
   "libopenblas-dev";
   "libpython2.7-dev";
   "libpython3-dev";
   "libreadline-dev";
   "libssl-dev";
   "libxerces-c-dev";
   "libzmq3-dev";
   "wcslib-dev"].

Definition tool_list : list string :=
  ["autoconf";
   "automake";
   "bison";
   "docker";
   "flex";
   "g++";
   "gcovr";
   "gdb";
   "gfortran";
   "git";
   "libtool";
   "m4";
   "make";
   "patch";
   "python-numpy";
   "python-pip";
   "python-scipy";
   "subversion";
   "tzdata";
   "valgrind";
   "vim";
   "wget";
   "xsltproc";
   "zeroc-ice-all-dev";
   "zeroc-ice-all-runtime"].

(** ** The host: files, output, and the commands handed to the shell *)

Record host : Type := mkHost {
  disk : world;
  ran : list string
}.

Definition in_world {A} (m : stexn world A) : stexn host A := fun h =>
  let (r, w) := m (disk h) in (r, {| disk := w; ran := ran h |}).

(** [subprocess.run(cmd, shell=True)]: the command is recorded; what the
    external tool does to the files is outside the model. *)
Definition subprocess_run (cmd : string) : stexn host unit := fun h =>
  (Ok tt, {| disk := disk h; ran := ran h ++ [cmd] |}).

(** [Path(name).is_file()] *)
Definition is_file (name : string) : stexn host bool := fun h =>
  (Ok (bool_decide (is_Some (files (disk h) !! name))), h).

(** A method call on a local object: the object after the call, or the
    exception of the call. *)
Definition call {S} (m : stexn DockerClass unit) (self : DockerClass)
  : stexn S DockerClass := fun s =>
  match m self with
  | (Ok _, self') => (Ok self', s)
  | (Raise e, _) => (Raise e, s)
  end.

(** [a + v] for a string [a]: only a string can be appended. *)
Definition str_add (a : string) (v : pyval) : result string :=
  match v with
  | PyStr b => Ok (a +:+ b)
  | _ => Raise (TypeError [PyStr "can only concatenate str to str"])
  end.

(** The [for] loop over a list. *)
Fixpoint for_each {S A} (l : list A) (body : A -> stexn S unit) : stexn S unit :=
  match l with
  | [] => mret tt
  | x :: l' => body x;; for_each l' body
  end.

Definition build_image (self : DockerClass) : stexn host unit :=
  build_command ← lift (get_build_command self);
  if String.eqb (recipe_name self) "" then
    raise (ValueError [PyStr "Docker recipe file name has not been set"])
  else
    file_is_file ← is_file (recipe_name self);
    if file_is_file : bool then subprocess_run build_command
    else raise (FileExistsError [PyStr "Docker recipe file does not exist:";
                                 PyStr (recipe_name self)]).

(** ** The base image *)

Section Orchestration.

Variable script_file : string.
Variable nproc_available : Z.

(** The [apt_install_part += ...] loop. *)
Definition add_install_items (part : string) (items : list string) : string :=
  fold_left (fun part item => part +:+ " \" +:+ nl +:+ "        " +:+ item) items part.

(** The local names [apt_install_part], [cmake_source] and [recipe] of
    [make_yandabase]; none depends on its arguments. *)
Definition yandabase_apt_install_part : string :=
  let apt_install_part :=
    "ENV DEBIAN_FRONTEND=" +:+ dq +:+ "noninteractive" +:+ dq +:+ nl +:+
    "RUN apt-get update -q \" +:+ nl +:+
    "    && apt-get upgrade -y \" +:+ nl +:+
    "    && apt-get install -y --no-install-recommends " in
  let apt_install_list := library_list ++ tool_list in
  let apt_install_part := add_install_items apt_install_part apt_install_list in
  let apt_install_part := apt_install_part +:+ "\" +:+ nl in
  apt_install_part +:+ "    && rm -rf /var/lib/apt/lists/* " +:+ nl.

Definition cmake_source : string := "cmake-" +:+ cmake_ver +:+ ".tar.gz".

Definition yandabase_recipe : string :=
    yandabase_apt_install_part +:+ "# Build cmake" +:+ nl +:+
    "RUN mkdir /usr/local/share/cmake" +:+ nl +:+
    "WORKDIR /usr/local/share/cmake" +:+ nl +:+
    "RUN wget https://github.com/Kitware/CMake/releases/download/v" +:+ cmake_ver +:+ "/" +:+ cmake_source +:+ " \" +:+ nl +:+
    "    && tar -zxf " +:+ cmake_source +:+ " \" +:+ nl +:+
    "    && rm " +:+ cmake_source +:+ nl +:+
    "WORKDIR /usr/local/share/cmake/cmake-" +:+ cmake_ver +:+ nl +:+
    "RUN ./bootstrap --system-curl -- -DCMAKE_BUILD_TYPE:STRING=Release \" +:+ nl +:+
    "    && make \" +:+ nl +:+
    "    && make install\" +:+ nl +:+
    "    && rm -rf * " +:+ nl +:+
    "# Build the latest measures" +:+ nl +:+
    "RUN mkdir /usr/local/share/casacore \" +:+ nl +:+
    "    && mkdir /usr/local/share/casacore/data" +:+ nl +:+
    "WORKDIR /usr/local/share/casacore/data" +:+ nl +:+
    "RUN wget ftp://ftp.astron.nl/outgoing/Measures/WSRT_Measures.ztar \" +:+ nl +:+
    "    && mv WSRT_Measures.ztar WSRT_Measures.tar.gz \" +:+ nl +:+
    "    && tar -zxf WSRT_Measures.tar.gz \" +:+ nl +:+
    "    && rm WSRT_Measures.tar.gz \" +:+ nl +:+
    "    && mkdir /var/lib/jenkins \" +:+ nl +:+
    "    && mkdir /var/lib/jenkins/workspace " +:+ nl +:+
    "# Build the latest casacore" +:+ nl +:+
    "WORKDIR /usr/local/share/casacore" +:+ nl +:+
    "RUN wget https://github.com/casacore/casacore/archive/v" +:+ casacore_ver +:+ ".tar.gz \" +:+ nl +:+
    "    && tar -xzf v" +:+ casacore_ver +:+ ".tar.gz\" +:+ nl +:+
    "    && rm v" +:+ casacore_ver +:+ ".tar.gz" +:+ nl +:+
    "WORKDIR /usr/local/share/casacore/casacore-" +:+ casacore_ver +:+ nl +:+
    "RUN mkdir build" +:+ nl +:+
    "WORKDIR build" +:+ nl +:+
    "RUN cmake " +:+ cmake_cxx_compiler +:+ " -DUSE_FFTW3=ON -DDATA_DIR=/usr/local/share/casacore/data \" +:+ nl +:+
    "    -DUSE_OPENMP=ON -DUSE_HDF5=ON -DBUILD_PYTHON=ON -DUSE_THREADS=ON -DCMAKE_BUILD_TYPE=Release .. \" +:+ nl +:+
    "    && make -j" +:+ py_str (nproc nproc_available) +:+ " \" +:+ nl +:+
    "    && make install" +:+ nl +:+
    "WORKDIR /usr/local/share/casacore/" +:+ nl +:+
    "RUN wget https://github.com/steve-ord/casarest/tarball/078f94e \" +:+ nl +:+
    "    && tar -xzf 078f94e \" +:+ nl +:+
    "    && rm 078f94e" +:+ nl +:+
    "WORKDIR steve-ord-casarest-078f94e" +:+ nl +:+
    "RUN mkdir build" +:+ nl +:+
    "WORKDIR build" +:+ nl +:+
    "RUN cmake " +:+ cmake_cxx_compiler +:+ " -DCMAKE_BUILD_TYPE=Release .. \" +:+ nl +:+
    "    && make -j" +:+ py_str (nproc nproc_available) +:+ " \" +:+ nl +:+
    "    && make install " +:+ nl +:+
    "WORKDIR /usr/local/share/casacore" +:+ nl +:+
    "RUN rm -rf casacore \" +:+ nl +:+
    "    && rm -rf steve-ord-casarest-078f94e " +:+ nl.

(** The tail shared by [make_yandabase] and [make_yandasoft]: build the
    image, or print the command that would. *)
Definition build_or_print (execute : bool) (docker_target : DockerClass)
  : stexn host unit :=
  if execute then build_image docker_target
  else
    cmd ← lift (get_build_command docker_target);
    in_world (print cmd).

(** The two calls that name the target: [set_recipe_name] first. *)
Definition name_target (recipe_name_arg image_name_arg : result string)
  (docker_target : DockerClass) : stexn host DockerClass :=
  name ← lift recipe_name_arg;
  docker_target ← call (set_recipe_name (PyStr name)) docker_target;
  name ← lift image_name_arg;
  call (set_image_name (PyStr name)) docker_target.

(** The [if]/[elif]/[else] of [make_yandabase] on the machine: the base
    part of the recipe, and the target with its two names set. *)
Definition yandabase_target (machine : string) (mpi : pyval)
  (prepend append : string) (docker_target : DockerClass)
  : stexn host (string * DockerClass) :=
  if String.eqb machine "generic" then
    base_part ← lift (s ← str_add "FROM csirocass/base:" mpi;
                      Ok (s +:+ " AS base_image " +:+ nl));
    docker_target ←
      name_target
        (str_add ".gitlab-docker-yandabase-" mpi)
        (s ← str_add (prepend +:+ "yandabase:") mpi; Ok (s +:+ append))
        docker_target;
    mret (base_part, docker_target)
  else if String.eqb machine "galaxy" then
    let base_part := "FROM pawsey/mpich-base:3.1.4_ubuntu18.04 AS " +:+
                     "base_image" +:+ nl in
    docker_target ←
      name_target
        (Ok (".gitlab-docker-yandabase-" +:+ machine))
        (Ok (prepend +:+ "yandabase:" +:+ machine +:+ append))
        docker_target;
    mret (base_part, docker_target)
  else raise (ValueError [PyStr "Unknown machine target:"; PyStr machine]).

Definition make_yandabase (machine : string) (mpi : pyval)
  (prepend append : string) (execute : bool) : stexn host DockerClass :=
  let docker_target := new_DockerClass in
  let recipe := yandabase_recipe in
  '(base_part, docker_target) ← yandabase_target machine mpi prepend append docker_target;
  docker_target ← call (set_recipe (PyStr (header script_file +:+ base_part +:+ recipe)))
                       docker_target;
  in_world (write_recipe docker_target);;
  (* If requested, actually generate the image; otherwise echo the command *)
  build_or_print execute docker_target;;
  mret docker_target.

(** ** The product images *)

Definition make_small_yandasoft_recipe (base_image : string) : string :=
  let recipe_base :=
    "# Build production image " +:+ nl +:+
    "FROM " +:+ base_image +:+ " AS production_image " +:+ nl in
  (* Libraries to be installed *)
  let recipe_library :=
    "ENV DEBIAN_FRONTEND=" +:+ dq +:+ "noninteractive" +:+ dq +:+ " " +:+ nl +:+
    "RUN apt-get update -q \" +:+ nl +:+
    "    && apt-get upgrade -y \" +:+ nl +:+
    "    && apt-get install -y --no-install-recommends " in
  let recipe_library := add_install_items recipe_library library_list in
  let recipe_library := recipe_library +:+ "\" +:+ nl in
  let recipe_library := recipe_library +:+ (
    "    && apt-get clean all \" +:+ nl +:+
    "    && rm -rf /var/lib/apt/lists/* " +:+ nl) in
  let recipe_copy :=
    "# Copy executables and libraries from build_image " +:+ nl +:+
    "COPY --from=build_image /usr/local/bin/* /usr/local/bin/ " +:+ nl +:+
    "COPY --from=build_image /usr/local/lib/* /usr/local/lib/ " +:+ nl in
  let recipe_data :=
    "# Build the latest measures " +:+ nl +:+
    "RUN mkdir /usr/local/share/casacore \" +:+ nl +:+
    "    && mkdir /usr/local/share/casacore/data " +:+ nl +:+
    "WORKDIR /usr/local/share/casacore/data " +:+ nl +:+
    "RUN wget ftp://ftp.astron.nl/outgoing/Measures/WSRT_Measures.ztar \" +:+ nl +:+
    "    && mv WSRT_Measures.ztar WSRT_Measures.tar.gz \" +:+ nl +:+
    "    && tar -zxf WSRT_Measures.tar.gz \" +:+ nl +:+
    "    && rm WSRT_Measures.tar.gz " +:+ nl in
  ((recipe_base +:+ recipe_library) +:+ recipe_copy) +:+ recipe_data.

Definition recipe_end : string :=
  "WORKDIR /home " +:+ nl +:+
  "CMD [" +:+ dq +:+ "/bin/bash" +:+ dq +:+ "] " +:+ nl.

(** The first [if]/[elif]/[else] of [make_yandasoft]: the image the build
    stage starts from. *)
Definition yandasoft_base_image (machine : string) (mpi : pyval) : stexn host string :=
  if String.eqb machine "generic" then lift (str_add "csirocass/yandabase:" mpi)
  else if String.eqb machine "galaxy" then mret ("csirocass/yandabase:" +:+ machine)
  else raise (ValueError [PyStr "Unknown machine target:"; PyStr machine]).

(** The [if]/[elif]/[else] of [make_yandasoft] on the revision: the recipe,
    with the production stage added for a release tag, and the target with
    its two names set. *)
Definition yandasoft_target (machine : string) (mpi : pyval)
  (prepend append git_branch image : string) (recipe : string)
  (docker_target : DockerClass) : stexn host (string * DockerClass) :=
  if String.eqb git_branch "develop" then
    docker_target ←
      (if String.eqb machine "generic" then
         name_target
           (str_add (".gitlab-docker-" +:+ image +:+ "-dev-") mpi)
           (s ← str_add (prepend +:+ image +:+ ":dev-") mpi; Ok (s +:+ append))
           docker_target
       else if String.eqb machine "galaxy" then
         name_target
           (Ok (".gitlab-docker-" +:+ image +:+ "-dev-" +:+ machine))
           (Ok (prepend +:+ image +:+ ":dev-" +:+ machine +:+ append))
           docker_target
       else raise (ValueError [PyStr "Unknown machine target:"; PyStr machine]));
    mret (recipe, docker_target)
  else if String.eqb git_branch "master" then
    docker_target ←
      (if String.eqb machine "generic" then
         name_target
           (str_add (".gitlab-docker-" +:+ image +:+ "-") mpi)
           (s ← str_add (prepend +:+ image +:+ ":") mpi; Ok (s +:+ append))
           docker_target
       else if String.eqb machine "galaxy" then
         name_target
           (Ok (".gitlab-docker-" +:+ image +:+ "-" +:+ machine))
           (Ok (prepend +:+ image +:+ ":" +:+ machine +:+ append))
           docker_target
       else raise (ValueError [PyStr "Unknown machine target:"; PyStr machine]));
    mret (recipe, docker_target)
  else
    (* Release tag: MAJOR.MINOR is taken to be the first three characters *)
    let version := slice 0 3 git_branch in
    '(base_image, docker_target) ←
      (if String.eqb machine "generic" then
         base_image ← lift (str_add "csirocass/base:" mpi);
         docker_target ←
           name_target
             (str_add (".gitlab-docker-" +:+ image +:+ "-" +:+ version +:+ "-") mpi)
             (s ← str_add (prepend +:+ image +:+ ":" +:+ version +:+ "-") mpi;
              Ok (s +:+ append))
             docker_target;
         mret (base_image, docker_target)
       else if String.eqb machine "galaxy" then
         let base_image := "pawsey/mpich-base:3.1.4_ubuntu18.04" in
         docker_target ←
           name_target
             (Ok (".gitlab-docker-" +:+ image +:+ "-" +:+ version +:+ "-" +:+ machine))
             (Ok (prepend +:+ image +:+ ":" +:+ version +:+ "-" +:+ machine +:+ append))
             docker_target;
         mret (base_image, docker_target)
       else raise (ValueError [PyStr "Unknown machine target:"; PyStr machine]));
    mret (recipe +:+ make_small_yandasoft_recipe base_image, docker_target).

Definition make_yandasoft (machine : string) (mpi : pyval)
  (prepend append git_branch image : string) (execute : bool)
  : stexn host DockerClass :=
  let docker_target := new_DockerClass in
  (* Make recipe for big image *)
  base_image ← yandasoft_base_image machine mpi;
  recipe ← lift (make_big_yandasoft_recipe nproc_available base_image image git_branch);
  '(recipe, docker_target) ←
    yandasoft_target machine mpi prepend append git_branch image recipe docker_target;
  let recipe := header script_file +:+ recipe +:+ recipe_end in
  docker_target ← call (set_recipe (PyStr recipe)) docker_target;
  in_world (write_recipe docker_target);;
  build_or_print execute docker_target;;
  mret docker_target.

(** ** The entry point *)

(** [print("The list of Docker targets: ")] and the lines after it. *)
Definition show_targets : stexn host unit :=
  in_world (print "The list of Docker targets: ");;
  for_each machine_targets (fun machine =>
    in_world (print ("- Machine: " +:+ machine));;
    if String.eqb machine "generic" then
      for_each mpi_targets (fun mpi => in_world (print ("  - MPI: " +:+ mpi)))
    else mret tt);;
  in_world (print "Note that specific machine has a preset MPI target").

(** [main], after the command line is parsed into [image], [git_branch]
    and [execute]. *)
Definition main (image git_branch : string) (execute : bool) : stexn host unit :=
  (if String.eqb image "yandabase" then
     if execute then in_world (print "Making yandabase image")
     else in_world (print "Making the recipe for yandabase")
   else if String.eqb image "yandasoft" then
     if execute then
       in_world (print ("Making yandasoft image from git branch " +:+ git_branch))
     else
       in_world (print ("Making the recipe for yandasoft image from git branch " +:+
                        git_branch))
   else if String.eqb image "askapsoft" then
     if execute then
       in_world (print ("Making askapsoft image from git branch " +:+ git_branch))
     else
       in_world (print ("Making the recipe for askapsoft image from git branch " +:+
                        git_branch))
   else raise (ValueError [PyStr "Image must be either 'yandabase' or 'yandasoft"]));;
  let name_prepend := docker_account +:+ "/" in
  let name_append := "" in
  for_each machine_targets (fun machine =>
    if String.eqb machine "generic" then
      for_each mpi_targets (fun mpi =>
        if String.eqb image "yandabase" then
          make_yandabase machine (PyStr mpi) name_prepend name_append execute;;
          mret tt
        else if String.eqb image "yandasoft" || String.eqb image "askapsoft" then
          make_yandasoft machine (PyStr mpi) name_prepend name_append git_branch
            image execute;;
          mret tt
        else raise (ValueError [PyStr "Unknown image:"; PyStr image]))
    else
      (* Specific machine *)
      if String.eqb image "yandabase" then
        make_yandabase machine PyNone name_prepend name_append execute;;
        mret tt
      else if String.eqb image "yandasoft" || String.eqb image "askapsoft" then
        make_yandasoft machine (PyStr machine) name_prepend name_append git_branch
          image execute;;
        mret tt
      else raise (ValueError [PyStr "Unknown image:"; PyStr image])).

End Orchestration.

Definition empty_host : host := {| disk := empty_world; ran := [] |}.

(** ** More vocabulary *)

(** The lines of a recipe that open a build stage. *)
Definition stage_lines (text : string) : list string :=
  List.filter (startswith "FROM ") (lines text).

(** The string holds no forbidden character. *)
Definition clean (s : string) : Prop :=
  forall c, forbidden c -> ~ has_char c s.

(** The calls a user of a build-target record can make to change it. *)
Inductive setter_call : Type :=
  | SetRecipeName (v : pyval)
  | SetRecipe (v : pyval)
  | SetImageName (v : pyval).

Definition run_setter (c : setter_call) : stexn DockerClass unit :=
  match c with
  | SetRecipeName v => set_recipe_name v
  | SetRecipe v => set_recipe v
  | SetImageName v => set_image_name v
  end.

(** The record after a sequence of calls, each of which may have raised
    (and was caught by the caller). *)
Definition after_calls (calls : list setter_call) (self : DockerClass) : DockerClass :=
  fold_left (fun d c => snd (run_setter c d)) calls self.

(** The shape of the build command. *)
Definition docker_build (image_name recipe_name : string) : string :=
  "docker build --no-cache --pull -t " +:+ image_name +:+ " -f " +:+ recipe_name +:+ " .".

(** The host after a target was written and then built or announced. *)
Definition deliver (execute : bool) (target : DockerClass) (h : host) : host :=
  {| disk :=
       {| files := <[recipe_name target := recipe target]> (files (disk h));
          stdout := stdout (disk h) ++
            (if execute then []
             else [docker_build (image_name target) (recipe_name target)]) |};
     ran := ran h ++
       (if execute then [docker_build (image_name target) (recipe_name target)]
        else []) |}.

(** The text ends a line: nothing stands behind its last line break. *)
Definition ended (text : string) : Prop := exists ls, lines text = ls ++ [""].

(** The part of a product's names that tells the revision: [dev-] for
    [develop], nothing for [master], and the first three characters of a
    release tag with a dash. *)
Definition revision_part (git_branch : string) : string :=
  if String.eqb git_branch "develop" then "dev-"
  else if String.eqb git_branch "master" then ""
  else slice 0 3 git_branch +:+ "-".

(** The variant [v] that a machine and the [mpi] argument stand for: the
    argument on the generic machine, the machine's own name on [galaxy]. *)
Definition variant (machine : string) (mpi : pyval) (v : string) : Prop :=
  (machine = "generic" /\ mpi = PyStr v) \/ (machine = "galaxy" /\ v = "galaxy").

(** The image a production stage starts from. *)
Definition production_base (machine v : string) : string :=
  if String.eqb machine "generic" then "csirocass/base:" +:+ v
  else "pawsey/mpich-base:3.1.4_ubuntu18.04".

Definition is_release_tag (git_branch : string) : bool :=
  negb (String.eqb git_branch "develop" || String.eqb git_branch "master").

(** The host after the targets were delivered one after the other. *)
Definition deliver_all (execute : bool) (targets : list DockerClass) (h : host) : host :=
  fold_left (fun h target => deliver execute target h) targets h.

(** The base-image target of a variant of the generic machine, as [main]
    asks for it. *)
Definition generic_yandabase (script_file : string) (nproc_available : Z) (m : string)
  : DockerClass :=
  {| recipe_name := ".gitlab-docker-yandabase-" +:+ m;
     image_name := "csirocass/yandabase:" +:+ m;
     recipe := header script_file +:+
               ("FROM csirocass/base:" +:+ m +:+ " AS base_image " +:+ nl) +:+
               yandabase_recipe nproc_available |}.

(** The product target of a variant of the generic machine, as [main] asks
    for it. *)
Definition generic_product (script_file : string) (nproc_available : Z)
  (image git_branch m : string) : DockerClass :=
  {| recipe_name := ".gitlab-docker-" +:+ image +:+ "-" +:+ revision_part git_branch +:+ m;
     image_name := "csirocass/" +:+ image +:+ ":" +:+ revision_part git_branch +:+ m;
     recipe :=
       header script_file +:+
       match make_big_yandasoft_recipe nproc_available ("csirocass/yandabase:" +:+ m)
               image git_branch with
       | Ok big =>
           if is_release_tag git_branch
           then big +:+ make_small_yandasoft_recipe (production_base "generic" m)
           else big
       | Raise _ => ""
       end +:+ recipe_end |}.

(** What [make_batch_file] leaves behind once the text of the batch file is
    known: its line is printed, and then the file is opened and written, or
    the error of [open] is raised. *)
Definition batch_written (machine mpi text : string) (w : world) : result unit * world :=
  let batch_file := "sample-" +:+ machine +:+ "-" +:+ mpi +:+ ".sbatch" in
  let printed := stdout w ++ ["Making batch file: " +:+ batch_file] in
  match open_error batch_file with
  | None => (Ok tt, {| files := <[batch_file := text]> (files w); stdout := printed |})
  | Some e => (Raise e, {| files := files w; stdout := printed |})
  end.

(** * Properties *)

(** ** Evaluations on the inputs named by the specification *)

Example forbidden_chars_length : length forbidden_chars = 23%nat.
Proof. reflexivity. Qed.

Example is_proper_name_ok : is_proper_name (PyStr ".gitlab-docker-yandabase-mpich") = Ok true.
Proof. reflexivity. Qed.

Example is_proper_name_space : is_proper_name (PyStr "a b") = Ok false.
Proof. reflexivity. Qed.

Example findall_digits_ex : findall_digits "ab12.034-5x" = ["12"; "034"; "5"].
Proof. reflexivity. Qed.

Example split_ex : split_version_number "3.3.0" = Ok [3; 3; 0].
Proof. reflexivity. Qed.

Example split_two : split_version_number "3.3" = Ok [].
Proof. reflexivity. Qed.

Example compose_ex : compose_version_number (PyList [4; 0; 12]) = "4.0.12".
Proof. reflexivity. Qed.

Example compose_none : compose_version_number PyNone = "".
Proof. reflexivity. Qed.

Example parse_mpich : get_mpi_type_and_version (PyStr "mpich") = Ok ("mpich", PyNone).
Proof. reflexivity. Qed.

Example parse_openmpi : get_mpi_type_and_version (PyStr "openmpi") = Ok ("openmpi", PyNone).
Proof. reflexivity. Qed.

Example parse_mpich_330 :
  get_mpi_type_and_version (PyStr "mpich-3.3.0") = Ok ("mpich", PyList [3; 3; 0]).
Proof. reflexivity. Qed.

Example parse_openmpi_401 :
  get_mpi_type_and_version (PyStr "openmpi-4.0.1") = Ok ("openmpi", PyList [4; 0; 1]).
Proof. reflexivity. Qed.

Example parse_abcde :
  get_mpi_type_and_version (PyStr "abcde") = Raise (ValueError [PyStr "Expecting mpich:"; PyStr "abcde"]).
Proof. reflexivity. Qed.

Example parse_ab :
  get_mpi_type_and_version (PyStr "ab") = Raise (ValueError [PyStr "MPI name is too short:"; PyStr "ab"]).
Proof. reflexivity. Qed.

Example parse_openmpi4 : is_value_error (get_mpi_type_and_version (PyStr "openmpi4")) = true.
Proof. reflexivity. Qed.

(** ** Characters of a string *)

Lemma has_charb_spec c s : has_charb c s = true <-> has_char c s.
Proof.
  unfold has_char. induction s as [|b s IH]; simpl.
  - split; [discriminate | tauto].
  - rewrite orb_true_iff, IH, Ascii.eqb_eq. intuition congruence.
Qed.

Lemma has_charb_false c s : has_charb c s = false <-> ~ has_char c s.
Proof.
  rewrite <- has_charb_spec. destruct (has_charb c s); intuition congruence.
Qed.

Lemma has_charb_app c a b : has_charb c (a +:+ b) = has_charb c a || has_charb c b.
Proof.
  induction a as [|x a IH]; simpl; [reflexivity|].
  change (String x a +:+ b) with (String x (a +:+ b)). simpl.
  rewrite IH. apply orb_assoc.
Qed.

Lemma find_char_nonneg s : forall i c,
  0 <= i -> (find_from i (String c "") s >=? 0) = has_charb c s.
Proof.
  induction s as [|b s IH]; intros i c Hi.
  - reflexivity.
  - simpl. destruct (Ascii.eqb c b); simpl.
    + apply Z.geb_le. lia.
    + apply IH. lia.
Qed.

Lemma str_find_char s c : (str_find s (String c "") >=? 0) = has_charb c s.
Proof. apply find_char_nonneg. lia. Qed.

Lemma no_forbidden_spec f s :
  no_forbidden (list_of_str f) s = true <->
  forall c, has_char c f -> ~ has_char c s.
Proof.
  induction f as [|b f IH]; simpl.
  - unfold has_char. simpl. intuition.
  - rewrite str_find_char. destruct (has_charb b s) eqn:E.
    + split; [discriminate|]. intros H. exfalso.
      apply (H b); [left; reflexivity | now apply has_charb_spec].
    + rewrite IH. apply has_charb_false in E. unfold has_char in *. simpl.
      split.
      * intros H c [<-|Hc]; auto.
      * intros H c Hc. apply H. now right.
Qed.

Lemma is_proper_name_true_iff s :
  is_proper_name (PyStr s) = Ok true <->
  s <> "" /\ forall c, forbidden c -> ~ has_char c s.
Proof.
  unfold is_proper_name, forbidden.
  change forbidden_chars with (list_of_str forbidden_chars_string).
  destruct (String.eqb_spec s "") as [->|Hne].
  - split; [discriminate | intros [H _]; congruence].
  - rewrite <- no_forbidden_spec.
    destruct (no_forbidden _ s); intuition congruence.
Qed.

Lemma is_proper_name_str s : exists b, is_proper_name (PyStr s) = Ok b.
Proof. unfold is_proper_name. destruct (String.eqb s ""); eauto. Qed.

Lemma is_proper_name_true_str v : is_proper_name v = Ok true -> is_str v = true.
Proof. destruct v; simpl; congruence. Qed.

(** ** The name validator *)

(** C5.  [is_proper_name] answers false on the empty string and on every
    string that holds a character of the forbidden set, true on every other
    non-empty string, and raises a type error on every argument that is not
    a string. *)
Theorem is_proper_name_contract :
  is_proper_name (PyStr "") = Ok false /\
  (forall s c, forbidden c -> has_char c s -> is_proper_name (PyStr s) = Ok false) /\
  (forall s, s <> "" -> (forall c, forbidden c -> ~ has_char c s) ->
             is_proper_name (PyStr s) = Ok true) /\
  (forall v, is_str v = false -> is_type_error (is_proper_name v) = true).
Proof.
  split; [reflexivity|]. split; [|split].
  - intros s c Hf Hc. destruct (is_proper_name_str s) as [[|] Hb]; [|exact Hb].
    apply is_proper_name_true_iff in Hb as [_ Hb]. destruct (Hb c Hf Hc).
  - intros s Hne Hall. now apply is_proper_name_true_iff.
  - intros [] Hv; simpl in *; congruence.
Qed.

(** The forbidden set, character by character: the punctuation
    [? ! @ # $ % ^ & * ; < > |], the double quote, the space, and the
    control characters 7 to 13. *)
Lemma forbidden_enumerated c :
  forbidden c <->
  In c ["?"; "!"; "@"; "#"; "$"; "%"; "^"; "&"; "*"; " "; ";"; "<"; ">"; "|";
        "034"; "007"; "008"; "009"; "010"; "011"; "012"; "013"]%char.
Proof.
  unfold forbidden, has_char.
  change (list_ascii_of_string forbidden_chars_string) with
    ["?"; "!"; "@"; "#"; "$"; "%"; "^"; "&"; "*"; " "; ";"; "<"; ">"; "?"; "|";
     "034"; "007"; "008"; "012"; "010"; "013"; "009"; "011"]%char.
  simpl. intuition.
Qed.

(** ** Strings: append and split *)

Lemma app_empty_r (s : string) : s +:+ "" = s.
Proof. induction s as [|c s IH]; [reflexivity|]. unfold String.app in *. simpl. now rewrite IH. Qed.

Lemma app_assoc_str (a b c : string) : (a +:+ b) +:+ c = a +:+ (b +:+ c).
Proof. induction a as [|x a IH]; [reflexivity|]. unfold String.app in *. simpl. now rewrite IH. Qed.

Lemma app_cons (x : ascii) (a b : string) : String x a +:+ b = String x (a +:+ b).
Proof. reflexivity. Qed.

Lemma app_snoc (a : string) (x : ascii) (b : string) :
  (a +:+ String x "") +:+ b = a +:+ String x b.
Proof. now rewrite app_assoc_str. Qed.

Lemma str_split_go_nonempty sep s : forall cur, str_split_go sep cur s <> [].
Proof.
  induction s as [|c s IH]; intros cur; simpl; [discriminate|].
  destruct (Ascii.eqb c sep); [discriminate | apply IH].
Qed.

Lemma str_split_go_no_sep sep a : forall cur s,
  has_charb sep a = false ->
  str_split_go sep cur (a +:+ s) = str_split_go sep (cur +:+ a) s.
Proof.
  induction a as [|c a IH]; intros cur s H.
  - now rewrite app_empty_r.
  - simpl in H. apply orb_false_elim in H as [Hc Ha].
    rewrite app_cons. simpl. rewrite Ascii.eqb_sym, Hc, (IH _ _ Ha).
    now rewrite app_snoc.
Qed.

Lemma str_split_go_sep sep cur s :
  str_split_go sep cur (String sep s) = cur :: str_split_go sep "" s.
Proof. simpl. now rewrite Ascii.eqb_refl. Qed.

Lemma str_split_go_end sep cur : str_split_go sep cur "" = [cur].
Proof. reflexivity. Qed.


(** ** Opening a file for writing *)

(** A name of one component, other than the two names of directories, can
    be opened. *)
Lemma open_error_plain (name : string) :
  no_path_chars name -> name <> "" -> name <> "." -> name <> ".." ->
  open_error name = None.
Proof.
  intros [Hs Hn] H0 H1 H2. unfold open_error.
  change (chr 0) with (String nul ""). rewrite str_find_char, Hn.
  unfold str_split.
  rewrite <- (app_empty_r name) at 2.
  rewrite str_split_go_no_sep by exact Hs.
  cbn [str_split_go open_components]. change ("" +:+ name) with name.
  apply String.eqb_neq in H0, H1, H2. now rewrite H0, H1, H2.
Qed.

Lemma no_path_chars_app (a b : string) :
  no_path_chars (a +:+ b) <-> no_path_chars a /\ no_path_chars b.
Proof.
  unfold no_path_chars. rewrite !has_charb_app, !orb_false_iff. tauto.
Qed.

(** A name of the program starts with two characters that are not a slash,
    the second of them not a dot either: it can be opened exactly when it
    is one component without a NUL. *)
Lemma open_error_named (a b : ascii) (s : string) :
  a <> "/"%char -> b <> "."%char -> b <> "/"%char ->
  open_error (String a (String b s)) = None <-> no_path_chars (String a (String b s)).
Proof.
  intros Ha Hdot Hslash. split.
  - unfold open_error, no_path_chars.
    change (chr 0) with (String nul ""). rewrite str_find_char.
    destruct (has_charb nul (String a (String b s))); [discriminate|].
    intros H. split; [|reflexivity].
    destruct (has_charb "/" (String a (String b s))) eqn:E; [exfalso | reflexivity].
    revert H. unfold str_split. cbn [str_split_go].
    rewrite (proj2 (Ascii.eqb_neq a "/") Ha), (proj2 (Ascii.eqb_neq b "/") Hslash).
    change (("" +:+ String a "") +:+ String b "") with (String a (String b "")).
    cbn [has_charb] in E.
    rewrite (Ascii.eqb_sym "/" a), (Ascii.eqb_sym "/" b),
      (proj2 (Ascii.eqb_neq a "/") Ha), (proj2 (Ascii.eqb_neq b "/") Hslash) in E.
    cbn [orb] in E.
    assert (G : forall t cur, has_charb "/" t = true ->
              exists x rest,
                str_split_go "/" (String a (String b cur)) t =
                  String a (String b x) :: rest /\ rest <> []).
    { induction t as [|c t IH]; intros cur Ht; [discriminate|].
      cbn [str_split_go]. destruct (Ascii.eqb_spec c "/") as [->|Hc].
      - exists cur, (str_split_go "/" "" t). split; [reflexivity|].
        apply str_split_go_nonempty.
      - cbn [has_charb] in Ht.
        rewrite Ascii.eqb_sym, (proj2 (Ascii.eqb_neq c "/") Hc) in Ht.
        rewrite !app_cons. apply IH. exact Ht. }
    destruct (G s "" E) as (x & rest & -> & Hrest).
    destruct rest as [|r rest]; [congruence|].
    cbn [open_components negb andb orb].
    assert (Hx : String.eqb (String a (String b x)) "." = false)
      by (apply String.eqb_neq; discriminate).
    rewrite Hx. discriminate.
  - intros H. apply open_error_plain; [exact H | discriminate | discriminate |].
    intros [= _ ? _]. contradiction.
Qed.

Ltac solve_path :=
  repeat match goal with
         | |- no_path_chars (_ +:+ _) => apply no_path_chars_app; split
         | |- no_path_chars _ => first [assumption | split; reflexivity]
         end.

Lemma write_file_ok (name text : string) (w : world) :
  open_error name = None ->
  write_file name text w =
    (Ok tt, {| files := <[name := text]> (files w); stdout := stdout w |}).
Proof.
  intros H. unfold write_file, mbind, stexn_bind, open_w, file_write. rewrite H.
  cbn [files stdout]. now rewrite insert_insert_eq.
Qed.

Lemma write_file_raise (name text : string) (w : world) (e : exn) :
  open_error name = Some e -> write_file name text w = (Raise e, w).
Proof.
  intros H. unfold write_file, mbind, stexn_bind, open_w. now rewrite H.
Qed.

(** ** The build-target record *)

Lemma eqb_empty_false s : s <> "" -> String.eqb s "" = false.
Proof. intros H. now apply String.eqb_neq. Qed.

(** C7.  With the recipe file name and the image name both set, the build
    command is exactly
    [docker build --no-cache --pull -t <image-name> -f <recipe-name> .] *)
Theorem get_build_command_shape (self : DockerClass) :
  recipe_name self <> "" -> image_name self <> "" ->
  get_build_command self =
    Ok ("docker build --no-cache --pull -t " +:+ image_name self +:+ " -f " +:+
        recipe_name self +:+ " .").
Proof.
  intros Hr Hi. unfold get_build_command.
  now rewrite (eqb_empty_false _ Hr), (eqb_empty_false _ Hi).
Qed.

Lemma get_build_command_shape_witness :
  get_build_command
    {| recipe_name := ".gitlab-docker-yandabase-mpich";
       image_name := "csirocass/yandabase:mpich";
       recipe := "FROM csirocass/base:mpich AS base_image " |} =
  Ok "docker build --no-cache --pull -t csirocass/yandabase:mpich -f .gitlab-docker-yandabase-mpich .".
Proof.
  apply (get_build_command_shape
           {| recipe_name := ".gitlab-docker-yandabase-mpich";
              image_name := "csirocass/yandabase:mpich";
              recipe := "FROM csirocass/base:mpich AS base_image " |});
    simpl; discriminate.
Defined.

(** C8.  [get_build_command] raises a value error when the recipe file name
    or the image name is unset, [write_recipe] raises a value error (and
    writes nothing) when the recipe file name or the recipe text is unset;
    an operation that succeeds had both of its fields set. *)
Theorem unset_field_raises (self : DockerClass) :
  (recipe_name self = "" \/ image_name self = "" ->
   is_value_error (get_build_command self) = true) /\
  (forall w, recipe_name self = "" \/ recipe self = "" ->
   is_value_error (fst (write_recipe self w)) = true /\
   snd (write_recipe self w) = w) /\
  (forall cmd, get_build_command self = Ok cmd ->
   recipe_name self <> "" /\ image_name self <> "") /\
  (forall w w', write_recipe self w = (Ok tt, w') ->
   recipe_name self <> "" /\ recipe self <> "").
Proof.
  unfold get_build_command, write_recipe, raise.
  destruct (String.eqb_spec (recipe_name self) "") as [Hr|Hr];
    destruct (String.eqb_spec (image_name self) "") as [Hi|Hi];
    destruct (String.eqb_spec (recipe self) "") as [Ht|Ht];
    simpl; repeat split; try congruence; intuition congruence.
Qed.

(** What [write_recipe] does when the file can be opened: the file named
    [recipe_name] holds the recipe text, whatever it held before. *)
Lemma write_recipe_writes (self : DockerClass) w :
  recipe_name self <> "" -> recipe self <> "" ->
  open_error (recipe_name self) = None ->
  fst (write_recipe self w) = Ok tt /\
  files (snd (write_recipe self w)) !! recipe_name self = Some (recipe self).
Proof.
  intros Hr Ht Ho. unfold write_recipe.
  rewrite (eqb_empty_false _ Hr), (eqb_empty_false _ Ht), (write_file_ok _ _ _ Ho).
  split; [reflexivity | apply lookup_insert_eq].
Qed.

Lemma is_proper_name_invalid v :
  invalid_name v -> is_str v = true -> is_proper_name v = Ok false.
Proof.
  destruct v as [| | |s|]; simpl; try discriminate. intros H _.
  destruct (is_proper_name_str s) as [[|] Hb]; [|exact Hb].
  apply is_proper_name_true_iff in Hb as [Hne Hb].
  destruct H as [->|(c & Hf & Hc)]; [congruence | destruct (Hb c Hf Hc)].
Qed.

Lemma set_recipe_name_invalid v self :
  invalid_name v -> raises_unchanged set_recipe_name v self.
Proof.
  intros H. unfold raises_unchanged, set_recipe_name, mbind, stexn_bind, lift.
  destruct (is_str v) eqn:Hs.
  - now rewrite (is_proper_name_invalid v H Hs).
  - destruct v; simpl in *; try discriminate; auto.
Qed.

Lemma set_image_name_invalid v self :
  invalid_name v -> raises_unchanged set_image_name v self.
Proof.
  intros H. unfold raises_unchanged, set_image_name, mbind, stexn_bind, lift.
  destruct (is_str v) eqn:Hs.
  - now rewrite (is_proper_name_invalid v H Hs).
  - destruct v; simpl in *; try discriminate; auto.
Qed.

Lemma set_recipe_invalid v self :
  invalid_text v -> raises_unchanged set_recipe v self.
Proof.
  unfold raises_unchanged, set_recipe. destruct v; simpl; auto.
  intros ->. auto.
Qed.

Lemma set_recipe_accepts s self :
  s <> "" ->
  set_recipe (PyStr s) self =
    (Ok tt, {| recipe_name := recipe_name self; image_name := image_name self;
               recipe := s |}).
Proof.
  intros H. unfold set_recipe. now rewrite (eqb_empty_false _ H).
Qed.

(** A setter that succeeds changes its own field only. *)
Lemma set_recipe_name_accepts s self :
  is_proper_name (PyStr s) = Ok true ->
  set_recipe_name (PyStr s) self =
    (Ok tt, {| recipe_name := s; image_name := image_name self;
               recipe := recipe self |}).
Proof.
  intros H. unfold set_recipe_name, mbind, stexn_bind, lift. now rewrite H.
Qed.

Lemma set_image_name_accepts s self :
  is_proper_name (PyStr s) = Ok true ->
  set_image_name (PyStr s) self =
    (Ok tt, {| recipe_name := recipe_name self; image_name := s;
               recipe := recipe self |}).
Proof.
  intros H. unfold set_image_name, mbind, stexn_bind, lift. now rewrite H.
Qed.

(** C10, as the code has it.  [set_recipe_name] and [set_image_name] raise
    and leave every field of the record unchanged on an argument that is not
    a string, is empty, or holds a forbidden character.  [set_recipe] raises
    and leaves every field unchanged on an argument that is not a string or
    is empty; it accepts every non-empty string, forbidden characters
    included, and then changes the recipe text only. *)
Theorem setters_atomic (v : pyval) (self : DockerClass) :
  (invalid_name v -> raises_unchanged set_recipe_name v self) /\
  (invalid_name v -> raises_unchanged set_image_name v self) /\
  (invalid_text v -> raises_unchanged set_recipe v self) /\
  (forall s, v = PyStr s -> s <> "" ->
     set_recipe v self =
       (Ok tt, {| recipe_name := recipe_name self; image_name := image_name self;
                  recipe := s |})).
Proof.
  split; [apply set_recipe_name_invalid|].
  split; [apply set_image_name_invalid|].
  split; [apply set_recipe_invalid|].
  intros s -> Hs. now apply set_recipe_accepts.
Qed.

(** C10, as stated, fails for [set_recipe]: a recipe text with a space (a
    forbidden character of names) is stored, not refused. *)
Lemma set_recipe_keeps_forbidden_chars :
  invalid_name (PyStr "FROM base") /\
  set_recipe (PyStr "FROM base") new_DockerClass =
    (Ok tt, {| recipe_name := ""; image_name := ""; recipe := "FROM base" |}) /\
  ~ raises_unchanged set_recipe (PyStr "FROM base") new_DockerClass.
Proof.
  split; [|split].
  - right. exists " "%char. split.
    + apply forbidden_enumerated. simpl. tauto.
    + unfold has_char. simpl. tauto.
  - reflexivity.
  - intros [H _]. discriminate H.
Qed.

(** ** Strings: append *)

#[local] Arguments isdigit : simpl never.

Lemma all_chars_app p a b : all_chars p (a +:+ b) = all_chars p a && all_chars p b.
Proof.
  induction a as [|x a IH]; [reflexivity|].
  rewrite app_cons. simpl. rewrite IH. apply andb_assoc.
Qed.

(** ** The scan for runs of digits *)

Lemma all_digits_cons c s : all_digits (String c s) = isdigit c && all_digits s.
Proof. reflexivity. Qed.

Lemma no_digits_cons c s : no_digits (String c s) = negb (isdigit c) && no_digits s.
Proof. reflexivity. Qed.

Lemma no_digits_cons_intro c s :
  isdigit c = false -> no_digits s = true -> no_digits (String c s) = true.
Proof. intros Hc Hs. now rewrite no_digits_cons, Hc, Hs. Qed.

Lemma all_digits_cons_intro c s :
  isdigit c = true -> all_digits s = true -> all_digits (String c s) = true.
Proof. intros Hc Hs. now rewrite all_digits_cons, Hc, Hs. Qed.

Lemma no_digits_cons_inv c s :
  no_digits (String c s) = true -> isdigit c = false /\ no_digits s = true.
Proof.
  rewrite no_digits_cons. intros H. apply andb_prop in H as [Hc Hs].
  apply negb_true_iff in Hc. now split.
Qed.

Lemma flush_nonempty r : r <> "" -> flush r = [r].
Proof. destruct r; [congruence | reflexivity]. Qed.

Lemma go_digits r : forall cur s,
  all_digits r = true ->
  findall_digits_go cur (r +:+ s) = findall_digits_go (cur +:+ r) s.
Proof.
  induction r as [|c r IH]; intros cur s H.
  - now rewrite app_empty_r.
  - rewrite all_digits_cons in H. apply andb_prop in H as [Hc Hr].
    rewrite app_cons. simpl. rewrite Hc, (IH _ _ Hr). now rewrite app_snoc.
Qed.

Lemma go_no_digits sep : forall s,
  no_digits sep = true ->
  findall_digits_go "" (sep +:+ s) = findall_digits_go "" s.
Proof.
  induction sep as [|c sep IH]; intros s H; [reflexivity|].
  apply no_digits_cons_inv in H as [Hc Hr].
  rewrite app_cons. simpl. rewrite Hc. now apply IH.
Qed.

Lemma go_stop cur c rest :
  isdigit c = false ->
  findall_digits_go cur (String c rest) = flush cur ++ findall_digits_go "" (String c rest).
Proof. intros H. simpl. now rewrite H. Qed.

(** The scan returns the maximal runs of digits, and nothing else does. *)
Lemma digit_runs_findall s rs : digit_runs s rs -> findall_digits s = rs.
Proof.
  unfold findall_digits. induction 1 as [sep H|sep r H Hne Hr|sep r c rest rs H Hne Hr Hc _ IH].
  - rewrite <- (app_empty_r sep). now rewrite go_no_digits.
  - rewrite go_no_digits by assumption.
    rewrite <- (app_empty_r r) at 1. rewrite go_digits by assumption.
    simpl. now apply flush_nonempty.
  - rewrite go_no_digits, go_digits by assumption. simpl (_ +:+ r).
    rewrite go_stop by assumption. now rewrite flush_nonempty, IH.
Qed.

Lemma digit_runs_cons_no_digit c s rs :
  isdigit c = false -> digit_runs s rs -> digit_runs (String c s) rs.
Proof.
  intros Hc H. inversion H as [sep Hs|sep r Hs Hne Hr|sep r d rest rs' Hs Hne Hr Hd Hrest]; subst.
  - apply runs_none. now apply no_digits_cons_intro.
  - rewrite <- app_cons. apply runs_last; auto. now apply no_digits_cons_intro.
  - rewrite <- app_cons. apply runs_more; auto. now apply no_digits_cons_intro.
Qed.

Lemma digit_runs_cons_digit c s rs :
  isdigit c = true -> digit_runs s rs ->
  exists rs', digit_runs (String c s) rs'.
Proof.
  intros Hc H.
  assert (Hone : all_digits (String c "") = true) by now apply all_digits_cons_intro.
  inversion H as [sep Hs|sep r Hs Hne Hr|sep r d rest rs' Hs Hne Hr Hd Hrest]; subst.
  - destruct s as [|d sep].
    + exists [String c ""]. apply (runs_last "" (String c "")); auto; discriminate.
    + apply no_digits_cons_inv in Hs as [Hd Hs].
      exists [String c ""].
      apply (runs_more "" (String c "") d sep []); auto; discriminate.
  - destruct sep as [|d sep].
    + exists [String c r]. apply (runs_last "" (String c r)); auto; try discriminate.
      now apply all_digits_cons_intro.
    + apply no_digits_cons_inv in Hs as [Hd Hs].
      exists [String c ""; r]. rewrite app_cons.
      apply (runs_more "" (String c "") d (sep +:+ r) [r]); auto; discriminate.
  - destruct sep as [|e sep].
    + exists (String c r :: rs').
      apply (runs_more "" (String c r) d rest rs'); auto; try discriminate.
      now apply all_digits_cons_intro.
    + exists (String c "" :: r :: rs').
      destruct (no_digits_cons_inv _ _ Hs) as [He _]. rewrite app_cons.
      apply (runs_more "" (String c "") e (sep +:+ r +:+ String d rest) (r :: rs'));
        auto; discriminate.
Qed.

Lemma digit_runs_exists s : exists rs, digit_runs s rs.
Proof.
  induction s as [|c s [rs IH]].
  - exists []. now apply runs_none.
  - destruct (isdigit c) eqn:Hc.
    + eapply digit_runs_cons_digit; eauto.
    + exists rs. now apply digit_runs_cons_no_digit.
Qed.

Lemma findall_digit_runs s : digit_runs s (findall_digits s).
Proof.
  destruct (digit_runs_exists s) as [rs H].
  now rewrite (digit_runs_findall s rs H).
Qed.

Lemma digit_runs_wf s rs :
  digit_runs s rs -> Forall (fun r => r <> "" /\ all_digits r = true) rs.
Proof. induction 1; repeat constructor; auto. Qed.

Lemma findall_digits_wf s :
  Forall (fun r => r <> "" /\ all_digits r = true) (findall_digits s).
Proof. exact (digit_runs_wf _ _ (findall_digit_runs s)). Qed.

(** ** Reading and printing decimal numerals *)

Lemma digits_value_uint d : forall acc,
  digits_value_from acc (NilEmpty.string_of_uint d) =
  acc * 10 ^ Z.of_N (DecimalPos.Unsigned.usize d) +
  Z.of_N (DecimalPos.Unsigned.of_lu (Decimal.rev d)).
Proof.
  induction d; intros acc; simpl NilEmpty.string_of_uint;
    [ simpl; lia | .. ];
    unfold Decimal.rev; simpl Decimal.revapp;
    rewrite (DecimalPos.Unsigned.of_lu_revapp d);
    cbn [digits_value_from]; rewrite IHd;
    simpl DecimalPos.Unsigned.usize; simpl DecimalPos.Unsigned.of_lu;
    rewrite N2Z.inj_add, N2Z.inj_mul, N2Z.inj_pow, N2Z.inj_succ, Z.pow_succ_r
      by apply N2Z.is_nonneg;
    unfold digit_value; simpl Z.of_N;
    match goal with
    | |- context [Z.of_nat (nat_of_ascii ?c)] =>
        let v := eval vm_compute in (Z.of_nat (nat_of_ascii c)) in
        change (Z.of_nat (nat_of_ascii c)) with v
    end;
    ring.
Qed.

Lemma of_uint_digits_value d : Z.of_uint d = digits_value (NilEmpty.string_of_uint d).
Proof.
  unfold digits_value. rewrite digits_value_uint.
  unfold Z.of_uint. rewrite DecimalPos.Unsigned.of_uint_alt. lia.
Qed.

Lemma isdigit_uint_of_char c o :
  isdigit c = true -> forall d, o = Some d -> exists d', uint_of_char c o = Some d'.
Proof.
  intros Hc d ->.
  destruct c as [[] [] [] [] [] [] [] []]; try discriminate Hc; simpl; eauto.
Qed.

Lemma all_digits_uint r :
  all_digits r = true -> exists d, NilEmpty.uint_of_string r = Some d.
Proof.
  induction r as [|c r IH]; intros H.
  - exists Decimal.Nil. reflexivity.
  - rewrite all_digits_cons in H. apply andb_prop in H as [Hc Hr].
    destruct (IH Hr) as [d Hd]. simpl.
    now apply (isdigit_uint_of_char c _ Hc d).
Qed.

(** [int] on a non-empty string of digits is its value in base ten. *)
Lemma py_int_digits r :
  r <> "" -> all_digits r = true -> py_int r = Ok (digits_value r).
Proof.
  intros Hne Hr. destruct (all_digits_uint r Hr) as [d Hd].
  unfold py_int. rewrite Hd. destruct r; [congruence|].
  now rewrite of_uint_digits_value, (NilEmpty.sus _ _ Hd).
Qed.

Lemma mapM_py_int rs :
  Forall (fun r => r <> "" /\ all_digits r = true) rs ->
  mapM py_int rs = Ok (map digits_value rs).
Proof.
  induction 1 as [|r rs [Hne Hr] _ IH]; [reflexivity|].
  cbn [mapM map]. rewrite (py_int_digits r Hne Hr). cbn. rewrite IH. reflexivity.
Qed.

(** ** Splitting a version number *)

Lemma split_version_number_eq s :
  split_version_number s =
  Ok (if (length (findall_digits s) =? 3)%nat then map digits_value (findall_digits s)
      else []).
Proof.
  unfold split_version_number.
  destruct (length (findall_digits s) =? 3)%nat; [|reflexivity].
  apply mapM_py_int, findall_digits_wf.
Qed.

(** [split_version_number] never raises, and returns nothing or a triple. *)
Lemma split_version_number_total s :
  exists l, split_version_number s = Ok l /\ (l = [] \/ length l = 3%nat).
Proof.
  rewrite split_version_number_eq. eexists. split; [reflexivity|].
  destruct (Nat.eqb_spec (length (findall_digits s)) 3) as [E|E]; [right|now left].
  now rewrite length_map.
Qed.

Lemma split_three_runs s x y z :
  digit_runs s [x; y; z] ->
  split_version_number s = Ok [digits_value x; digits_value y; digits_value z].
Proof.
  intros H. apply digit_runs_findall in H.
  now rewrite split_version_number_eq, H.
Qed.

(** C6.  Where [rs] are the maximal runs of digits of the input,
    [split_version_number] returns the empty list when [rs] does not count
    exactly three runs, and the values of the three runs, in order, when it
    does. *)
Theorem split_version_number_runs (s : string) (rs : list string) :
  digit_runs s rs ->
  (length rs <> 3%nat -> split_version_number s = Ok []) /\
  (forall x y z, rs = [x; y; z] ->
     split_version_number s = Ok [digits_value x; digits_value y; digits_value z]).
Proof.
  intros H. apply digit_runs_findall in H. rewrite split_version_number_eq, H.
  split.
  - intros Hn. apply Nat.eqb_neq in Hn. now rewrite Hn.
  - intros x y z ->. reflexivity.
Qed.

Lemma split_version_number_runs_witness :
  digit_runs "v10.2-rc30" ["10"; "2"; "30"] /\
  split_version_number "v10.2-rc30" = Ok [10; 2; 30].
Proof.
  assert (H : digit_runs "v10.2-rc30" ["10"; "2"; "30"]).
  { apply (runs_more "v" "10" "." "2-rc30"); try reflexivity; try discriminate.
    apply (runs_more "." "2" "-" "rc30"); try reflexivity; try discriminate.
    apply (runs_last "-rc" "30"); try reflexivity; discriminate. }
  split; [exact H|].
  exact (proj2 (split_version_number_runs "v10.2-rc30" ["10"; "2"; "30"] H)
           "10" "2" "30" eq_refl).
Defined.

(** The value of a string of digits is not negative. *)

Lemma digit_value_range c : isdigit c = true -> 0 <= digit_value c <= 9.
Proof.
  intros H. destruct c as [[] [] [] [] [] [] [] []]; try discriminate H;
    vm_compute; split; discriminate.
Qed.

Lemma digits_value_from_nonneg s : forall acc,
  0 <= acc -> all_digits s = true -> 0 <= digits_value_from acc s.
Proof.
  induction s as [|c s IH]; intros acc Hacc H; [exact Hacc|].
  rewrite all_digits_cons in H. apply andb_prop in H as [Hc Hs].
  cbn [digits_value_from]. apply IH; [|exact Hs].
  pose proof (digit_value_range c Hc). lia.
Qed.

Lemma digits_value_nonneg s : all_digits s = true -> 0 <= digits_value s.
Proof. apply digits_value_from_nonneg. lia. Qed.

(** ** Splitting a string at a character *)

Lemma concat_cons sep x l :
  l <> [] -> String.concat sep (x :: l) = x +:+ sep +:+ String.concat sep l.
Proof. destruct l; [congruence | reflexivity]. Qed.

Lemma str_split_go_concat sep s : forall cur,
  String.concat (String sep "") (str_split_go sep cur s) = cur +:+ s.
Proof.
  induction s as [|c s IH]; intros cur; simpl.
  - now rewrite app_empty_r.
  - destruct (Ascii.eqb_spec c sep) as [->|Hne].
    + rewrite concat_cons by apply str_split_go_nonempty.
      now rewrite IH.
    + now rewrite IH, app_snoc.
Qed.

(** Joining the pieces with the separator gives the string back. *)
Lemma str_split_concat sep s :
  String.concat (String sep "") (str_split sep s) = s.
Proof. apply str_split_go_concat. Qed.

(** ** Round trip of the version codec *)

Lemma is_numeral_inv x :
  is_numeral x = true ->
  all_digits x = true /\ x <> "" /\ (x = "0" \/ startswith "0" x = false).
Proof.
  unfold is_numeral. intros H.
  apply andb_prop in H as [H H3]. apply andb_prop in H as [H1 H2].
  split; [exact H1|]. split.
  - apply negb_true_iff in H2. now apply String.eqb_neq.
  - apply orb_prop in H3 as [H3|H3]; [left; now apply String.eqb_eq|right].
    now apply negb_true_iff.
Qed.

(** [str] prints back the numeral that [int] read. *)
Lemma py_str_numeral x : is_numeral x = true -> py_str (digits_value x) = x.
Proof.
  intros H. apply is_numeral_inv in H as (Hd & Hne & Hz).
  destruct (all_digits_uint x Hd) as [d Hu].
  pose proof (NilEmpty.sus _ _ Hu) as Hs.
  rewrite <- Hs at 1. rewrite <- of_uint_digits_value.
  unfold py_str. change (Z.of_uint d) with (Z.of_int (Decimal.Pos d)).
  rewrite DecimalZ.to_of. simpl.
  assert (Hn : Decimal.unorm d = d /\ d <> Decimal.Nil).
  { destruct Hz as [->|Hz].
    - simpl in Hu. injection Hu as <-. split; [reflexivity | discriminate].
    - destruct d; simpl in Hs; subst x;
        try (split; [reflexivity | discriminate]); try congruence.
      discriminate Hz. }
  destruct Hn as [-> Hnil]. unfold NilZero.string_of_uint.
  destruct d; congruence.
Qed.

Lemma digit_runs_groups x y z :
  all_digits x = true -> x <> "" -> all_digits y = true -> y <> "" ->
  all_digits z = true -> z <> "" ->
  digit_runs (x +:+ "." +:+ y +:+ "." +:+ z) [x; y; z].
Proof.
  intros Hx Hxn Hy Hyn Hz Hzn.
  apply (runs_more "" x "." (y +:+ "." +:+ z)); auto.
  apply (runs_more "." y "." z); auto.
  now apply (runs_last "." z).
Qed.

Lemma digit_runs_dotted x y z :
  is_numeral x = true -> is_numeral y = true -> is_numeral z = true ->
  digit_runs (x +:+ "." +:+ y +:+ "." +:+ z) [x; y; z].
Proof.
  intros Hx Hy Hz.
  apply is_numeral_inv in Hx as (Hx & Hxn & _).
  apply is_numeral_inv in Hy as (Hy & Hyn & _).
  apply is_numeral_inv in Hz as (Hz & Hzn & _).
  now apply digit_runs_groups.
Qed.

Lemma canonical_version_inv s :
  canonical_version s = true ->
  exists x y z, s = x +:+ "." +:+ y +:+ "." +:+ z /\
    is_numeral x = true /\ is_numeral y = true /\ is_numeral z = true.
Proof.
  unfold canonical_version. intros H.
  pose proof (str_split_concat "." s) as Hs.
  destruct (str_split "." s) as [|x [|y [|z [|? ?]]]]; try discriminate.
  apply andb_prop in H as [H Hz]. apply andb_prop in H as [Hx Hy].
  exists x, y, z. simpl in Hs. now rewrite <- Hs.
Qed.

(** The canonical version strings are what [compose_version_number]
    prints for three non-negative integers. *)

Lemma all_digits_string_of_uint d : all_digits (NilEmpty.string_of_uint d) = true.
Proof. induction d; simpl; auto; rewrite all_digits_cons, IHd; reflexivity. Qed.

Lemma unorm_D0 d : forall e, Decimal.unorm d = Decimal.D0 e -> e = Decimal.Nil.
Proof.
  induction d; intros e H; simpl in H; try discriminate; auto.
  now injection H as <-.
Qed.

Lemma is_numeral_string_of_uint d :
  Decimal.unorm d = d -> d <> Decimal.Nil ->
  is_numeral (NilEmpty.string_of_uint d) = true.
Proof.
  intros Hn Hnil. unfold is_numeral. rewrite all_digits_string_of_uint.
  destruct d; try congruence; try reflexivity.
  simpl in Hn. apply unorm_D0 in Hn as ->. reflexivity.
Qed.

Lemma is_numeral_py_str n : 0 <= n -> is_numeral (py_str n) = true.
Proof.
  intros Hn. destruct n as [|p|p]; [reflexivity| |lia].
  unfold py_str. simpl Z.to_int. unfold NilZero.string_of_int, NilZero.string_of_uint.
  pose proof (DecimalPos.Unsigned.to_uint_nonnil p) as Hnil.
  assert (Hu : Decimal.unorm (Pos.to_uint p) = Pos.to_uint p).
  { rewrite <- DecimalPos.Unsigned.to_of, DecimalPos.Unsigned.of_to. reflexivity. }
  pose proof (is_numeral_string_of_uint _ Hu Hnil) as H.
  destruct (Pos.to_uint p); congruence.
Qed.

Lemma all_digits_no_dot x : all_digits x = true -> has_charb "." x = false.
Proof.
  induction x as [|c x IH]; [reflexivity|].
  rewrite all_digits_cons. intros H. apply andb_prop in H as [Hc Hx].
  cbn [has_charb]. rewrite (IH Hx), orb_false_r.
  destruct (Ascii.eqb_spec "."%char c) as [<-|]; [discriminate Hc | reflexivity].
Qed.

Lemma str_split_dotted x y z :
  all_digits x = true -> all_digits y = true -> all_digits z = true ->
  str_split "." (x +:+ "." +:+ y +:+ "." +:+ z) = [x; y; z].
Proof.
  intros Hx Hy Hz. unfold str_split.
  rewrite str_split_go_no_sep by now apply all_digits_no_dot.
  change ("." +:+ y +:+ "." +:+ z) with (String "." (y +:+ "." +:+ z)).
  rewrite str_split_go_sep.
  rewrite str_split_go_no_sep by now apply all_digits_no_dot.
  change ("." +:+ z) with (String "." z).
  rewrite str_split_go_sep.
  rewrite <- (app_empty_r z) at 1.
  rewrite str_split_go_no_sep by now apply all_digits_no_dot.
  reflexivity.
Qed.

Lemma compose_canonical a b c :
  0 <= a -> 0 <= b -> 0 <= c ->
  canonical_version (compose_version_number (PyList [a; b; c])) = true.
Proof.
  intros Ha Hb Hc. simpl. unfold canonical_version.
  pose proof (is_numeral_py_str a Ha) as Hx.
  pose proof (is_numeral_py_str b Hb) as Hy.
  pose proof (is_numeral_py_str c Hc) as Hz.
  rewrite str_split_dotted by (now apply is_numeral_inv).
  now rewrite Hx, Hy, Hz.
Qed.

Lemma three_part_version_inv s :
  three_part_version s = true ->
  exists x y z, s = x +:+ "." +:+ y +:+ "." +:+ z /\
    (all_digits x = true /\ x <> "") /\ (all_digits y = true /\ y <> "") /\
    (all_digits z = true /\ z <> "").
Proof.
  unfold three_part_version, is_digit_group. intros H.
  pose proof (str_split_concat "." s) as Hs.
  destruct (str_split "." s) as [|x [|y [|z [|? ?]]]]; try discriminate.
  apply andb_prop in H as [H Hz]. apply andb_prop in H as [Hx Hy].
  apply andb_prop in Hx as [Hx Hxn], Hy as [Hy Hyn], Hz as [Hz Hzn].
  apply negb_true_iff, String.eqb_neq in Hxn, Hyn, Hzn.
  exists x, y, z. simpl in Hs. now rewrite <- Hs.
Qed.

Lemma canonical_three_part s : canonical_version s = true -> three_part_version s = true.
Proof.
  unfold canonical_version, three_part_version, is_digit_group, is_numeral.
  destruct (str_split "." s) as [|x [|y [|z [|? ?]]]]; try discriminate.
  intros H. apply andb_prop in H as [H Hz]. apply andb_prop in H as [Hx Hy].
  apply andb_prop in Hx as [-> _], Hy as [-> _], Hz as [-> _]. reflexivity.
Qed.

Lemma is_numeral_printed x :
  all_digits x = true -> py_str (digits_value x) = x -> is_numeral x = true.
Proof.
  intros Hx E. rewrite <- E. apply is_numeral_py_str. now apply digits_value_nonneg.
Qed.

(** C2, as the code has it.  A three-part dotted version string, three
    groups of digits separated by two dots, is always split into three
    integers; composing them gives the string back exactly when the string
    is canonical, that is, when no group has a leading zero that the
    integer does not print. *)
Theorem compose_split_roundtrip (s : string) :
  three_part_version s = true ->
  exists l, split_version_number s = Ok l /\ length l = 3%nat /\
            (compose_version_number (PyList l) = s <-> canonical_version s = true).
Proof.
  intros H.
  apply three_part_version_inv in H as (x & y & z & -> & [Hx Hxn] & [Hy Hyn] & [Hz Hzn]).
  exists [digits_value x; digits_value y; digits_value z].
  split; [apply split_three_runs; now apply digit_runs_groups|].
  split; [reflexivity|]. split.
  - intros E. cbn [compose_version_number map] in E.
    assert (Hs : str_split "." (py_str (digits_value x) +:+ "." +:+
                                py_str (digits_value y) +:+ "." +:+
                                py_str (digits_value z)) = [x; y; z]).
    { simpl in E. rewrite E. now apply str_split_dotted. }
    rewrite str_split_dotted in Hs
      by (apply is_numeral_inv, is_numeral_py_str; now apply digits_value_nonneg).
    injection Hs as Ex Ey Ez.
    unfold canonical_version. rewrite str_split_dotted by assumption.
    now rewrite !is_numeral_printed.
  - intros Hc. apply canonical_version_inv in Hc as (x' & y' & z' & E & Hx' & Hy' & Hz').
    assert (Hs : str_split "." (x +:+ "." +:+ y +:+ "." +:+ z) = [x'; y'; z']).
    { rewrite E. apply str_split_dotted; now apply is_numeral_inv. }
    rewrite str_split_dotted in Hs by assumption.
    injection Hs as <- <- <-. simpl. now rewrite !py_str_numeral.
Qed.

Lemma compose_split_roundtrip_witness :
  exists l, split_version_number "4.0.12" = Ok l /\
            compose_version_number (PyList l) = "4.0.12".
Proof.
  destruct (compose_split_roundtrip "4.0.12" eq_refl) as (l & H & _ & Hc).
  exists l. split; [exact H | apply Hc; reflexivity].
Defined.

(** C2, against the claim as it stands.  The string [1.02.3] is a
    three-part dotted version string, and it is printed back as [1.2.3]. *)
Theorem leading_zero_not_printed_back :
  three_part_version "1.02.3" = true /\
  split_version_number "1.02.3" = Ok [1; 2; 3] /\
  compose_version_number (PyList [1; 2; 3]) = "1.2.3" /\
  compose_version_number (PyList [1; 2; 3]) <> "1.02.3".
Proof. repeat split. discriminate. Qed.

(** ** The MPI-name parser *)

Lemma startswith_take p : forall s,
  String.eqb (str_take (String.length p) s) p = startswith p s.
Proof.
  induction p as [|a p IH]; intros [|b s]; simpl; try reflexivity.
  rewrite IH, Ascii.eqb_sym. now destruct (Ascii.eqb a b).
Qed.

Lemma slice_mpich s : String.eqb (slice 0 5 s) "mpich" = startswith "mpich" s.
Proof. exact (startswith_take "mpich" s). Qed.

Lemma slice_openmpi s : String.eqb (slice 0 7 s) "openmpi" = startswith "openmpi" s.
Proof. exact (startswith_take "openmpi" s). Qed.

Lemma startswith_length p : forall s,
  startswith p s = true -> (String.length p <= String.length s)%nat.
Proof.
  induction p as [|a p IH]; intros [|b s]; simpl; try discriminate; try lia.
  destruct (Ascii.eqb a b); [|discriminate]. intros H. apply IH in H. lia.
Qed.

Lemma parse_suffix_eq family label suffix :
  (int_ver ← split_version_number suffix;
   if (length int_ver =? 3)%nat then Ok (family, PyList int_ver)
   else Raise (ValueError [PyStr label; PyStr suffix])) =
  parse_suffix family label suffix.
Proof.
  rewrite split_version_number_eq. unfold parse_suffix.
  destruct (findall_digits suffix) as [|x [|y [|z [|w l]]]]; reflexivity.
Qed.

Lemma get_mpi_long s :
  (7 < String.length s)%nat ->
  get_mpi_type_and_version (PyStr s) =
    if startswith "mpich" s then
      parse_suffix "mpich" "Illegal mpich version:" (str_drop 6 s)
    else if startswith "openmpi" s then
      parse_suffix "openmpi" "Illegal openmpi version:" (str_drop 8 s)
    else Raise (ValueError [PyStr "Illegal MPI name:"; PyStr s]).
Proof.
  intros H. unfold get_mpi_type_and_version. cbn [py_len mbind result_bind].
  destruct (Nat.ltb_spec (String.length s) 5); [lia|].
  destruct (Nat.eqb_spec (String.length s) 5); [lia|].
  destruct (Nat.eqb_spec (String.length s) 6); [lia|].
  destruct (Nat.eqb_spec (String.length s) 7); [lia|].
  rewrite slice_mpich, slice_openmpi.
  fold (mbind (M := result) (A := list Z) (B := string * pyval)).
  destruct (startswith "mpich" s); [apply parse_suffix_eq|].
  destruct (startswith "openmpi" s); [apply parse_suffix_eq|].
  reflexivity.
Qed.

Lemma parse_suffix_ok family label suffix fam ver :
  parse_suffix family label suffix = Ok (fam, ver) <->
  exists a b c, fam = family /\ ver = PyList [a; b; c] /\
                split_version_number suffix = Ok [a; b; c].
Proof.
  rewrite split_version_number_eq. unfold parse_suffix.
  destruct (findall_digits suffix) as [|x [|y [|z [|w l]]]]; simpl;
    (split; [intros H; try discriminate H | intros (a & b & c & -> & -> & H);
                                             try discriminate H]).
  - injection H as <- <-. eauto 7.
  - now injection H as <- <- <-.
Qed.

Lemma parse_suffix_error family label suffix :
  is_raise (parse_suffix family label suffix) = true ->
  is_value_error (parse_suffix family label suffix) = true.
Proof.
  unfold parse_suffix.
  destruct (findall_digits suffix) as [|x [|y [|z [|w l]]]]; simpl; auto.
Qed.

Lemma families_disjoint s :
  startswith "mpich" s = true -> startswith "openmpi" s = true -> False.
Proof.
  destruct s as [|c s]; cbn [startswith]; [discriminate|].
  destruct (Ascii.eqb_spec "m" c) as [<-|]; [|discriminate].
  intros _ H. simpl in H. discriminate H.
Qed.

Lemma get_mpi_bucket s :
  get_mpi_type_and_version (PyStr s) =
    let len := String.length s in
    if (len <? 5)%nat then Raise (ValueError [PyStr "MPI name is too short:"; PyStr s])
    else if (len =? 5)%nat then
      if String.eqb s "mpich" then Ok ("mpich", PyNone)
      else Raise (ValueError [PyStr "Expecting mpich:"; PyStr s])
    else if (len =? 6)%nat then Raise (ValueError [PyStr "Illegal MPI name:"; PyStr s])
    else if (len =? 7)%nat then
      if String.eqb s "openmpi" then Ok ("openmpi", PyNone)
      else Raise (ValueError [PyStr "Expecting openmpi:"; PyStr s])
    else get_mpi_type_and_version (PyStr s).
Proof.
  unfold get_mpi_type_and_version at 1. cbn [py_len mbind result_bind]. cbv zeta.
  destruct (Nat.ltb_spec (String.length s) 5); [reflexivity|].
  destruct (Nat.eqb_spec (String.length s) 5); [reflexivity|].
  destruct (Nat.eqb_spec (String.length s) 6); [reflexivity|].
  destruct (Nat.eqb_spec (String.length s) 7); [reflexivity|].
  symmetry. rewrite get_mpi_long by lia. rewrite <- slice_mpich, <- slice_openmpi.
  unfold parse_suffix. rewrite !split_version_number_eq. cbn [mbind result_bind].
  destruct (String.eqb (slice 0 5 s) "mpich").
  - destruct (findall_digits (str_drop 6 s)) as [|x [|y [|z [|w l]]]]; reflexivity.
  - destruct (String.eqb (slice 0 7 s) "openmpi"); [|reflexivity].
    destruct (findall_digits (str_drop 8 s)) as [|x [|y [|z [|w l]]]]; reflexivity.
Qed.

(** C3.  The parser by length of the input: shorter than 5, an error; of
    length 5, the family [mpich] without a version for the string [mpich]
    and an error for any other; of length 6, an error; of length 7, the
    family [openmpi] without a version for the string [openmpi] and an error
    for any other; longer than 7, a family with a version of three integers
    exactly when the input starts with that family's name and the codec
    splits the suffix behind the separator into three integers, and an
    error in every other case.  Every error is a value error. *)
Theorem get_mpi_type_and_version_by_length (s : string) :
  let r := get_mpi_type_and_version (PyStr s) in
  let n := String.length s in
  ((n < 5)%nat -> is_value_error r = true) /\
  (n = 5%nat ->
     (s = "mpich" -> r = Ok ("mpich", PyNone)) /\
     (s <> "mpich" -> is_value_error r = true)) /\
  (n = 6%nat -> is_value_error r = true) /\
  (n = 7%nat ->
     (s = "openmpi" -> r = Ok ("openmpi", PyNone)) /\
     (s <> "openmpi" -> is_value_error r = true)) /\
  ((7 < n)%nat ->
     (forall fam ver, r = Ok (fam, ver) <->
        exists a b c, ver = PyList [a; b; c] /\
          ((fam = "mpich" /\ startswith "mpich" s = true /\
            split_version_number (str_drop 6 s) = Ok [a; b; c]) \/
           (fam = "openmpi" /\ startswith "openmpi" s = true /\
            split_version_number (str_drop 8 s) = Ok [a; b; c]))) /\
     (is_raise r = true -> is_value_error r = true)).
Proof.
  cbv zeta. repeat split.
  - intros H. rewrite get_mpi_bucket. cbv zeta.
    destruct (Nat.ltb_spec (String.length s) 5); [reflexivity | lia].
  - intros ->. reflexivity.
  - intros Hne. rewrite get_mpi_bucket. cbv zeta. rewrite H. simpl.
    apply String.eqb_neq in Hne. now rewrite Hne.
  - intros H. rewrite get_mpi_bucket. cbv zeta. now rewrite H.
  - intros ->. reflexivity.
  - intros Hne. rewrite get_mpi_bucket. cbv zeta. rewrite H. simpl.
    apply String.eqb_neq in Hne. now rewrite Hne.
  - rewrite get_mpi_long by assumption.
    destruct (startswith "mpich" s) eqn:Em.
    + intros Hr. apply parse_suffix_ok in Hr as (a & b & c & -> & -> & Hs).
      exists a, b, c. split; [reflexivity|]. left. auto.
    + destruct (startswith "openmpi" s) eqn:Eo; [|discriminate].
      intros Hr. apply parse_suffix_ok in Hr as (a & b & c & -> & -> & Hs).
      exists a, b, c. split; [reflexivity|]. right. auto.
  - rewrite get_mpi_long by assumption.
    intros (a & b & c & -> & [(-> & Hm & Hs)|(-> & Ho & Hs)]).
    + rewrite Hm. apply parse_suffix_ok. eauto 7.
    + destruct (startswith "mpich" s) eqn:Em.
      * destruct (families_disjoint s Em Ho).
      * rewrite Ho. apply parse_suffix_ok. eauto 7.
  - rewrite get_mpi_long by assumption.
    destruct (startswith "mpich" s); [apply parse_suffix_error|].
    destruct (startswith "openmpi" s); [apply parse_suffix_error|].
    reflexivity.
Qed.

Lemma get_mpi_type_and_version_by_length_witness :
  get_mpi_type_and_version (PyStr "openmpi-4.0.1") = Ok ("openmpi", PyList [4; 0; 1]).
Proof.
  destruct (get_mpi_type_and_version_by_length "openmpi-4.0.1") as (_ & _ & _ & _ & H).
  assert (Hlen : (7 < String.length "openmpi-4.0.1")%nat) by (simpl; lia).
  destruct (H Hlen) as [Hiff _]. apply Hiff.
  exists 4, 0, 1. split; [reflexivity|]. right. repeat split.
Defined.

(** C9.  On an input longer than 7 characters the character between the
    family name and the version suffix is not looked at: an input that
    starts with [mpich] and has exactly three runs of digits from index 6
    on is accepted with these three values, whatever stands at index 5, and
    likewise for [openmpi] and index 7; two inputs that differ at this
    index only get the same result. *)
Theorem separator_not_inspected :
  (forall s x y z, (7 < String.length s)%nat ->
     startswith "mpich" s = true -> digit_runs (str_drop 6 s) [x; y; z] ->
     get_mpi_type_and_version (PyStr s) =
       Ok ("mpich", PyList [digits_value x; digits_value y; digits_value z])) /\
  (forall s x y z, (7 < String.length s)%nat ->
     startswith "openmpi" s = true -> digit_runs (str_drop 8 s) [x; y; z] ->
     get_mpi_type_and_version (PyStr s) =
       Ok ("openmpi", PyList [digits_value x; digits_value y; digits_value z])) /\
  (forall c c' rest, (2 <= String.length rest)%nat ->
     get_mpi_type_and_version (PyStr ("mpich" +:+ String c rest)) =
     get_mpi_type_and_version (PyStr ("mpich" +:+ String c' rest))) /\
  (forall c c' rest,
     get_mpi_type_and_version (PyStr ("openmpi" +:+ String c rest)) =
     get_mpi_type_and_version (PyStr ("openmpi" +:+ String c' rest))).
Proof.
  split; [|split; [|split]].
  - intros s x y z Hlen Hm Hr. rewrite get_mpi_long, Hm by assumption.
    unfold parse_suffix. now rewrite (digit_runs_findall _ _ Hr).
  - intros s x y z Hlen Ho Hr. rewrite get_mpi_long by assumption.
    destruct (startswith "mpich" s) eqn:Em.
    + destruct (families_disjoint s Em Ho).
    + rewrite Ho. unfold parse_suffix. now rewrite (digit_runs_findall _ _ Hr).
  - intros c c' rest H. rewrite !get_mpi_long by (simpl; lia). reflexivity.
  - intros c c' rest. rewrite !get_mpi_long by (simpl; lia). reflexivity.
Qed.

Lemma separator_not_inspected_witness :
  get_mpi_type_and_version (PyStr "mpichX1.2.3") = Ok ("mpich", PyList [1; 2; 3]).
Proof.
  apply (proj1 separator_not_inspected "mpichX1.2.3" "1" "2" "3");
    [simpl; lia | reflexivity |].
  apply (runs_more "" "1" "." "2.3"); try reflexivity; try discriminate.
  apply (runs_more "." "2" "." "3"); try reflexivity; try discriminate.
  apply (runs_last "." "3"); try reflexivity; discriminate.
Defined.

(** ** The batch-file generator *)

(** The version string that [make_batch_file] tests against [None] is a
    string, so the test never fails: the local name [batch_mpi_part] is
    bound whenever the family is one of the two. *)
Lemma batch_mpi_part_bound mpi mpi_type mpi_num :
  batch_mpi_branch mpi mpi_type (compose_version_number mpi_num) <> Ok None.
Proof.
  unfold batch_mpi_branch. cbn [py_ne py_eq negb].
  destruct (String.eqb mpi_type "mpich"); [discriminate|].
  destruct (String.eqb mpi_type "openmpi"); discriminate.
Qed.

Lemma parse_openmpi_only s :
  get_mpi_type_and_version (PyStr s) = Ok ("openmpi", PyNone) <-> s = "openmpi".
Proof.
  split; [|intros ->; reflexivity].
  destruct (Nat.ltb_spec 7 (String.length s)) as [L|L].
  - rewrite get_mpi_long by assumption. unfold parse_suffix.
    destruct (startswith "mpich" s).
    { destruct (findall_digits _) as [|x [|y [|z [|? ?]]]]; discriminate. }
    destruct (startswith "openmpi" s); [|discriminate].
    destruct (findall_digits _) as [|x [|y [|z [|? ?]]]]; discriminate.
  - rewrite get_mpi_bucket. cbv zeta.
    destruct (Nat.ltb_spec (String.length s) 5); [discriminate|].
    destruct (Nat.eqb_spec (String.length s) 5).
    { destruct (String.eqb s "mpich"); discriminate. }
    destruct (Nat.eqb_spec (String.length s) 6); [discriminate|].
    destruct (Nat.eqb_spec (String.length s) 7); [|lia].
    destruct (String.eqb_spec s "openmpi"); [auto | discriminate].
Qed.

(** C1, on the code.  For the family [openmpi] without a version the
    composed version is the empty string, which is not [None]: the branch
    that builds the module and image names is entered, [batch_mpi_part] is
    bound, and the batch file is written with an empty version in both
    names.  The one way for the call to fail is that the file cannot be
    opened, and then it fails with the error of [open], after the line was
    printed: no name is read before it is bound. *)
Theorem make_batch_file_openmpi_without_version
  (script_file machine : string) (w : world) :
  get_mpi_type_and_version (PyStr "openmpi") = Ok ("openmpi", PyNone) /\
  compose_version_number PyNone = "" /\
  py_ne (PyStr (compose_version_number PyNone)) PyNone = true /\
  batch_mpi_branch "openmpi" "openmpi" (compose_version_number PyNone) =
    Ok (Some ("module load openmpi/-ofed45-gcc" +:+ nl +:+ nl +:+
              "mpirun -n 5 -oversubscribe singularity exec yandasoft-_latest.sif" +:+
              " cimager -c dirty.in > dirty_${SLURM_JOB_ID}.log" +:+ nl)) /\
  make_batch_file script_file machine "openmpi" w =
    match open_error ("sample-" +:+ machine +:+ "-openmpi.sbatch") with
    | None =>
        (Ok tt,
         {| files :=
              <[ "sample-" +:+ machine +:+ "-openmpi.sbatch" :=
                 batch_common_part script_file +:+
                 "module load openmpi/-ofed45-gcc" +:+ nl +:+ nl +:+
                 "mpirun -n 5 -oversubscribe singularity exec yandasoft-_latest.sif" +:+
                 " cimager -c dirty.in > dirty_${SLURM_JOB_ID}.log" +:+ nl ]> (files w);
            stdout := stdout w ++
              ["Making batch file: sample-" +:+ machine +:+ "-openmpi.sbatch"] |})
    | Some e =>
        (Raise e,
         {| files := files w;
            stdout := stdout w ++
              ["Making batch file: sample-" +:+ machine +:+ "-openmpi.sbatch"] |})
    end.
Proof.
  repeat split.
  unfold make_batch_file, mbind, stexn_bind, lift, print, open_w, file_write, read_local.
  cbn.
  change (open_error _) with (open_error ("sample-" +:+ machine +:+ "-openmpi.sbatch")).
  destruct (open_error ("sample-" +:+ machine +:+ "-openmpi.sbatch")); [reflexivity|].
  cbn. unfold mret, stexn_ret. f_equal. f_equal.
  apply insert_insert_eq.
Qed.

(** ** The lines of the full build recipe *)

Lemma app_empty_l (s : string) : "" +:+ s = s.
Proof. reflexivity. Qed.

Lemma lines_go_text a : forall cur s,
  has_charb newline a = false ->
  str_split_go newline cur (a +:+ s) = str_split_go newline (cur +:+ a) s.
Proof. apply str_split_go_no_sep. Qed.

Lemma lines_go_nl cur s :
  str_split_go newline cur (nl +:+ s) = cur :: str_split_go newline "" s.
Proof. apply str_split_go_sep. Qed.

Lemma lines_go_nl_end cur : str_split_go newline cur nl = [cur; ""].
Proof. reflexivity. Qed.

Lemma all_digits_no_char c x :
  isdigit c = false -> all_digits x = true -> has_charb c x = false.
Proof.
  intros Hc. induction x as [|b x IH]; [reflexivity|].
  rewrite all_digits_cons. intros H. apply andb_prop in H as [Hb Hx].
  cbn [has_charb]. rewrite (IH Hx), orb_false_r.
  destruct (Ascii.eqb_spec c b) as [<-|]; [congruence | reflexivity].
Qed.

Lemma string_of_uint_no_newline d :
  has_charb newline (NilZero.string_of_uint d) = false.
Proof.
  unfold NilZero.string_of_uint. destruct d; try reflexivity;
    apply all_digits_no_char; try reflexivity; apply all_digits_string_of_uint.
Qed.

Lemma py_str_no_newline n : has_charb newline (py_str n) = false.
Proof.
  unfold py_str, NilZero.string_of_int. destruct (Z.to_int n).
  - apply string_of_uint_no_newline.
  - cbn [has_charb]. now rewrite string_of_uint_no_newline.
Qed.

Ltac split_lines :=
  unfold lines, str_split;
  repeat first
    [ rewrite lines_go_nl
    | rewrite lines_go_nl_end
    | rewrite lines_go_text by
        first [ reflexivity | assumption | apply py_str_no_newline ] ];
  rewrite ?app_assoc_str, ?app_empty_l.

Lemma lines_branch_recipe nproc_available base_image flags g :
  has_charb newline base_image = false ->
  has_charb newline g = false ->
  has_charb newline flags = false ->
  lines (
      "# Build Yandasoft" +:+ nl +:+
      "FROM " +:+ base_image +:+ " AS build_image " +:+ nl +:+
      "WORKDIR /home" +:+ nl +:+
      "RUN git clone https://gitlab.com/ASKAPSDP/all_yandasoft.git" +:+ nl +:+
      "WORKDIR /home/all_yandasoft" +:+ nl +:+
      "RUN ./git-do clone" +:+ nl +:+
      "RUN ./git-do checkout -b " +:+ g +:+ nl +:+
      "# To fix version problem, use develop branch in askap-cmake " +:+ nl +:+
      "WORKDIR /home/all_yandasoft/askap-cmake " +:+ nl +:+
      "RUN git checkout develop " +:+ nl +:+
      "WORKDIR /home/all_yandasoft " +:+ nl +:+
      "RUN mkdir build" +:+ nl +:+
      "WORKDIR /home/all_yandasoft/build" +:+ nl +:+
      "RUN cmake " +:+ cmake_cxx_compiler +:+ " " +:+
        ("-DCMAKE_CXX_FLAGS=" +:+ dq +:+ MPI_COMPILE_FLAGS +:+
         dq +:+ " -DCMAKE_BUILD_TYPE=Release -DENABLE_OPENMP=YES") +:+ " " +:+
        flags +:+ " .. \" +:+ nl +:+
      "    && make -j" +:+ py_str (nproc nproc_available) +:+ " \" +:+ nl +:+
      "    && make install" +:+ nl) =
  recipe_head base_image ++ [branch_checkout g] ++ recipe_tail nproc_available flags.
Proof.
  intros Hb Hg Hf. split_lines. reflexivity.
Qed.

Lemma lines_release_recipe nproc_available base_image flags tag :
  has_charb newline base_image = false ->
  has_charb newline tag = false ->
  has_charb newline flags = false ->
  lines (
      "# Build Yandasoft" +:+ nl +:+
      "FROM " +:+ base_image +:+ " AS build_image " +:+ nl +:+
      "WORKDIR /home" +:+ nl +:+
      "RUN git clone https://gitlab.com/ASKAPSDP/all_yandasoft.git" +:+ nl +:+
      "WORKDIR /home/all_yandasoft" +:+ nl +:+
      "RUN ./git-do clone" +:+ nl +:+
      "# Workaround for versioning" +:+ nl +:+
      "RUN ./git-do checkout -b release/" +:+ tag +:+ nl +:+
      "RUN ./git-do checkout -b " +:+ tag +:+ nl +:+
      "# To fix version problem, use develop branch in askap-cmake " +:+ nl +:+
      "WORKDIR /home/all_yandasoft/askap-cmake " +:+ nl +:+
      "RUN git checkout develop " +:+ nl +:+
      "WORKDIR /home/all_yandasoft " +:+ nl +:+
      "RUN mkdir build" +:+ nl +:+
      "WORKDIR /home/all_yandasoft/build" +:+ nl +:+
      "RUN cmake " +:+ cmake_cxx_compiler +:+ " " +:+
        ("-DCMAKE_CXX_FLAGS=" +:+ dq +:+ MPI_COMPILE_FLAGS +:+
         dq +:+ " -DCMAKE_BUILD_TYPE=Release -DENABLE_OPENMP=YES") +:+ " " +:+
        flags +:+ " .. \" +:+ nl +:+
      "    && make -j" +:+ py_str (nproc nproc_available) +:+ " \" +:+ nl +:+
      "    && make install" +:+ nl) =
  recipe_head base_image ++
  ["# Workaround for versioning"; release_checkout tag; branch_checkout tag] ++
  recipe_tail nproc_available flags.
Proof.
  intros Hb Hg Hf. split_lines. reflexivity.
Qed.

(** The lines of the recipes that [make_big_yandasoft_recipe] returns. *)
Lemma recipe_lines nproc_available base_image image :
  image = "yandasoft" \/ image = "askapsoft" ->
  has_charb newline base_image = false ->
  exists flags,
    (forall g, g = "develop" \/ g = "master" ->
       exists r, make_big_yandasoft_recipe nproc_available base_image image g = Ok r /\
         lines r = recipe_head base_image ++ [branch_checkout g] ++
                   recipe_tail nproc_available flags) /\
    (forall tag, has_charb newline tag = false -> tag <> "develop" -> tag <> "master" ->
       exists r, make_big_yandasoft_recipe nproc_available base_image image tag = Ok r /\
         lines r = recipe_head base_image ++
                   ["# Workaround for versioning"; release_checkout tag;
                    branch_checkout tag] ++
                   recipe_tail nproc_available flags).
Proof.
  intros Himg Hb.
  destruct Himg as [->| ->];
    [ exists ("-DBUILD_ANALYSIS=OFF -DBUILD_PIPELINE=OFF -DBUILD_COMPONENTS=OFF " +:+
              "-DBUILD_SERVICES=OFF")
    | exists ("-DBUILD_ANALYSIS=ON -DBUILD_PIPELINE=ON -DBUILD_COMPONENTS=ON " +:+
              "-DBUILD_SERVICES=OFF") ];
    (split;
     [ intros g Hg;
       assert (Hn : has_charb newline g = false) by (destruct Hg as [->| ->]; reflexivity);
       assert (Hc : String.eqb g "develop" || String.eqb g "master" = true)
         by (destruct Hg as [->| ->]; reflexivity);
       unfold make_big_yandasoft_recipe; cbn [String.eqb mbind result_bind];
       rewrite Hc; eexists; split; [reflexivity|];
       now apply lines_branch_recipe
     | intros tag Hn Hd Hm; apply String.eqb_neq in Hd, Hm;
       unfold make_big_yandasoft_recipe; cbn [String.eqb mbind result_bind];
       rewrite Hd, Hm; cbn [orb]; eexists; split; [reflexivity|];
       now apply lines_release_recipe ]).
Qed.

Lemma recipe_head_tail_no_checkout nproc_available base_image flags :
  Forall (fun l => startswith checkout_prefix l = false)
         (recipe_head base_image ++ recipe_tail nproc_available flags).
Proof. repeat (constructor; [reflexivity|]). constructor. Qed.

Lemma startswith_longer_false p q : forall l,
  startswith p l = false -> startswith (p +:+ q) l = false.
Proof.
  induction p as [|a p IH]; intros [|b l]; cbn [startswith]; try discriminate.
  - reflexivity.
  - rewrite app_cons. cbn [startswith]. destruct (Ascii.eqb a b); auto.
Qed.

Lemma no_checkout_no_release l :
  startswith checkout_prefix l = false -> is_release_checkout l = false.
Proof. apply (startswith_longer_false checkout_prefix "release/"). Qed.

Lemma release_checkout_prefix tag : startswith checkout_prefix (release_checkout tag) = true.
Proof. reflexivity. Qed.

Lemma str_length_app (a b : string) :
  String.length (a +:+ b) = (String.length a + String.length b)%nat.
Proof. induction a as [|x a IH]; [reflexivity|]. rewrite app_cons. simpl. now rewrite IH. Qed.

Lemma release_not_branch tag : release_checkout tag <> branch_checkout tag.
Proof.
  intros H. apply (f_equal String.length) in H.
  unfold release_checkout, branch_checkout in H.
  rewrite !str_length_app in H. simpl in H. lia.
Qed.

(** ** Counting adjacent lines *)

Lemma count_adjacent_cons2 a b x y l :
  count_adjacent a b (x :: y :: l) =
  ((if String.eqb x a && String.eqb y b then 1 else 0) + count_adjacent a b (y :: l))%nat.
Proof. reflexivity. Qed.

Lemma count_adjacent_cons_ne a b x l :
  x <> a -> count_adjacent a b (x :: l) = count_adjacent a b l.
Proof.
  intros H. apply String.eqb_neq in H. destruct l as [|y l]; [reflexivity|].
  now rewrite count_adjacent_cons2, H.
Qed.

Lemma count_adjacent_absent a b l : a ∉ l -> count_adjacent a b l = 0%nat.
Proof.
  induction l as [|x l IH]; intros H; [reflexivity|].
  apply not_elem_of_cons in H as [Hx Hl].
  rewrite count_adjacent_cons_ne by congruence. auto.
Qed.

Lemma count_adjacent_app_absent a b pre l :
  a ∉ pre -> count_adjacent a b (pre ++ l) = count_adjacent a b l.
Proof.
  induction pre as [|x pre IH]; intros H; [reflexivity|].
  apply not_elem_of_cons in H as [Hx Hl].
  rewrite <- app_comm_cons, count_adjacent_cons_ne by congruence. auto.
Qed.

Lemma count_adjacent_here a b l :
  a <> b -> count_adjacent a b (a :: b :: l) = S (count_adjacent a b l).
Proof.
  intros H. rewrite count_adjacent_cons2, !String.eqb_refl.
  rewrite count_adjacent_cons_ne by congruence. reflexivity.
Qed.

Lemma prefixed_absent (p a : string) (l : list string) :
  startswith p a = true ->
  Forall (fun x => startswith p x = false) l -> a ∉ l.
Proof.
  intros Ha Hl Hin. rewrite Forall_forall in Hl. apply Hl in Hin. congruence.
Qed.

(** ** The release-tag workaround *)

(** C4.  For a base image reference and a release tag that are single
    lines: the recipes for [develop] and for [master] hold no line that
    checks out a [release/] branch, and the recipe for a release tag is the
    same recipe with its one checkout line replaced by the workaround, the
    checkout of [release/<tag>] directly followed by the checkout of
    [<tag>]; this pair of lines occurs exactly once in the recipe for the
    tag and not at all in the other two. *)
Theorem release_workaround_only_for_tags
  (nproc_available : Z) (base_image image tag : string) :
  image = "yandasoft" \/ image = "askapsoft" ->
  has_charb newline base_image = false ->
  has_charb newline tag = false ->
  tag <> "develop" -> tag <> "master" ->
  exists r_dev r_master r_tag pre post,
    make_big_yandasoft_recipe nproc_available base_image image "develop" = Ok r_dev /\
    make_big_yandasoft_recipe nproc_available base_image image "master" = Ok r_master /\
    make_big_yandasoft_recipe nproc_available base_image image tag = Ok r_tag /\
    lines r_dev = pre ++ [branch_checkout "develop"] ++ post /\
    lines r_master = pre ++ [branch_checkout "master"] ++ post /\
    lines r_tag = pre ++ ["# Workaround for versioning"; release_checkout tag;
                          branch_checkout tag] ++ post /\
    Forall (fun l => startswith checkout_prefix l = false) (pre ++ post) /\
    Forall (fun l => is_release_checkout l = false) (lines r_dev ++ lines r_master) /\
    (release_checkout tag ∉ (lines r_dev ++ lines r_master)) /\
    (branch_checkout tag ∉ (lines r_dev ++ lines r_master)) /\
    count_adjacent (release_checkout tag) (branch_checkout tag) (lines r_tag) = 1%nat /\
    count_adjacent (release_checkout tag) (branch_checkout tag) (lines r_dev) = 0%nat /\
    count_adjacent (release_checkout tag) (branch_checkout tag) (lines r_master) = 0%nat.
Proof.
  intros Himg Hb Ht Hd Hm.
  destruct (recipe_lines nproc_available base_image image Himg Hb)
    as (flags & Hbranch & Hrelease).
  destruct (Hbranch "develop" (or_introl eq_refl)) as (r_dev & Edev & Ldev).
  destruct (Hbranch "master" (or_intror eq_refl)) as (r_master & Emaster & Lmaster).
  destruct (Hrelease tag Ht Hd Hm) as (r_tag & Etag & Ltag).
  exists r_dev, r_master, r_tag, (recipe_head base_image),
    (recipe_tail nproc_available flags).
  pose proof (recipe_head_tail_no_checkout nproc_available base_image flags) as Hno.
  pose proof Hno as Hno'. apply Forall_app in Hno' as [Hhead Htail].
  assert (Hrel : forall g, g = "develop" \/ g = "master" ->
            Forall (fun l => is_release_checkout l = false)
              (recipe_head base_image ++ [branch_checkout g] ++
               recipe_tail nproc_available flags)).
  { intros g Hg. apply Forall_app. split; [|apply Forall_app; split].
    - eapply Forall_impl; [exact Hhead | apply no_checkout_no_release].
    - constructor; [destruct Hg as [->| ->]; reflexivity | constructor].
    - eapply Forall_impl; [exact Htail | apply no_checkout_no_release]. }
  assert (Hall : Forall (fun l => is_release_checkout l = false)
                   (lines r_dev ++ lines r_master)).
  { rewrite Ldev, Lmaster. apply Forall_app. split; apply Hrel; auto. }
  assert (HR : release_checkout tag ∉ (lines r_dev ++ lines r_master)).
  { eapply (prefixed_absent "RUN ./git-do checkout -b release/"); [reflexivity | exact Hall]. }
  assert (HT : forall g, g = "develop" \/ g = "master" ->
            branch_checkout tag ∉ (recipe_head base_image ++ [branch_checkout g] ++
                                   recipe_tail nproc_available flags)).
  { intros g Hg Hin. apply elem_of_app in Hin as [Hin|Hin];
      [|apply elem_of_app in Hin as [Hin|Hin]].
    - revert Hin. now apply (prefixed_absent checkout_prefix).
    - apply list_elem_of_singleton in Hin.
      apply String.app_inj in Hin. destruct Hg; congruence.
    - revert Hin. now apply (prefixed_absent checkout_prefix). }
  repeat split; try assumption.
  - rewrite Ldev, Lmaster. intros Hin. apply elem_of_app in Hin as [Hin|Hin];
      revert Hin; apply HT; auto.
  - rewrite Ltag. rewrite count_adjacent_app_absent
      by now apply (prefixed_absent checkout_prefix).
    cbn [app]. rewrite count_adjacent_cons_ne
      by (apply String.eqb_neq; reflexivity).
    rewrite count_adjacent_here by apply release_not_branch.
    rewrite count_adjacent_absent by now apply (prefixed_absent checkout_prefix).
    reflexivity.
  - apply count_adjacent_absent. intros Hin. apply HR, elem_of_app. now left.
  - apply count_adjacent_absent. intros Hin. apply HR, elem_of_app. now right.
Qed.

Lemma release_workaround_only_for_tags_witness :
  exists r_dev r_master r_tag,
    make_big_yandasoft_recipe 8 "csirocass/yandabase:mpich" "yandasoft" "develop" = Ok r_dev /\
    make_big_yandasoft_recipe 8 "csirocass/yandabase:mpich" "yandasoft" "master" = Ok r_master /\
    make_big_yandasoft_recipe 8 "csirocass/yandabase:mpich" "yandasoft" "1.2.3" = Ok r_tag /\
    Forall (fun l => is_release_checkout l = false) (lines r_dev ++ lines r_master) /\
    count_adjacent "RUN ./git-do checkout -b release/1.2.3" "RUN ./git-do checkout -b 1.2.3"
      (lines r_tag) = 1%nat /\
    count_adjacent "RUN ./git-do checkout -b release/1.2.3" "RUN ./git-do checkout -b 1.2.3"
      (lines r_dev) = 0%nat /\
    count_adjacent "RUN ./git-do checkout -b release/1.2.3" "RUN ./git-do checkout -b 1.2.3"
      (lines r_master) = 0%nat.
Proof.
  destruct (release_workaround_only_for_tags 8 "csirocass/yandabase:mpich"
              "yandasoft" "1.2.3")
    as (r_dev & r_master & r_tag & pre & post & H1 & H2 & H3 & _ & _ & _ & _ &
        H4 & _ & _ & H5 & H6 & H7);
    [left; reflexivity | reflexivity | reflexivity | discriminate | discriminate |].
  exists r_dev, r_master, r_tag. repeat split; assumption.
Defined.

(** * Further properties *)

(** ** The codec, the other way round *)

Lemma digits_value_py_str n : 0 <= n -> digits_value (py_str n) = n.
Proof.
  intros Hn. destruct n as [|p|p]; [reflexivity| |lia].
  unfold py_str. simpl Z.to_int. unfold NilZero.string_of_int, NilZero.string_of_uint.
  pose proof (DecimalPos.Unsigned.to_uint_nonnil p) as Hnil.
  assert (E : digits_value (NilEmpty.string_of_uint (Pos.to_uint p)) = Z.pos p).
  { rewrite <- of_uint_digits_value. unfold Z.of_uint.
    now rewrite DecimalPos.Unsigned.of_to. }
  destruct (Pos.to_uint p); congruence.
Qed.

(** X1.  For three integers that are not negative, composing gives a
    canonical version string, and splitting that string gives the three
    integers back. *)
Theorem split_compose_roundtrip (a b c : Z) :
  0 <= a -> 0 <= b -> 0 <= c ->
  canonical_version (compose_version_number (PyList [a; b; c])) = true /\
  split_version_number (compose_version_number (PyList [a; b; c])) = Ok [a; b; c].
Proof.
  intros Ha Hb Hc. split; [now apply compose_canonical|].
  cbn [compose_version_number length Nat.eqb].
  rewrite (split_three_runs _ (py_str a) (py_str b) (py_str c))
    by (apply digit_runs_dotted; now apply is_numeral_py_str).
  now rewrite !digits_value_py_str.
Qed.

Lemma split_compose_roundtrip_witness :
  canonical_version (compose_version_number (PyList [3; 20; 0])) = true /\
  split_version_number (compose_version_number (PyList [3; 20; 0])) = Ok [3; 20; 0].
Proof. apply (split_compose_roundtrip 3 20 0); lia. Defined.

(** A sign is not read back: the precondition above is needed. *)
Example negative_component_not_read_back :
  compose_version_number (PyList [-1; 2; 3]) = "-1.2.3" /\
  split_version_number "-1.2.3" = Ok [1; 2; 3].
Proof. split; reflexivity. Qed.

(** X2.  [split_version_number] raises on no string, and returns the empty
    list or exactly three integers, none of them negative. *)
Theorem split_version_number_shape (s : string) :
  exists l, split_version_number s = Ok l /\
            (l = [] \/ length l = 3%nat) /\
            Forall (fun z => 0 <= z) l.
Proof.
  rewrite split_version_number_eq. eexists. split; [reflexivity|].
  destruct (Nat.eqb_spec (length (findall_digits s)) 3) as [E|E].
  - split; [right; now rewrite length_map|].
    apply Forall_map. eapply Forall_impl; [apply findall_digits_wf|].
    intros r [_ Hr]. now apply digits_value_nonneg.
  - split; [now left | constructor].
Qed.

(** ** Which names the parser accepts *)

Lemma all_digits_head r :
  r <> "" -> all_digits r = true -> exists d r', r = String d r' /\ isdigit d = true.
Proof.
  destruct r as [|d r']; [congruence|]. intros _ H.
  rewrite all_digits_cons in H. apply andb_prop in H as [Hd _]. eauto.
Qed.

Lemma no_digits_head_sep sep r c s :
  r <> "" -> all_digits r = true -> isdigit c = false ->
  sep +:+ r = String c s -> (1 <= String.length sep)%nat.
Proof.
  intros Hne Hr Hc E. destruct sep as [|x sep]; [|simpl; lia].
  destruct (all_digits_head r Hne Hr) as (d & r' & -> & Hd).
  simpl in E. injection E as -> _. congruence.
Qed.

(** Runs of digits need room: each but the first costs two characters. *)
Lemma digit_runs_length s rs :
  digit_runs s rs ->
  (2 * length rs <= String.length s + 1)%nat /\
  (forall c s', s = String c s' -> isdigit c = false ->
     (2 * length rs <= String.length s)%nat).
Proof.
  induction 1 as [sep H|sep r H Hne Hr|sep r c rest rs H Hne Hr Hc _ [IH1 IH2]].
  - simpl. split; intros; lia.
  - assert (1 <= String.length r)%nat by (destruct r; [congruence | simpl; lia]).
    rewrite str_length_app. simpl. split; [lia|].
    intros c s' E Hc. pose proof (no_digits_head_sep sep r c s' Hne Hr Hc E). lia.
  - assert (1 <= String.length r)%nat by (destruct r; [congruence | simpl; lia]).
    specialize (IH2 c rest eq_refl Hc).
    rewrite !str_length_app. cbn [length]. split; [lia|].
    intros c' s' E Hc'.
    assert (1 <= String.length sep)%nat; [|lia].
    destruct sep as [|x sep]; [|simpl; lia].
    destruct (all_digits_head r Hne Hr) as (d & r' & -> & Hd).
    simpl in E. injection E as -> _. congruence.
Qed.

Lemma three_runs_length s x y z :
  findall_digits s = [x; y; z] -> (5 <= String.length s)%nat.
Proof.
  intros E. pose proof (findall_digit_runs s) as H. rewrite E in H.
  apply digit_runs_length in H as [H _]. simpl in H. lia.
Qed.

Lemma str_drop_length n : forall s,
  String.length (str_drop n s) = (String.length s - n)%nat.
Proof.
  induction n as [|n IH]; intros [|c s]; simpl; try lia. apply IH.
Qed.

Lemma parse_suffix_inv family label suffix fam ver :
  parse_suffix family label suffix = Ok (fam, ver) ->
  fam = family /\ (5 <= String.length suffix)%nat /\
  exists a b c, ver = PyList [a; b; c] /\ 0 <= a /\ 0 <= b /\ 0 <= c.
Proof.
  unfold parse_suffix. intros H.
  pose proof (findall_digits_wf suffix) as Hwf.
  destruct (findall_digits suffix) as [|x [|y [|z [|w l]]]] eqn:E; try discriminate.
  injection H as <- <-. split; [reflexivity|]. split; [eapply three_runs_length; eauto|].
  inversion Hwf as [|? ? [_ Hx] Hwf1]; subst.
  inversion Hwf1 as [|? ? [_ Hy] Hwf2]; subst.
  inversion Hwf2 as [|? ? [_ Hz] _]; subst.
  eexists _, _, _. split; [reflexivity|].
  auto using digits_value_nonneg.
Qed.

(** What an accepted name looks like. *)
Lemma get_mpi_accepts v fam ver :
  get_mpi_type_and_version v = Ok (fam, ver) ->
  exists s, v = PyStr s /\ startswith fam s = true /\
    (fam = "mpich" \/ fam = "openmpi") /\
    ((ver = PyNone /\ s = fam) \/
     (exists a b c, ver = PyList [a; b; c] /\ 0 <= a /\ 0 <= b /\ 0 <= c) /\
     (String.length fam + 6 <= String.length s)%nat).
Proof.
  destruct v as [| | |s|]; try discriminate. intros H. exists s. split; [reflexivity|].
  destruct (Nat.ltb_spec 7 (String.length s)) as [L|L].
  - rewrite get_mpi_long in H by assumption.
    destruct (startswith "mpich" s) eqn:Em.
    + apply parse_suffix_inv in H as (-> & Hlen & Hver).
      rewrite str_drop_length in Hlen.
      split; [exact Em|]. split; [now left|]. right. split; [exact Hver | simpl; lia].
    + destruct (startswith "openmpi" s) eqn:Eo; [|discriminate].
      apply parse_suffix_inv in H as (-> & Hlen & Hver).
      rewrite str_drop_length in Hlen.
      split; [exact Eo|]. split; [now right|]. right. split; [exact Hver | simpl; lia].
  - rewrite get_mpi_bucket in H. cbv zeta in H.
    destruct (Nat.ltb_spec (String.length s) 5); [discriminate|].
    destruct (Nat.eqb_spec (String.length s) 5).
    { destruct (String.eqb_spec s "mpich") as [->|]; [|discriminate].
      injection H as <- <-. repeat split; auto. }
    destruct (Nat.eqb_spec (String.length s) 6); [discriminate|].
    destruct (Nat.eqb_spec (String.length s) 7); [|lia].
    destruct (String.eqb_spec s "openmpi") as [->|]; [|discriminate].
    injection H as <- <-. repeat split; auto.
Qed.

(** X3.  Whatever [get_mpi_type_and_version] returns, the family is
    [mpich] or [openmpi] and the argument is a string that starts with it;
    the version is absent and the argument is the family name itself, or
    the version is a list of three integers, none negative, and the
    argument is at least six characters longer than the family name (11 for
    [mpich], 13 for [openmpi]).  So no name of 6, 8, 9 or 10 characters is
    accepted. *)
Theorem get_mpi_type_and_version_accepts (v : pyval) (fam : string) (ver : pyval) :
  get_mpi_type_and_version v = Ok (fam, ver) ->
  exists s, v = PyStr s /\ startswith fam s = true /\
    (fam = "mpich" \/ fam = "openmpi") /\
    ((ver = PyNone /\ s = fam) \/
     (exists a b c, ver = PyList [a; b; c] /\ 0 <= a /\ 0 <= b /\ 0 <= c) /\
     (String.length fam + 6 <= String.length s)%nat).
Proof. apply get_mpi_accepts. Qed.

Lemma get_mpi_type_and_version_accepts_witness :
  exists s, PyStr "mpich_10.2.0" = PyStr s /\ startswith "mpich" s = true /\
    ("mpich" = "mpich" \/ "mpich" = "openmpi") /\
    ((PyList [10; 2; 0] = PyNone /\ s = "mpich") \/
     (exists a b c, PyList [10; 2; 0] = PyList [a; b; c] /\ 0 <= a /\ 0 <= b /\ 0 <= c) /\
     (String.length "mpich" + 6 <= String.length s)%nat).
Proof.
  apply (get_mpi_type_and_version_accepts (PyStr "mpich_10.2.0") "mpich" (PyList [10; 2; 0])).
  reflexivity.
Defined.

(** The variants of the generic machine in the settings, [mpich] apart,
    are too short to carry a version and are refused. *)
Example configured_openmpi_targets_refused :
  map (fun mpi => is_value_error (get_mpi_type_and_version (PyStr mpi))) mpi_targets =
  [false; true; true; true; true].
Proof. reflexivity. Qed.
(** ** The batch file, for every input *)

Lemma make_batch_file_raise script_file machine mpi w e :
  get_mpi_type_and_version (PyStr mpi) = Raise e ->
  make_batch_file script_file machine mpi w = (Raise e, w).
Proof.
  intros H. unfold make_batch_file, mbind, stexn_bind, lift. now rewrite H.
Qed.

Lemma make_batch_file_ok script_file machine mpi w fam ver part :
  get_mpi_type_and_version (PyStr mpi) = Ok (fam, ver) ->
  batch_mpi_branch mpi fam (compose_version_number ver) = Ok (Some part) ->
  make_batch_file script_file machine mpi w =
    batch_written machine mpi (batch_common_part script_file +:+ part) w.
Proof.
  intros H Hb.
  unfold make_batch_file, batch_written, mbind, stexn_bind, lift, print, open_w,
    file_write, read_local.
  rewrite H. cbn beta iota. rewrite Hb. cbn beta iota zeta.
  destruct (open_error ("sample-" +:+ machine +:+ "-" +:+ mpi +:+ ".sbatch"));
    [reflexivity|].
  cbn. unfold mret, stexn_ret. f_equal. f_equal. apply insert_insert_eq.
Qed.

(** X4.  [make_batch_file] fails in two ways only.  When the parser refuses
    the name, it fails with the parser's error and without printing or
    writing anything.  Otherwise it prints one line, and then it fails with
    the error of [open] when the batch file cannot be opened, and writes
    the one file, which starts with the common part, when it can.  It
    raises neither for an unbound local name nor for an unknown family. *)
Theorem make_batch_file_outcomes (script_file machine mpi : string) (w : world) :
  match get_mpi_type_and_version (PyStr mpi) with
  | Raise e => make_batch_file script_file machine mpi w = (Raise e, w)
  | Ok _ =>
      exists part,
        make_batch_file script_file machine mpi w =
          batch_written machine mpi (batch_common_part script_file +:+ part) w
  end.
Proof.
  destruct (get_mpi_type_and_version (PyStr mpi)) as [[fam ver]|e] eqn:H.
  - destruct (get_mpi_accepts _ _ _ H) as (s & _ & _ & [-> | ->] & _);
      eexists; eapply make_batch_file_ok; try exact H; reflexivity.
  - now apply make_batch_file_raise.
Qed.

(** X5.  For the family [mpich] the version in the name is not used: the
    batch file loads [mpich/3.3.0] and runs the image
    [yandasoft-mpich_latest.sif], whatever version was given. *)
Theorem make_batch_file_mpich_fixed
  (script_file machine mpi : string) (ver : pyval) (w : world) :
  get_mpi_type_and_version (PyStr mpi) = Ok ("mpich", ver) ->
  make_batch_file script_file machine mpi w =
    batch_written machine mpi
      (batch_common_part script_file +:+
       "module load mpich/3.3.0" +:+ nl +:+ nl +:+
       "mpirun -n 5 singularity exec yandasoft-mpich_latest.sif" +:+
       " cimager -c dirty.in > dirty_${SLURM_JOB_ID}.log" +:+ nl) w.
Proof.
  intros H. eapply make_batch_file_ok; [exact H | reflexivity].
Qed.

Lemma make_batch_file_mpich_fixed_witness :
  files (snd (make_batch_file "make_docker_images.py" "galaxy" "mpich-3.1.4" empty_world))
    !! "sample-galaxy-mpich-3.1.4.sbatch" =
  Some (batch_common_part "make_docker_images.py" +:+
        "module load mpich/3.3.0" +:+ nl +:+ nl +:+
        "mpirun -n 5 singularity exec yandasoft-mpich_latest.sif" +:+
        " cimager -c dirty.in > dirty_${SLURM_JOB_ID}.log" +:+ nl).
Proof.
  rewrite (make_batch_file_mpich_fixed "make_docker_images.py" "galaxy" "mpich-3.1.4"
             (PyList [3; 1; 4]) empty_world eq_refl).
  apply lookup_insert_eq.
Defined.

Lemma get_mpi_openmpi_versioned ch v a b c :
  split_version_number v = Ok [a; b; c] ->
  get_mpi_type_and_version (PyStr ("openmpi" +:+ String ch v)) =
    Ok ("openmpi", PyList [a; b; c]).
Proof.
  intros H.
  rewrite get_mpi_long by (change ("openmpi" +:+ String ch v) with
                             (String "o" (String "p" (String "e" (String "n"
                                (String "m" (String "p" (String "i" (String ch v))))))));
                           simpl; lia).
  change (startswith "mpich" ("openmpi" +:+ String ch v)) with false.
  change (startswith "openmpi" ("openmpi" +:+ String ch v)) with true.
  cbv iota.
  change (str_drop 8 ("openmpi" +:+ String ch v)) with v.
  apply parse_suffix_ok. now exists a, b, c.
Qed.

(** X6.  For [openmpi] followed by one character and a string [v] that
    splits into three integers, the batch file loads the module and runs
    the image of the version as [compose_version_number] prints it:
    [openmpi/4.0.1-ofed45-gcc] and [yandasoft-4.0.1_latest.sif] for
    [4.0.1], and the same for [04.00.1]. *)
Theorem make_batch_file_openmpi_versioned
  (script_file machine : string) (ch : ascii) (v : string) (a b c : Z) (w : world) :
  split_version_number v = Ok [a; b; c] ->
  make_batch_file script_file machine ("openmpi" +:+ String ch v) w =
    batch_written machine ("openmpi" +:+ String ch v)
      (batch_common_part script_file +:+
       "module load openmpi/" +:+ compose_version_number (PyList [a; b; c]) +:+
       "-ofed45-gcc" +:+ nl +:+ nl +:+
       "mpirun -n 5 -oversubscribe singularity exec yandasoft-" +:+
       compose_version_number (PyList [a; b; c]) +:+
       "_latest.sif cimager -c dirty.in > dirty_${SLURM_JOB_ID}.log" +:+ nl) w.
Proof.
  intros H.
  eapply make_batch_file_ok; [exact (get_mpi_openmpi_versioned ch v a b c H)|].
  unfold batch_mpi_branch. cbn [String.eqb Ascii.eqb Bool.eqb py_ne py_eq negb]. cbv zeta.
  rewrite !app_assoc_str. reflexivity.
Qed.

Lemma make_batch_file_openmpi_versioned_witness :
  files (snd (make_batch_file "make_docker_images.py" "generic" "openmpi-04.00.1"
                empty_world))
    !! "sample-generic-openmpi-04.00.1.sbatch" =
  Some (batch_common_part "make_docker_images.py" +:+
        "module load openmpi/4.0.1-ofed45-gcc" +:+ nl +:+ nl +:+
        "mpirun -n 5 -oversubscribe singularity exec yandasoft-4.0.1" +:+
        "_latest.sif cimager -c dirty.in > dirty_${SLURM_JOB_ID}.log" +:+ nl).
Proof.
  refine (eq_trans
    (f_equal (fun r => files (snd r) !! "sample-generic-openmpi-04.00.1.sbatch")
       (make_batch_file_openmpi_versioned "make_docker_images.py" "generic" "-"
          "04.00.1" 4 0 1 empty_world eq_refl)) _).
  apply lookup_insert_eq.
Defined.

(** ** Names built from parts *)

Lemma has_char_app c a b : has_char c (a +:+ b) <-> has_char c a \/ has_char c b.
Proof.
  rewrite <- !has_charb_spec, has_charb_app. apply orb_true_iff.
Qed.

Lemma clean_app a b : clean (a +:+ b) <-> clean a /\ clean b.
Proof.
  unfold clean. split.
  - intros H. split; intros c Hf Hc; apply (H c Hf), has_char_app; auto.
  - intros [Ha Hb] c Hf Hc. apply has_char_app in Hc as [Hc|Hc]; [eapply Ha | eapply Hb]; eauto.
Qed.

Lemma clean_iff s : clean s <-> no_forbidden forbidden_chars s = true.
Proof.
  change forbidden_chars with (list_of_str forbidden_chars_string).
  symmetry. apply no_forbidden_spec.
Qed.

Lemma clean_empty : clean "".
Proof. now apply clean_iff. Qed.

Lemma app_empty_inv (a b : string) : a +:+ b = "" <-> a = "" /\ b = "".
Proof.
  split; [|intros [-> ->]; reflexivity].
  destruct a; [simpl; auto | discriminate].
Qed.

Lemma is_proper_name_clean s :
  is_proper_name (PyStr s) = Ok true <-> s <> "" /\ clean s.
Proof. apply is_proper_name_true_iff. Qed.

Lemma clean_no_newline s : clean s -> has_charb newline s = false.
Proof.
  intros H. apply has_charb_false. apply H. apply forbidden_enumerated.
  simpl. tauto.
Qed.

(** X7.  A name put together from two parts is a proper name exactly when
    the parts are not both empty and neither holds a forbidden character. *)
Theorem is_proper_name_concat (a b : string) :
  is_proper_name (PyStr (a +:+ b)) = Ok true <->
  (a <> "" \/ b <> "") /\ clean a /\ clean b.
Proof.
  rewrite is_proper_name_clean, clean_app, app_empty_inv.
  destruct (String.eqb_spec a ""), (String.eqb_spec b ""); intuition congruence.
Qed.

(** ** Building an image *)

Lemma build_image_runs self h :
  recipe_name self <> "" -> image_name self <> "" ->
  is_Some (files (disk h) !! recipe_name self) ->
  build_image self h =
    (Ok tt, {| disk := disk h;
               ran := ran h ++ [docker_build (image_name self) (recipe_name self)] |}).
Proof.
  intros Hr Hi Hf.
  unfold build_image, get_build_command, mbind, stexn_bind, lift, is_file,
    subprocess_run, docker_build.
  rewrite (eqb_empty_false _ Hr), (eqb_empty_false _ Hi). cbn beta iota.
  now rewrite bool_decide_eq_true_2.
Qed.









(** A recipe name that [is_proper_name] accepts need not name a file that
    can be written: the file is not written, and nothing is built. *)
Example write_recipe_refused_names :
  is_proper_name (PyStr "nodir/Dockerfile") = Ok true /\
  is_proper_name (PyStr ".") = Ok true /\
  write_recipe {| recipe_name := "nodir/Dockerfile"; image_name := "";
                  recipe := "FROM scratch" |} empty_world =
    (Raise (OSError "nodir/Dockerfile"), empty_world) /\
  write_recipe {| recipe_name := "."; image_name := ""; recipe := "FROM scratch" |}
    empty_world = (Raise (OSError "."), empty_world) /\
  write_recipe {| recipe_name := "a" +:+ chr 0 +:+ "b"; image_name := "";
                  recipe := "FROM scratch" |} empty_world =
    (Raise (ValueError [PyStr "embedded null byte"]), empty_world) /\
  fst (write_recipe {| recipe_name := "./Dockerfile"; image_name := "";
                       recipe := "FROM scratch" |} empty_world) = Ok tt.
Proof. repeat split. Qed.

(** ** The record under any sequence of setter calls *)

Lemma run_setter_clean c d :
  clean (recipe_name d) -> clean (image_name d) ->
  clean (recipe_name (snd (run_setter c d))) /\
  clean (image_name (snd (run_setter c d))).
Proof.
  intros Hr Hi. destruct c as [v|v|v]; cbn [run_setter].
  - unfold set_recipe_name, mbind, stexn_bind, lift.
    destruct (is_proper_name v) as [[|]|] eqn:E; cbn; auto.
    destruct v; cbn; auto. apply is_proper_name_clean in E as [_ E]. auto.
  - unfold set_recipe. destruct v; cbn; auto.
    destruct (String.eqb s ""); cbn; auto.
  - unfold set_image_name, mbind, stexn_bind, lift.
    destruct (is_proper_name v) as [[|]|] eqn:E; cbn; auto.
    destruct v; cbn; auto. apply is_proper_name_clean in E as [_ E]. auto.
Qed.

Lemma after_calls_clean calls : forall d,
  clean (recipe_name d) -> clean (image_name d) ->
  clean (recipe_name (after_calls calls d)) /\ clean (image_name (after_calls calls d)).
Proof.
  induction calls as [|c calls IH]; intros d Hr Hi; [now split|].
  cbn [after_calls fold_left].
  destruct (run_setter_clean c d Hr Hi). now apply IH.
Qed.

(** X11.  Whatever setter calls are made on a fresh record, with whatever
    arguments and whether they raise or not, its two names never hold a
    forbidden character; so a build command that can be computed from it is
    made of two proper names. *)
Theorem names_stay_clean (calls : list setter_call) :
  let d := after_calls calls new_DockerClass in
  clean (recipe_name d) /\ clean (image_name d) /\
  (forall cmd, get_build_command d = Ok cmd ->
     cmd = docker_build (image_name d) (recipe_name d) /\
     is_proper_name (PyStr (recipe_name d)) = Ok true /\
     is_proper_name (PyStr (image_name d)) = Ok true).
Proof.
  cbv zeta.
  destruct (after_calls_clean calls new_DockerClass clean_empty clean_empty) as [Hr Hi].
  split; [exact Hr|]. split; [exact Hi|].
  intros cmd. unfold get_build_command.
  destruct (String.eqb_spec (recipe_name (after_calls calls new_DockerClass)) "");
    [discriminate|].
  destruct (String.eqb_spec (image_name (after_calls calls new_DockerClass)) "");
    [discriminate|].
  intros [= <-]. split; [reflexivity|]. split; now apply is_proper_name_clean.
Qed.

(** X12.  The three setters change one field each: three calls with
    arguments that are accepted give the same record in whatever order
    they are made, from whatever record they start. *)
Theorem setters_commute (rn im text : string) (self : DockerClass) (calls : list setter_call) :
  is_proper_name (PyStr rn) = Ok true ->
  is_proper_name (PyStr im) = Ok true ->
  text <> "" ->
  calls ≡ₚ [SetRecipeName (PyStr rn); SetImageName (PyStr im); SetRecipe (PyStr text)] ->
  after_calls calls self = {| recipe_name := rn; image_name := im; recipe := text |}.
Proof.
  intros Hr Hi Ht Hp. symmetry in Hp. apply permutations_Permutation in Hp.
  cbn in Hp.
  repeat (apply elem_of_cons in Hp as [->|Hp]);
    [ .. | now apply elem_of_nil in Hp ];
    cbn [after_calls fold_left run_setter];
    repeat first [ rewrite set_recipe_name_accepts by assumption
                 | rewrite set_image_name_accepts by assumption
                 | rewrite set_recipe_accepts by assumption
                 | progress cbn [snd recipe_name image_name recipe] ];
    reflexivity.
Qed.

Lemma setters_commute_witness :
  after_calls [SetRecipe (PyStr "FROM scratch"); SetImageName (PyStr "csirocass/x:1");
               SetRecipeName (PyStr "Dockerfile")]
    {| recipe_name := "old"; image_name := "old"; recipe := "old" |} =
  {| recipe_name := "Dockerfile"; image_name := "csirocass/x:1"; recipe := "FROM scratch" |}.
Proof.
  apply (setters_commute "Dockerfile" "csirocass/x:1" "FROM scratch");
    [reflexivity | reflexivity | discriminate |].
  symmetry.
  apply (Permutation_rev [SetRecipeName (PyStr "Dockerfile");
                          SetImageName (PyStr "csirocass/x:1");
                          SetRecipe (PyStr "FROM scratch")]).
Defined.

(** ** Making a target: the common steps *)

Ltac solve_clean :=
  repeat (apply clean_app; split);
  first [ assumption | apply clean_iff; reflexivity ].

Lemma proper_name_parts s : s <> "" -> clean s -> is_proper_name (PyStr s) = Ok true.
Proof. intros. now apply is_proper_name_clean. Qed.

Lemma app_nonempty_l (a b : string) : a <> "" -> a +:+ b <> "".
Proof. intros H E. apply app_empty_inv in E as [E _]. auto. Qed.

Lemma app_nonempty_r (a b : string) : b <> "" -> a +:+ b <> "".
Proof. intros H E. apply app_empty_inv in E as [_ E]. auto. Qed.

Lemma bind_ok {S A B} (m : stexn S A) (k : A -> stexn S B) s a s' :
  m s = (Ok a, s') -> (x ← m; k x) s = k a s'.
Proof. intros H. unfold mbind, stexn_bind. now rewrite H. Qed.

Lemma bind_raise {S A B} (m : stexn S A) (k : A -> stexn S B) s e s' :
  m s = (Raise e, s') -> (x ← m; k x) s = (Raise e, s').
Proof. intros H. unfold mbind, stexn_bind. now rewrite H. Qed.

Lemma bind_assoc {S A B C} (m : stexn S A) (k1 : A -> stexn S B) (k2 : B -> stexn S C) s :
  ((m ≫= k1) ≫= k2) s = (m ≫= (fun x => k1 x ≫= k2)) s.
Proof. unfold mbind, stexn_bind. destruct (m s) as [[a|e] s']; reflexivity. Qed.

Lemma call_ok {S} (m : stexn DockerClass unit) d d' (s : S) :
  m d = (Ok tt, d') -> call m d s = (Ok d', s).
Proof. intros H. unfold call. now rewrite H. Qed.

Lemma call_raise {S} (m : stexn DockerClass unit) d (s : S) :
  is_raise (fst (m d)) = true ->
  exists e, call m d s = (Raise e, s).
Proof.
  unfold call. destruct (m d) as [[[]|e] d']; [discriminate|]. eauto.
Qed.

(** Naming a fresh target with two proper names. *)
Lemma name_target_ok rn im h :
  is_proper_name (PyStr rn) = Ok true -> is_proper_name (PyStr im) = Ok true ->
  name_target (Ok rn) (Ok im) new_DockerClass h =
    (Ok {| recipe_name := rn; image_name := im; recipe := "" |}, h).
Proof.
  intros Hr Hi. unfold name_target.
  rewrite (bind_ok _ _ h rn h) by reflexivity.
  rewrite (bind_ok _ _ h {| recipe_name := rn; image_name := ""; recipe := "" |} h)
    by (apply call_ok; now rewrite set_recipe_name_accepts).
  rewrite (bind_ok _ _ h im h) by reflexivity.
  apply call_ok. now rewrite set_image_name_accepts.
Qed.

(** Writing the recipe of a target whose file can, or cannot, be opened. *)
Lemma write_recipe_opened (d : DockerClass) h :
  recipe_name d <> "" -> recipe d <> "" -> open_error (recipe_name d) = None ->
  in_world (write_recipe d) h =
    (Ok tt, {| disk := {| files := <[recipe_name d := recipe d]> (files (disk h));
                          stdout := stdout (disk h) |};
               ran := ran h |}).
Proof.
  intros Hr Ht Ho. unfold in_world, write_recipe.
  now rewrite (eqb_empty_false _ Hr), (eqb_empty_false _ Ht), (write_file_ok _ _ _ Ho).
Qed.

Lemma write_recipe_refused (d : DockerClass) h e :
  recipe_name d <> "" -> recipe d <> "" -> open_error (recipe_name d) = Some e ->
  in_world (write_recipe d) h = (Raise e, h).
Proof.
  intros Hr Ht Ho. unfold in_world, write_recipe.
  rewrite (eqb_empty_false _ Hr), (eqb_empty_false _ Ht), (write_file_raise _ _ _ _ Ho).
  now destruct h.
Qed.

(** Setting the text, writing the file, and building or announcing. *)
Lemma deliver_target execute rn im text h :
  rn <> "" -> im <> "" -> text <> "" -> open_error rn = None ->
  (docker_target ← call (set_recipe (PyStr text))
                     {| recipe_name := rn; image_name := im; recipe := "" |};
   in_world (write_recipe docker_target);;
   build_or_print execute docker_target;;
   mret docker_target) h =
  (Ok {| recipe_name := rn; image_name := im; recipe := text |},
   deliver execute {| recipe_name := rn; image_name := im; recipe := text |} h).
Proof.
  intros Hr Hi Ht Ho.
  rewrite (bind_ok _ _ h {| recipe_name := rn; image_name := im; recipe := text |} h)
    by (apply call_ok; now rewrite set_recipe_accepts).
  rewrite (bind_ok _ _ h tt _
             (write_recipe_opened {| recipe_name := rn; image_name := im; recipe := text |}
                h Hr Ht Ho)).
  cbn [recipe_name recipe].
  destruct execute.
  - unfold build_or_print.
    erewrite bind_ok
      by (apply build_image_runs; cbn; auto; rewrite lookup_insert_eq; eauto).
    unfold mret, stexn_ret, deliver. cbn. now rewrite app_nil_r.
  - unfold build_or_print, mbind, stexn_bind, in_world, get_build_command, lift, print,
      mret, stexn_ret, deliver. cbn.
    rewrite (eqb_empty_false _ Hr), (eqb_empty_false _ Hi).
    cbn. now rewrite app_nil_r.
Qed.

Lemma deliver_target_refused execute rn im text h e :
  rn <> "" -> text <> "" -> open_error rn = Some e ->
  (docker_target ← call (set_recipe (PyStr text))
                     {| recipe_name := rn; image_name := im; recipe := "" |};
   in_world (write_recipe docker_target);;
   build_or_print execute docker_target;;
   mret docker_target) h = (Raise e, h).
Proof.
  intros Hr Ht Ho.
  rewrite (bind_ok _ _ h {| recipe_name := rn; image_name := im; recipe := text |} h)
    by (apply call_ok; now rewrite set_recipe_accepts).
  apply bind_raise.
  now apply (write_recipe_refused {| recipe_name := rn; image_name := im; recipe := text |}).
Qed.

Lemma set_recipe_name_str_cases s d :
  is_proper_name (PyStr s) = Ok true \/
  exists e, set_recipe_name (PyStr s) d = (Raise e, d).
Proof.
  destruct (is_proper_name_str s) as [[|] H]; [now left | right].
  unfold set_recipe_name, mbind, stexn_bind, lift, raise. rewrite H. eauto.
Qed.

Lemma set_image_name_str_cases s d :
  is_proper_name (PyStr s) = Ok true \/
  exists e, set_image_name (PyStr s) d = (Raise e, d).
Proof.
  destruct (is_proper_name_str s) as [[|] H]; [now left | right].
  unfold set_image_name, mbind, stexn_bind, lift, raise. rewrite H. eauto.
Qed.

Lemma call_raise_eq {S} (m : stexn DockerClass unit) d e d' (s : S) :
  m d = (Raise e, d') -> call m d s = (Raise e, s).
Proof. intros H. unfold call. now rewrite H. Qed.

(** Naming a fresh target: it raises and changes nothing, or both names
    were proper. *)
Lemma name_target_cases ra ia h :
  (exists e, name_target ra ia new_DockerClass h = (Raise e, h)) \/
  (exists rn im, ra = Ok rn /\ ia = Ok im /\
     is_proper_name (PyStr rn) = Ok true /\ is_proper_name (PyStr im) = Ok true /\
     name_target ra ia new_DockerClass h =
       (Ok {| recipe_name := rn; image_name := im; recipe := "" |}, h)).
Proof.
  destruct ra as [rn|e]; [|left; exists e; reflexivity].
  destruct (set_recipe_name_str_cases rn new_DockerClass) as [Hr|[e He]].
  2:{ left. exists e. unfold name_target.
      rewrite (bind_ok _ _ h rn h) by reflexivity.
      apply bind_raise. eapply call_raise_eq; eauto. }
  destruct ia as [im|e].
  2:{ left. exists e. unfold name_target.
      rewrite (bind_ok _ _ h rn h) by reflexivity.
      rewrite (bind_ok _ _ h {| recipe_name := rn; image_name := ""; recipe := "" |} h)
        by (apply call_ok; now rewrite set_recipe_name_accepts).
      reflexivity. }
  destruct (set_image_name_str_cases im
              {| recipe_name := rn; image_name := ""; recipe := "" |}) as [Hi|[e He]].
  - right. exists rn, im. repeat split; auto. now apply name_target_ok.
  - left. exists e. unfold name_target.
    rewrite (bind_ok _ _ h rn h) by reflexivity.
    rewrite (bind_ok _ _ h {| recipe_name := rn; image_name := ""; recipe := "" |} h)
      by (apply call_ok; now rewrite set_recipe_name_accepts).
    rewrite (bind_ok _ _ h im h) by reflexivity.
    eapply call_raise_eq; eauto.
Qed.

Lemma proper_nonempty s : is_proper_name (PyStr s) = Ok true -> s <> "".
Proof. intros H. now apply is_proper_name_clean in H. Qed.

Lemma header_nonempty script_file rest : header script_file +:+ rest <> "".
Proof. discriminate. Qed.

(** ** The base image target *)

Lemma make_yandabase_named script_file nproc_available machine mpi prepend append
  execute h base_part rn im :
  yandabase_target machine mpi prepend append new_DockerClass h =
    (Ok (base_part, {| recipe_name := rn; image_name := im; recipe := "" |}), h) ->
  rn <> "" -> im <> "" -> open_error rn = None ->
  make_yandabase script_file nproc_available machine mpi prepend append execute h =
    (Ok {| recipe_name := rn; image_name := im;
           recipe := header script_file +:+ base_part +:+ yandabase_recipe nproc_available |},
     deliver execute
       {| recipe_name := rn; image_name := im;
          recipe := header script_file +:+ base_part +:+ yandabase_recipe nproc_available |}
       h).
Proof.
  intros H Hr Hi Ho. unfold make_yandabase. cbv zeta.
  erewrite bind_ok by exact H. cbv beta iota.
  apply deliver_target; auto; apply header_nonempty.
Qed.

Lemma make_yandabase_refused script_file nproc_available machine mpi prepend append
  execute h base_part rn im e :
  yandabase_target machine mpi prepend append new_DockerClass h =
    (Ok (base_part, {| recipe_name := rn; image_name := im; recipe := "" |}), h) ->
  rn <> "" -> open_error rn = Some e ->
  make_yandabase script_file nproc_available machine mpi prepend append execute h =
    (Raise e, h).
Proof.
  intros H Hr Ho. unfold make_yandabase. cbv zeta.
  erewrite bind_ok by exact H. cbv beta iota.
  apply deliver_target_refused; auto; apply header_nonempty.
Qed.

Lemma make_yandabase_raise script_file nproc_available machine mpi prepend append
  execute h e :
  yandabase_target machine mpi prepend append new_DockerClass h = (Raise e, h) ->
  make_yandabase script_file nproc_available machine mpi prepend append execute h =
    (Raise e, h).
Proof. intros H. unfold make_yandabase. cbv zeta. now apply bind_raise. Qed.

(** The base part and the names, for every machine and variant. *)
Lemma yandabase_target_cases machine mpi prepend append h :
  (exists e, yandabase_target machine mpi prepend append new_DockerClass h = (Raise e, h)) \/
  (exists base_part rn im,
     yandabase_target machine mpi prepend append new_DockerClass h =
       (Ok (base_part, {| recipe_name := rn; image_name := im; recipe := "" |}), h) /\
     is_proper_name (PyStr rn) = Ok true /\ is_proper_name (PyStr im) = Ok true /\
     ((machine = "generic" /\ exists m, mpi = PyStr m /\
         base_part = ("FROM csirocass/base:" +:+ m) +:+ " AS base_image " +:+ nl /\
         rn = ".gitlab-docker-yandabase-" +:+ m /\
         im = ((prepend +:+ "yandabase:") +:+ m) +:+ append) \/
      (machine = "galaxy" /\
         base_part = "FROM pawsey/mpich-base:3.1.4_ubuntu18.04 AS base_image" +:+ nl /\
         rn = ".gitlab-docker-yandabase-galaxy" /\
         im = prepend +:+ "yandabase:galaxy" +:+ append))).
Proof.
  unfold yandabase_target.
  destruct (String.eqb_spec machine "generic") as [->|Hg].
  - destruct mpi as [| | |m|]; try (left; eexists; reflexivity).
    cbn [str_add mbind result_bind].
    rewrite (bind_ok _ _ h (("FROM csirocass/base:" +:+ m) +:+ " AS base_image " +:+ nl) h)
      by reflexivity.
    destruct (name_target_cases (Ok (".gitlab-docker-yandabase-" +:+ m))
                (Ok (((prepend +:+ "yandabase:") +:+ m) +:+ append)) h)
      as [[e He]|(rn & im & [= <-] & [= <-] & Hr & Hi & Hn)].
    + left. exists e. now apply bind_raise.
    + right. eexists _, _, _. split; [erewrite bind_ok by exact Hn; reflexivity|].
      split; [exact Hr|]. split; [exact Hi|]. left. split; [reflexivity|].
      exists m. auto.
  - destruct (String.eqb_spec machine "galaxy") as [->|Hx];
      [|left; eexists; reflexivity].
    cbv zeta.
    destruct (name_target_cases (Ok (".gitlab-docker-yandabase-" +:+ "galaxy"))
                (Ok (prepend +:+ "yandabase:" +:+ "galaxy" +:+ append)) h)
      as [[e He]|(rn & im & [= <-] & [= <-] & Hr & Hi & Hn)].
    + left. exists e. now apply bind_raise.
    + right. eexists _, _, _. split; [erewrite bind_ok by exact Hn; reflexivity|].
      split; [exact Hr|]. split; [exact Hi|]. right. auto.
Qed.

(** X13.  [make_yandabase] has two outcomes.  It raises, and then nothing
    was written, printed or run; that is so also when the recipe file
    cannot be opened.  Or it returns a target with two proper
    names and a text that starts with the header; the text was written to
    the file of the recipe name, and the build command was run (with
    [execute]) or printed (without), once. *)
Theorem make_yandabase_outcomes (script_file : string) (nproc_available : Z)
  (machine : string) (mpi : pyval) (prepend append : string) (execute : bool) (h : host) :
  (exists e, make_yandabase script_file nproc_available machine mpi prepend append
               execute h = (Raise e, h)) \/
  (exists target base_part,
     make_yandabase script_file nproc_available machine mpi prepend append execute h =
       (Ok target, deliver execute target h) /\
     is_proper_name (PyStr (recipe_name target)) = Ok true /\
     is_proper_name (PyStr (image_name target)) = Ok true /\
     recipe target = header script_file +:+ base_part +:+ yandabase_recipe nproc_available).
Proof.
  destruct (yandabase_target_cases machine mpi prepend append h)
    as [[e He]|(base_part & rn & im & Ht & Hr & Hi & _)].
  - left. exists e. now apply make_yandabase_raise.
  - destruct (open_error rn) as [e|] eqn:Ho.
    { left. exists e. eapply make_yandabase_refused; eauto using proper_nonempty. }
    right. eexists _, base_part. split; [|split; [|split]].
    + apply make_yandabase_named; eauto using proper_nonempty.
    + exact Hr.
    + exact Hi.
    + reflexivity.
Qed.

(** ** Lines of a text put together from parts *)

Lemma str_split_go_app sep a : forall cur s ls x,
  str_split_go sep cur a = ls ++ [x] ->
  str_split_go sep cur (a +:+ s) = ls ++ str_split_go sep x s.
Proof.
  induction a as [|c a IH]; intros cur s ls x H.
  - cbn in H. destruct ls as [|l0 [|l1 ls]]; try discriminate H.
    now injection H as <-.
  - rewrite app_cons. cbn [str_split_go] in *. destruct (Ascii.eqb c sep).
    + destruct ls as [|l0 ls].
      * injection H as _ H. now apply str_split_go_nonempty in H.
      * injection H as <- H. cbn. f_equal. now apply IH.
    + now apply IH.
Qed.

Lemma lines_app_ended a b ls :
  lines a = ls ++ [""] -> lines (a +:+ b) = ls ++ lines b.
Proof. apply str_split_go_app. Qed.

Lemma ended_app a b : ended a -> ended b -> ended (a +:+ b).
Proof.
  intros [la Ha] [lb Hb]. exists (la ++ lb).
  rewrite (lines_app_ended a b la Ha), Hb. apply app_assoc.
Qed.

Lemma stage_lines_app a b :
  ended a -> stage_lines (a +:+ b) = stage_lines a ++ stage_lines b.
Proof.
  intros [la Ha]. unfold stage_lines.
  rewrite (lines_app_ended a b la Ha), Ha, !List.filter_app. cbn.
  now rewrite app_nil_r.
Qed.

Lemma ended_line a : has_charb newline a = false -> ended (a +:+ nl).
Proof.
  intros H. exists [a]. unfold lines, str_split.
  rewrite lines_go_text by assumption. reflexivity.
Qed.

Lemma stage_lines_line a :
  has_charb newline a = false ->
  stage_lines (a +:+ nl) = if startswith "FROM " a then [a] else [].
Proof.
  intros H. unfold stage_lines, lines, str_split.
  rewrite lines_go_text by assumption. rewrite lines_go_nl_end. cbn.
  destruct (startswith "FROM " a); reflexivity.
Qed.

(** ** The stages of the recipes *)

Lemma header_ended script_file :
  has_charb newline script_file = false ->
  ended (header script_file) /\ stage_lines (header script_file) = [].
Proof.
  intros H. unfold header.
  assert (Hl : has_charb newline ("# This file is automatically created by " +:+ script_file)
               = false) by (rewrite has_charb_app, H; reflexivity).
  rewrite <- app_assoc_str. split; [now apply ended_line|].
  now rewrite stage_lines_line.
Qed.

Ltac ended_closed :=
  match goal with
  | |- ended ?t => exists (List.removelast (lines t)); vm_compute; reflexivity
  end.

Lemma apt_install_part_ended :
  ended yandabase_apt_install_part /\ stage_lines yandabase_apt_install_part = [].
Proof. split; [ended_closed | vm_compute; reflexivity]. Qed.

Ltac ended_known Hl :=
  match type of Hl with
  | _ = ?L => exists (List.removelast L); rewrite Hl; reflexivity
  end.

Ltac stages_known Hl := unfold stage_lines; rewrite Hl; reflexivity.

Lemma yandabase_recipe_stages nproc_available :
  ended (yandabase_recipe nproc_available) /\
  stage_lines (yandabase_recipe nproc_available) = [].
Proof.
  unfold yandabase_recipe, cmake_source.
  match goal with
  | |- context [yandabase_apt_install_part +:+ ?c] => set (chain := c)
  end.
  destruct apt_install_part_ended as [Ha Hs].
  eassert (Hl : lines chain = _).
  { subst chain. split_lines. reflexivity. }
  split.
  - apply ended_app; [exact Ha | ended_known Hl].
  - rewrite stage_lines_app, Hs by exact Ha. stages_known Hl.
Qed.

(** ** The base image target, made *)

Lemma make_yandabase_generic_ok script_file nproc_available m prepend append execute h :
  clean m -> no_path_chars m -> clean prepend -> clean append ->
  make_yandabase script_file nproc_available "generic" (PyStr m) prepend append execute h =
    (Ok {| recipe_name := ".gitlab-docker-yandabase-" +:+ m;
           image_name := prepend +:+ "yandabase:" +:+ m +:+ append;
           recipe := header script_file +:+
                     ("FROM csirocass/base:" +:+ m +:+ " AS base_image " +:+ nl) +:+
                     yandabase_recipe nproc_available |},
     deliver execute
       {| recipe_name := ".gitlab-docker-yandabase-" +:+ m;
          image_name := prepend +:+ "yandabase:" +:+ m +:+ append;
          recipe := header script_file +:+
                    ("FROM csirocass/base:" +:+ m +:+ " AS base_image " +:+ nl) +:+
                    yandabase_recipe nproc_available |} h).
Proof.
  intros Hm Hpath Hp Ha.
  apply make_yandabase_named; [|discriminate| |].
  - unfold yandabase_target. rewrite String.eqb_refl. cbn [str_add mbind result_bind].
    rewrite (bind_ok _ _ h (("FROM csirocass/base:" +:+ m) +:+ " AS base_image " +:+ nl) h)
      by reflexivity.
    rewrite (bind_ok _ _ h
               {| recipe_name := ".gitlab-docker-yandabase-" +:+ m;
                  image_name := ((prepend +:+ "yandabase:") +:+ m) +:+ append;
                  recipe := "" |} h).
    + rewrite !app_assoc_str. reflexivity.
    + apply name_target_ok; apply proper_name_parts;
        try discriminate; try solve_clean.
      rewrite !app_assoc_str. apply app_nonempty_r. discriminate.
  - apply app_nonempty_r. discriminate.
  - apply (open_error_named "." "g" ("itlab-docker-yandabase-" +:+ m));
      try discriminate.
    change (no_path_chars (".gitlab-docker-yandabase-" +:+ m)). solve_path.
Qed.

Lemma make_yandabase_galaxy_ok script_file nproc_available mpi prepend append execute h :
  clean prepend -> clean append ->
  make_yandabase script_file nproc_available "galaxy" mpi prepend append execute h =
    (Ok {| recipe_name := ".gitlab-docker-yandabase-galaxy";
           image_name := prepend +:+ "yandabase:galaxy" +:+ append;
           recipe := header script_file +:+
                     ("FROM pawsey/mpich-base:3.1.4_ubuntu18.04 AS base_image" +:+ nl) +:+
                     yandabase_recipe nproc_available |},
     deliver execute
       {| recipe_name := ".gitlab-docker-yandabase-galaxy";
          image_name := prepend +:+ "yandabase:galaxy" +:+ append;
          recipe := header script_file +:+
                    ("FROM pawsey/mpich-base:3.1.4_ubuntu18.04 AS base_image" +:+ nl) +:+
                    yandabase_recipe nproc_available |} h).
Proof.
  intros Hp Ha.
  apply make_yandabase_named; [|discriminate| |reflexivity].
  - unfold yandabase_target.
    change (String.eqb "galaxy" "generic") with false.
    change (String.eqb "galaxy" "galaxy") with true. cbv iota zeta.
    rewrite (bind_ok _ _ h
               {| recipe_name := ".gitlab-docker-yandabase-galaxy";
                  image_name := prepend +:+ "yandabase:galaxy" +:+ append;
                  recipe := "" |} h); [reflexivity|].
    apply (name_target_ok ".gitlab-docker-yandabase-galaxy"
             (prepend +:+ "yandabase:galaxy" +:+ append));
      apply proper_name_parts; try discriminate; try solve_clean.
    apply app_nonempty_r. discriminate.
  - apply app_nonempty_r. discriminate.
Qed.

(** X14.  For the generic machine and a variant, account prefix and suffix
    without forbidden characters, the variant also without a slash or a
    NUL, so that the recipe file can be opened, [make_yandabase] succeeds:
    the recipe file is [.gitlab-docker-yandabase-<variant>], the image is
    [<prefix>yandabase:<variant><suffix>], the text is the header, the line
    [FROM csirocass/base:<variant> AS base_image ] and the fixed body; the
    file is written and the build command run or printed. *)
Theorem make_yandabase_generic (script_file : string) (nproc_available : Z)
  (m prepend append : string) (execute : bool) (h : host) :
  clean m -> no_path_chars m -> clean prepend -> clean append ->
  make_yandabase script_file nproc_available "generic" (PyStr m) prepend append execute h =
    (Ok {| recipe_name := ".gitlab-docker-yandabase-" +:+ m;
           image_name := prepend +:+ "yandabase:" +:+ m +:+ append;
           recipe := header script_file +:+
                     ("FROM csirocass/base:" +:+ m +:+ " AS base_image " +:+ nl) +:+
                     yandabase_recipe nproc_available |},
     deliver execute
       {| recipe_name := ".gitlab-docker-yandabase-" +:+ m;
          image_name := prepend +:+ "yandabase:" +:+ m +:+ append;
          recipe := header script_file +:+
                    ("FROM csirocass/base:" +:+ m +:+ " AS base_image " +:+ nl) +:+
                    yandabase_recipe nproc_available |} h).
Proof. apply make_yandabase_generic_ok. Qed.

Lemma make_yandabase_generic_witness :
  stdout (disk (snd (make_yandabase "make_docker_images.py" 8 "generic" (PyStr "mpich")
                       "csirocass/" "" false empty_host))) =
  ["docker build --no-cache --pull -t csirocass/yandabase:mpich -f .gitlab-docker-yandabase-mpich ."].
Proof.
  rewrite (make_yandabase_generic "make_docker_images.py" 8 "mpich" "csirocass/" ""
             false empty_host);
    [reflexivity | apply clean_iff; reflexivity | split; reflexivity
    | apply clean_iff; reflexivity ..].
Defined.

(** X15.  For the machine [galaxy] the variant is not looked at, so that
    [main] may pass [None]: with an account prefix and suffix without
    forbidden characters the target is [.gitlab-docker-yandabase-galaxy],
    the image [<prefix>yandabase:galaxy<suffix>], built from
    [pawsey/mpich-base:3.1.4_ubuntu18.04], whatever the variant. *)
Theorem make_yandabase_galaxy (script_file : string) (nproc_available : Z)
  (mpi : pyval) (prepend append : string) (execute : bool) (h : host) :
  clean prepend -> clean append ->
  make_yandabase script_file nproc_available "galaxy" mpi prepend append execute h =
    (Ok {| recipe_name := ".gitlab-docker-yandabase-galaxy";
           image_name := prepend +:+ "yandabase:galaxy" +:+ append;
           recipe := header script_file +:+
                     ("FROM pawsey/mpich-base:3.1.4_ubuntu18.04 AS base_image" +:+ nl) +:+
                     yandabase_recipe nproc_available |},
     deliver execute
       {| recipe_name := ".gitlab-docker-yandabase-galaxy";
          image_name := prepend +:+ "yandabase:galaxy" +:+ append;
          recipe := header script_file +:+
                    ("FROM pawsey/mpich-base:3.1.4_ubuntu18.04 AS base_image" +:+ nl) +:+
                    yandabase_recipe nproc_available |} h).
Proof. apply make_yandabase_galaxy_ok. Qed.

Lemma make_yandabase_galaxy_witness :
  ran (snd (make_yandabase "make_docker_images.py" 8 "galaxy" PyNone
              "csirocass/" "" true empty_host)) =
  ["docker build --no-cache --pull -t csirocass/yandabase:galaxy -f .gitlab-docker-yandabase-galaxy ."].
Proof.
  rewrite (make_yandabase_galaxy "make_docker_images.py" 8 PyNone "csirocass/" ""
             true empty_host);
    [reflexivity | apply clean_iff; reflexivity ..].
Defined.

Lemma base_part_stages line :
  has_charb newline line = false ->
  ended (line +:+ nl) /\
  stage_lines (line +:+ nl) = if startswith "FROM " line then [line] else [].
Proof. intros H. split; [now apply ended_line | now apply stage_lines_line]. Qed.

Lemma text_stages script_file base_line body :
  has_charb newline script_file = false ->
  has_charb newline base_line = false ->
  startswith "FROM " base_line = true ->
  stage_lines (header script_file +:+ (base_line +:+ nl) +:+ body) =
  base_line :: stage_lines body.
Proof.
  intros Hs Hb Hf. destruct (header_ended script_file Hs) as [He Hh].
  destruct (base_part_stages base_line Hb) as [Hbe Hbs].
  rewrite stage_lines_app, Hh by exact He.
  rewrite stage_lines_app, Hbs, Hf by exact Hbe. reflexivity.
Qed.

(** X16.  A base recipe that [make_yandabase] returns has exactly one build
    stage: its only line that starts with [FROM] names [csirocass/base] with
    the variant for the generic machine, and the Pawsey base image for
    [galaxy]. *)
Theorem yandabase_recipe_one_stage (script_file : string) (nproc_available : Z)
  (machine : string) (mpi : pyval) (prepend append : string) (execute : bool)
  (h h' : host) (target : DockerClass) :
  has_charb newline script_file = false ->
  make_yandabase script_file nproc_available machine mpi prepend append execute h =
    (Ok target, h') ->
  files (disk h') !! recipe_name target = Some (recipe target) /\
  ((machine = "generic" /\ exists m, mpi = PyStr m /\
      stage_lines (recipe target) = ["FROM csirocass/base:" +:+ m +:+ " AS base_image "]) \/
   (machine = "galaxy" /\
      stage_lines (recipe target) =
        ["FROM pawsey/mpich-base:3.1.4_ubuntu18.04 AS base_image"])).
Proof.
  intros Hs H.
  destruct (yandabase_recipe_stages nproc_available) as [_ Hbody].
  destruct (yandabase_target_cases machine mpi prepend append h)
    as [[e He]|(base_part & rn & im & Ht & Hr & Hi & Hcase)].
  { rewrite (make_yandabase_raise _ _ _ _ _ _ _ _ _ He) in H. discriminate H. }
  destruct (open_error rn) as [e|] eqn:Ho.
  { rewrite (make_yandabase_refused script_file nproc_available _ _ _ _ execute _ _ _ _ e Ht)
      in H by eauto using proper_nonempty.
    discriminate H. }
  rewrite (make_yandabase_named script_file nproc_available _ _ _ _ execute _ _ _ _ Ht)
    in H by eauto using proper_nonempty.
  injection H as <- <-. split; [apply lookup_insert_eq|]. cbn [recipe].
  destruct Hcase as [(-> & m & -> & -> & -> & ->)|(-> & -> & -> & ->)].
  - left. split; [reflexivity|]. exists m. split; [reflexivity|].
    apply is_proper_name_clean in Hr as [_ Hr]. apply clean_app in Hr as [_ Hm].
    assert (E : ("FROM csirocass/base:" +:+ m) +:+ " AS base_image " +:+ nl =
                ("FROM csirocass/base:" +:+ m +:+ " AS base_image ") +:+ nl)
      by now rewrite !app_assoc_str.
    rewrite E, text_stages, Hbody; try reflexivity; try assumption.
    rewrite !has_charb_app, (clean_no_newline m Hm). reflexivity.
  - right. split; [reflexivity|].
    now rewrite text_stages, Hbody.
Qed.

Lemma yandabase_recipe_one_stage_witness :
  stage_lines
    (recipe {| recipe_name := ".gitlab-docker-yandabase-openmpi4";
               image_name := "csirocass/yandabase:openmpi4";
               recipe := header "make_docker_images.py" +:+
                         ("FROM csirocass/base:openmpi4 AS base_image " +:+ nl) +:+
                         yandabase_recipe 8 |}) =
  ["FROM csirocass/base:openmpi4 AS base_image "].
Proof.
  destruct (yandabase_recipe_one_stage "make_docker_images.py" 8 "generic"
              (PyStr "openmpi4") "csirocass/" "" false empty_host _ _ eq_refl
              (make_yandabase_generic_ok "make_docker_images.py" 8 "openmpi4"
                 "csirocass/" "" false empty_host
                 ltac:(apply clean_iff; reflexivity)
                 ltac:(split; reflexivity)
                 ltac:(apply clean_iff; reflexivity)
                 ltac:(apply clean_iff; reflexivity)))
    as [_ [(_ & m & [= <-] & H)|([=] & _)]].
  exact H.
Defined.

(** ** The product targets *)

Lemma yandasoft_base_image_cases machine mpi h :
  (exists e, yandasoft_base_image machine mpi h = (Raise e, h)) \/
  (exists v, variant machine mpi v /\
     yandasoft_base_image machine mpi h = (Ok ("csirocass/yandabase:" +:+ v), h)).
Proof.
  unfold yandasoft_base_image, variant.
  destruct (String.eqb_spec machine "generic") as [->|Hg].
  - destruct mpi as [| | |m|]; try (left; eexists; reflexivity).
    right. exists m. split; [left; auto | reflexivity].
  - destruct (String.eqb_spec machine "galaxy") as [->|Hx];
      [|left; eexists; reflexivity].
    right. exists "galaxy". split; [right; auto | reflexivity].
Qed.

Ltac name_cases h :=
  match goal with
  | |- context [name_target ?ra ?ia new_DockerClass] =>
      destruct (name_target_cases ra ia h)
        as [[e He]|(rn & im & Era & Eia & Hr & Hi & Hn)]
  end.

Lemma yandasoft_target_cases machine mpi prepend append git_branch image r h :
  (exists e, yandasoft_target machine mpi prepend append git_branch image r
               new_DockerClass h = (Raise e, h)) \/
  (exists v rn im,
     yandasoft_target machine mpi prepend append git_branch image r new_DockerClass h =
       (Ok (if is_release_tag git_branch
            then r +:+ make_small_yandasoft_recipe (production_base machine v) else r,
            {| recipe_name := rn; image_name := im; recipe := "" |}), h) /\
     is_proper_name (PyStr rn) = Ok true /\ is_proper_name (PyStr im) = Ok true /\
     variant machine mpi v /\
     rn = ".gitlab-docker-" +:+ image +:+ "-" +:+ revision_part git_branch +:+ v /\
     im = prepend +:+ image +:+ ":" +:+ revision_part git_branch +:+ v +:+ append).
Proof.
  unfold yandasoft_target, revision_part, is_release_tag, production_base, variant.
  destruct (String.eqb_spec git_branch "develop") as [->|Hd];
    [|destruct (String.eqb_spec git_branch "master") as [->|Hm]];
    (destruct (String.eqb_spec machine "generic") as [->|Hg];
     [ destruct mpi as [| | |m|]; try (left; eexists; reflexivity)
     | destruct (String.eqb_spec machine "galaxy") as [->|Hx];
       [|left; eexists; reflexivity] ]);
    cbn [str_add mbind result_bind orb negb]; cbv zeta;
    rewrite ?bind_assoc;
    try rewrite (bind_ok _ _ h ("csirocass/base:" +:+ m) h) by reflexivity;
    rewrite ?bind_assoc;
    name_cases h;
    try (left; exists e; erewrite bind_raise by exact He; reflexivity);
    injection Era as <-; injection Eia as <-;
    right;
    first [ exists m | exists "galaxy" ]; eexists _, _;
    (split; [erewrite bind_ok by exact Hn; reflexivity|]);
    (split; [exact Hr|]); (split; [exact Hi|]);
    (split; [auto|]);
    split; rewrite ?app_assoc_str; reflexivity.
Qed.

Ltac solve_nonempty :=
  rewrite ?app_assoc_str; repeat first [ discriminate | apply app_nonempty_r ].

Ltac solve_proper :=
  apply proper_name_parts; [ solve_nonempty | rewrite ?app_assoc_str; solve_clean ].

Lemma clean_revision_part git_branch :
  clean (revision_part git_branch) ->
  is_release_tag git_branch = true -> clean (slice 0 3 git_branch).
Proof.
  unfold revision_part, is_release_tag.
  destruct (String.eqb git_branch "develop"); [discriminate|].
  destruct (String.eqb git_branch "master"); [discriminate|].
  intros H _. now apply clean_app in H as [H _].
Qed.

Lemma yandasoft_target_ok machine mpi v prepend append git_branch image r h :
  variant machine mpi v ->
  clean v -> clean prepend -> clean append -> clean image ->
  clean (revision_part git_branch) ->
  yandasoft_target machine mpi prepend append git_branch image r new_DockerClass h =
    (Ok (if is_release_tag git_branch
         then r +:+ make_small_yandasoft_recipe (production_base machine v) else r,
         {| recipe_name :=
              ".gitlab-docker-" +:+ image +:+ "-" +:+ revision_part git_branch +:+ v;
            image_name :=
              prepend +:+ image +:+ ":" +:+ revision_part git_branch +:+ v +:+ append;
            recipe := "" |}), h).
Proof.
  intros Hv Cv Cp Ca Ci Cr.
  pose proof (clean_revision_part git_branch Cr) as Cs.
  unfold yandasoft_target, revision_part, is_release_tag, production_base in *.
  destruct Hv as [[-> ->]|[-> ->]];
    (destruct (String.eqb_spec git_branch "develop") as [->|Hd];
     [|destruct (String.eqb_spec git_branch "master") as [->|Hm]]);
    cbn [String.eqb Ascii.eqb Bool.eqb str_add mbind result_bind orb negb] in *; cbv zeta;
    try specialize (Cs eq_refl);
    rewrite ?bind_assoc;
    try rewrite (bind_ok _ _ h ("csirocass/base:" +:+ v) h) by reflexivity;
    rewrite ?bind_assoc;
    (erewrite bind_ok by (apply name_target_ok; solve_proper));
    cbn [mbind stexn_bind mret stexn_ret]; unfold mbind, stexn_bind, mret, stexn_ret;
    rewrite ?app_assoc_str; reflexivity.
Qed.

Lemma variant_fun machine mpi v v' :
  variant machine mpi v -> variant machine mpi v' -> v = v'.
Proof.
  intros [[-> ->]|[-> ->]] [[E1 E2]|[E1 E2]]; try discriminate; congruence.
Qed.

Lemma yandasoft_base_image_ok machine mpi v h :
  variant machine mpi v ->
  yandasoft_base_image machine mpi h = (Ok ("csirocass/yandabase:" +:+ v), h).
Proof. intros [[-> ->]|[-> ->]]; reflexivity. Qed.

Lemma make_big_ok nproc_available base_image image git_branch :
  image = "yandasoft" \/ image = "askapsoft" ->
  exists big, make_big_yandasoft_recipe nproc_available base_image image git_branch = Ok big.
Proof.
  intros [->| ->]; unfold make_big_yandasoft_recipe; cbn [String.eqb mbind result_bind];
    destruct (String.eqb git_branch "develop" || String.eqb git_branch "master"); eauto.
Qed.

Lemma make_big_needs_image nproc_available base_image image git_branch big :
  make_big_yandasoft_recipe nproc_available base_image image git_branch = Ok big ->
  image = "yandasoft" \/ image = "askapsoft".
Proof.
  unfold make_big_yandasoft_recipe.
  destruct (String.eqb_spec image "yandasoft"); [auto|].
  destruct (String.eqb_spec image "askapsoft"); [auto | discriminate].
Qed.

Lemma recipe_end_nonempty (a b : string) : a +:+ b +:+ recipe_end <> "".
Proof. do 2 apply app_nonempty_r. discriminate. Qed.

(** The steps of [make_yandasoft] behind the naming of the target. *)
Lemma make_yandasoft_named script_file nproc_available machine mpi prepend append
  git_branch image execute h v big text rn im :
  variant machine mpi v ->
  make_big_yandasoft_recipe nproc_available ("csirocass/yandabase:" +:+ v) image
    git_branch = Ok big ->
  yandasoft_target machine mpi prepend append git_branch image big new_DockerClass h =
    (Ok (text, {| recipe_name := rn; image_name := im; recipe := "" |}), h) ->
  rn <> "" -> im <> "" -> open_error rn = None ->
  make_yandasoft script_file nproc_available machine mpi prepend append git_branch image
    execute h =
    (Ok {| recipe_name := rn; image_name := im;
           recipe := header script_file +:+ text +:+ recipe_end |},
     deliver execute
       {| recipe_name := rn; image_name := im;
          recipe := header script_file +:+ text +:+ recipe_end |} h).
Proof.
  intros Hv Hbig Ht Hr Hi Ho. unfold make_yandasoft. cbv zeta.
  rewrite (bind_ok _ _ h ("csirocass/yandabase:" +:+ v) h)
    by (now apply yandasoft_base_image_ok).
  rewrite (bind_ok _ _ h big h) by (unfold lift; now rewrite Hbig).
  erewrite bind_ok by exact Ht. cbv beta iota.
  apply deliver_target; auto; discriminate.
Qed.

Lemma make_yandasoft_refused script_file nproc_available machine mpi prepend append
  git_branch image execute h v big text rn im e :
  variant machine mpi v ->
  make_big_yandasoft_recipe nproc_available ("csirocass/yandabase:" +:+ v) image
    git_branch = Ok big ->
  yandasoft_target machine mpi prepend append git_branch image big new_DockerClass h =
    (Ok (text, {| recipe_name := rn; image_name := im; recipe := "" |}), h) ->
  rn <> "" -> open_error rn = Some e ->
  make_yandasoft script_file nproc_available machine mpi prepend append git_branch image
    execute h = (Raise e, h).
Proof.
  intros Hv Hbig Ht Hr Ho. unfold make_yandasoft. cbv zeta.
  rewrite (bind_ok _ _ h ("csirocass/yandabase:" +:+ v) h)
    by (now apply yandasoft_base_image_ok).
  rewrite (bind_ok _ _ h big h) by (unfold lift; now rewrite Hbig).
  erewrite bind_ok by exact Ht. cbv beta iota.
  apply deliver_target_refused; auto; discriminate.
Qed.

(** The outcomes of [make_yandasoft], with what a success returns. *)
Lemma make_yandasoft_cases script_file nproc_available machine mpi prepend append
  git_branch image execute h :
  (exists e, make_yandasoft script_file nproc_available machine mpi prepend append
               git_branch image execute h = (Raise e, h)) \/
  (exists v big,
     variant machine mpi v /\
     make_big_yandasoft_recipe nproc_available ("csirocass/yandabase:" +:+ v) image
       git_branch = Ok big /\
     is_proper_name
       (PyStr (".gitlab-docker-" +:+ image +:+ "-" +:+ revision_part git_branch +:+ v))
       = Ok true /\
     is_proper_name
       (PyStr (prepend +:+ image +:+ ":" +:+ revision_part git_branch +:+ v +:+ append))
       = Ok true /\
     open_error
       (".gitlab-docker-" +:+ image +:+ "-" +:+ revision_part git_branch +:+ v) = None /\
     let target :=
       {| recipe_name :=
            ".gitlab-docker-" +:+ image +:+ "-" +:+ revision_part git_branch +:+ v;
          image_name :=
            prepend +:+ image +:+ ":" +:+ revision_part git_branch +:+ v +:+ append;
          recipe :=
            header script_file +:+
            (if is_release_tag git_branch
             then big +:+ make_small_yandasoft_recipe (production_base machine v)
             else big) +:+ recipe_end |} in
     make_yandasoft script_file nproc_available machine mpi prepend append git_branch
       image execute h = (Ok target, deliver execute target h)).
Proof.
  destruct (yandasoft_base_image_cases machine mpi h) as [[e He]|(v & Hv & Hb)].
  { left. exists e. unfold make_yandasoft. cbv zeta. now apply bind_raise. }
  destruct (make_big_yandasoft_recipe nproc_available ("csirocass/yandabase:" +:+ v)
              image git_branch) as [big|e] eqn:Hbig.
  2:{ left. exists e. unfold make_yandasoft. cbv zeta.
      erewrite bind_ok by exact Hb. apply bind_raise. unfold lift. now rewrite Hbig. }
  destruct (yandasoft_target_cases machine mpi prepend append git_branch image big h)
    as [[e He]|(v' & rn & im & Ht & Hr & Hi & Hv' & -> & ->)].
  { left. exists e. unfold make_yandasoft. cbv zeta.
    erewrite bind_ok by exact Hb.
    rewrite (bind_ok _ _ h big h) by (unfold lift; now rewrite Hbig).
    now apply bind_raise. }
  rewrite <- (variant_fun _ _ _ _ Hv Hv') in *.
  destruct (open_error
              (".gitlab-docker-" +:+ image +:+ "-" +:+ revision_part git_branch +:+ v))
    as [e|] eqn:Ho.
  { left. exists e.
    eapply make_yandasoft_refused with (v := v); eauto using proper_nonempty. }
  right. exists v, big. split; [exact Hv|]. split; [exact Hbig|].
  split; [exact Hr|]. split; [exact Hi|]. split; [exact Ho|]. cbv zeta.
  eapply make_yandasoft_named with (v := v); eauto using proper_nonempty.
Qed.

(** X17.  [make_yandasoft] has two outcomes.  It raises, and then nothing
    was written, printed or run; that is so also when the recipe file
    cannot be opened.  Or it returns a target with two proper
    names; the text was written to the file of the recipe name, and the
    build command was run (with [execute]) or printed (without), once. *)
Theorem make_yandasoft_outcomes (script_file : string) (nproc_available : Z)
  (machine : string) (mpi : pyval) (prepend append git_branch image : string)
  (execute : bool) (h : host) :
  (exists e, make_yandasoft script_file nproc_available machine mpi prepend append
               git_branch image execute h = (Raise e, h)) \/
  (exists target,
     make_yandasoft script_file nproc_available machine mpi prepend append git_branch
       image execute h = (Ok target, deliver execute target h) /\
     is_proper_name (PyStr (recipe_name target)) = Ok true /\
     is_proper_name (PyStr (image_name target)) = Ok true /\
     (image = "yandasoft" \/ image = "askapsoft")).
Proof.
  destruct (make_yandasoft_cases script_file nproc_available machine mpi prepend append
              git_branch image execute h)
    as [H|(v & big & Hv & Hbig & Hr & Hi & _ & H)]; [now left|].
  right. eexists. split; [exact H|]. cbn [recipe_name image_name].
  split; [exact Hr|]. split; [exact Hi|].
  eapply make_big_needs_image; eauto.
Qed.

Lemma clean_image image : image = "yandasoft" \/ image = "askapsoft" -> clean image.
Proof. intros [->| ->]; apply clean_iff; reflexivity. Qed.

(** The recipe file of a product can be opened exactly when the revision
    part and the variant can stand inside a file name. *)
Lemma product_file_opens image r v :
  image = "yandasoft" \/ image = "askapsoft" ->
  open_error (".gitlab-docker-" +:+ image +:+ "-" +:+ r +:+ v) = None <->
  no_path_chars r /\ no_path_chars v.
Proof.
  intros Himg.
  change (".gitlab-docker-" +:+ image +:+ "-" +:+ r +:+ v)
    with (String "." (String "g" ("itlab-docker-" +:+ image +:+ "-" +:+ r +:+ v))).
  rewrite open_error_named by discriminate.
  change (String "." (String "g" ("itlab-docker-" +:+ image +:+ "-" +:+ r +:+ v)))
    with (".gitlab-docker-" +:+ image +:+ "-" +:+ r +:+ v).
  rewrite !no_path_chars_app.
  assert (no_path_chars ".gitlab-docker-" /\ no_path_chars image /\ no_path_chars "-")
    by (destruct Himg as [->| ->]; repeat split).
  tauto.
Qed.

Lemma make_yandasoft_ok script_file nproc_available machine mpi v prepend append
  git_branch image execute h :
  variant machine mpi v ->
  image = "yandasoft" \/ image = "askapsoft" ->
  clean v -> clean prepend -> clean append -> clean (revision_part git_branch) ->
  no_path_chars v -> no_path_chars (revision_part git_branch) ->
  exists big,
    make_big_yandasoft_recipe nproc_available ("csirocass/yandabase:" +:+ v) image
      git_branch = Ok big /\
    let target :=
      {| recipe_name :=
           ".gitlab-docker-" +:+ image +:+ "-" +:+ revision_part git_branch +:+ v;
         image_name :=
           prepend +:+ image +:+ ":" +:+ revision_part git_branch +:+ v +:+ append;
         recipe :=
           header script_file +:+
           (if is_release_tag git_branch
            then big +:+ make_small_yandasoft_recipe (production_base machine v)
            else big) +:+ recipe_end |} in
    make_yandasoft script_file nproc_available machine mpi prepend append git_branch
      image execute h = (Ok target, deliver execute target h).
Proof.
  intros Hv Himg Cv Cp Ca Cr Pv Pr.
  destruct (make_big_ok nproc_available ("csirocass/yandabase:" +:+ v) image git_branch
              Himg) as [big Hbig].
  exists big. split; [exact Hbig|]. cbv zeta.
  eapply make_yandasoft_named with (v := v); eauto;
    first [ apply yandasoft_target_ok; now auto using clean_image
          | now apply product_file_opens
          | intros E; apply app_empty_inv in E as [E _]; discriminate E
          | intros E; apply app_empty_inv in E as [_ E];
            apply app_empty_inv in E as [_ E]; apply app_empty_inv in E as [E _];
            discriminate E ].
Qed.

(** X18.  The names of a product target.  For a variant, account prefix and
    suffix without forbidden characters, one of the two product kinds, and
    a revision whose name part is without forbidden characters (as [dev-]
    for [develop] and the empty part for [master] are), the variant and the
    name part of the revision also without a slash or a NUL, so that the
    recipe file can be opened, [make_yandasoft] succeeds and names the recipe file
    [.gitlab-docker-<kind>-<revision part><variant>] and the image
    [<prefix><kind>:<revision part><variant><suffix>]. *)
Theorem make_yandasoft_names (script_file : string) (nproc_available : Z)
  (machine : string) (mpi : pyval) (v prepend append git_branch image : string)
  (execute : bool) (h : host) :
  variant machine mpi v ->
  image = "yandasoft" \/ image = "askapsoft" ->
  clean v -> clean prepend -> clean append -> clean (revision_part git_branch) ->
  no_path_chars v -> no_path_chars (revision_part git_branch) ->
  exists target,
    make_yandasoft script_file nproc_available machine mpi prepend append git_branch
      image execute h = (Ok target, deliver execute target h) /\
    recipe_name target =
      ".gitlab-docker-" +:+ image +:+ "-" +:+ revision_part git_branch +:+ v /\
    image_name target =
      prepend +:+ image +:+ ":" +:+ revision_part git_branch +:+ v +:+ append.
Proof.
  intros Hv Himg Cv Cp Ca Cr Pv Pr.
  destruct (make_yandasoft_ok script_file nproc_available machine mpi v prepend append
              git_branch image execute h Hv Himg Cv Cp Ca Cr Pv Pr) as (big & _ & H).
  eexists. split; [exact H|]. split; reflexivity.
Qed.

Lemma make_yandasoft_names_witness :
  exists target,
    make_yandasoft "make_docker_images.py" 8 "generic" (PyStr "openmpi4") "csirocass/" ""
      "1.2.3" "yandasoft" true empty_host = (Ok target, deliver true target empty_host) /\
    recipe_name target = ".gitlab-docker-yandasoft-1.2-openmpi4" /\
    image_name target = "csirocass/yandasoft:1.2-openmpi4".
Proof.
  apply (make_yandasoft_names "make_docker_images.py" 8 "generic" (PyStr "openmpi4")
           "openmpi4" "csirocass/" "" "1.2.3" "yandasoft" true empty_host);
    [left; split; reflexivity | left; reflexivity
    | first [apply clean_iff; reflexivity | split; reflexivity] ..].
Defined.

Lemma revision_part_tag t1 t2 :
  is_release_tag t1 = true -> is_release_tag t2 = true ->
  slice 0 3 t1 = slice 0 3 t2 -> revision_part t1 = revision_part t2.
Proof.
  unfold is_release_tag, revision_part.
  destruct (String.eqb t1 "develop"), (String.eqb t1 "master"),
    (String.eqb t2 "develop"), (String.eqb t2 "master"); try discriminate.
  now intros _ _ ->.
Qed.

(** X19.  Release tags are told apart by their first three characters
    only: two tags that agree on them give the same recipe file name and
    the same image name, so that the second target overwrites the recipe
    file of the first. *)
Theorem release_tags_collide (script_file : string) (nproc_available : Z)
  (machine : string) (mpi : pyval) (prepend append image t1 t2 : string)
  (execute : bool) (h1 h1' h2' : host) (target1 target2 : DockerClass) :
  is_release_tag t1 = true -> is_release_tag t2 = true ->
  slice 0 3 t1 = slice 0 3 t2 ->
  make_yandasoft script_file nproc_available machine mpi prepend append t1 image
    execute h1 = (Ok target1, h1') ->
  make_yandasoft script_file nproc_available machine mpi prepend append t2 image
    execute h1' = (Ok target2, h2') ->
  recipe_name target1 = recipe_name target2 /\
  image_name target1 = image_name target2 /\
  files (disk h2') !! recipe_name target1 = Some (recipe target2).
Proof.
  intros T1 T2 Hs H1 H2.
  pose proof (revision_part_tag t1 t2 T1 T2 Hs) as Hrev.
  destruct (make_yandasoft_cases script_file nproc_available machine mpi prepend append
              t1 image execute h1) as [[e He]|(v1 & big1 & Hv1 & _ & _ & _ & _ & E1)];
    [congruence|].
  destruct (make_yandasoft_cases script_file nproc_available machine mpi prepend append
              t2 image execute h1') as [[e He]|(v2 & big2 & Hv2 & _ & _ & _ & _ & E2)];
    [congruence|].
  cbv zeta in E1, E2. rewrite E1 in H1. rewrite E2 in H2.
  injection H1 as <- <-. injection H2 as <- <-.
  rewrite (variant_fun _ _ _ _ Hv2 Hv1), Hrev. cbn [recipe_name image_name recipe].
  split; [reflexivity|]. split; [reflexivity|].
  apply lookup_insert_eq.
Qed.

Lemma release_tags_collide_witness :
  exists target1 target2 h1 h2,
    make_yandasoft "make_docker_images.py" 8 "generic" (PyStr "mpich") "csirocass/" ""
      "1.2.3" "yandasoft" false empty_host = (Ok target1, h1) /\
    make_yandasoft "make_docker_images.py" 8 "generic" (PyStr "mpich") "csirocass/" ""
      "1.2.4" "yandasoft" false h1 = (Ok target2, h2) /\
    recipe_name target1 = recipe_name target2 /\
    image_name target1 = image_name target2 /\
    files (disk h2) !! recipe_name target1 = Some (recipe target2).
Proof.
  destruct (make_yandasoft_ok "make_docker_images.py" 8 "generic" (PyStr "mpich") "mpich"
              "csirocass/" "" "1.2.3" "yandasoft" false empty_host)
    as (big1 & _ & E1);
    [left; split; reflexivity | left; reflexivity
      | first [apply clean_iff; reflexivity | split; reflexivity] ..|].
  cbv zeta in E1.
  match type of E1 with _ = (Ok ?t1, ?h1') =>
    destruct (make_yandasoft_ok "make_docker_images.py" 8 "generic" (PyStr "mpich") "mpich"
                "csirocass/" "" "1.2.4" "yandasoft" false h1')
      as (big2 & _ & E2);
      [left; split; reflexivity | left; reflexivity
      | first [apply clean_iff; reflexivity | split; reflexivity] ..|];
    cbv zeta in E2;
    pose proof (release_tags_collide "make_docker_images.py" 8 "generic" (PyStr "mpich")
                  "csirocass/" "" "yandasoft" "1.2.3" "1.2.4" false empty_host _ _ _ _
                  eq_refl eq_refl eq_refl E1 E2) as H
  end.
  eexists _, _, _, _. split; [exact E1|]. split; [exact E2|]. exact H.
Defined.

(** ** The stages of a product recipe *)

Lemma big_recipe_stages nproc_available base_image image git_branch big :
  make_big_yandasoft_recipe nproc_available base_image image git_branch = Ok big ->
  has_charb newline base_image = false ->
  has_charb newline git_branch = false ->
  ended big /\ stage_lines big = ["FROM " +:+ base_image +:+ " AS build_image "].
Proof.
  intros Hbig Hb Hg.
  pose proof (make_big_needs_image _ _ _ _ _ Hbig) as Himg.
  destruct (recipe_lines nproc_available base_image image Himg Hb)
    as (flags & Hbranch & Hrelease).
  assert (Hl : exists mid, lines big = recipe_head base_image ++ mid ++
                 recipe_tail nproc_available flags /\
               List.filter (startswith "FROM ") mid = []).
  { destruct (String.eqb_spec git_branch "develop") as [->|Hd].
    { destruct (Hbranch "develop" (or_introl eq_refl)) as (r & Er & Lr).
      rewrite Hbig in Er. injection Er as <-. eexists. split; [exact Lr | reflexivity]. }
    destruct (String.eqb_spec git_branch "master") as [->|Hm].
    { destruct (Hbranch "master" (or_intror eq_refl)) as (r & Er & Lr).
      rewrite Hbig in Er. injection Er as <-. eexists. split; [exact Lr | reflexivity]. }
    destruct (Hrelease git_branch Hg Hd Hm) as (r & Er & Lr).
    rewrite Hbig in Er. injection Er as <-. eexists. split; [exact Lr | reflexivity]. }
  destruct Hl as (mid & Hl & Hmid). split.
  - exists (recipe_head base_image ++ mid ++
            List.removelast (recipe_tail nproc_available flags)).
    rewrite Hl, <- !app_assoc. reflexivity.
  - unfold stage_lines. rewrite Hl, !List.filter_app, Hmid. reflexivity.
Qed.

Lemma small_recipe_stages base_image :
  has_charb newline base_image = false ->
  ended (make_small_yandasoft_recipe base_image) /\
  stage_lines (make_small_yandasoft_recipe base_image) =
    ["FROM " +:+ base_image +:+ " AS production_image "].
Proof.
  intros Hb. unfold make_small_yandasoft_recipe. cbv zeta.
  match goal with
  | |- context [((?base +:+ ?lib) +:+ ?copy) +:+ ?data] =>
      set (recipe_base := base); set (recipe_library := lib);
      set (recipe_copy := copy); set (recipe_data := data)
  end.
  eassert (Hl : lines recipe_base = _).
  { subst recipe_base. split_lines. reflexivity. }
  assert (Hbase : ended recipe_base) by ended_known Hl.
  assert (Hlib : ended recipe_library) by (subst recipe_library; ended_closed).
  assert (Hcopy : ended recipe_copy) by (subst recipe_copy; ended_closed).
  assert (Hdata : ended recipe_data) by (subst recipe_data; ended_closed).
  split; [auto using ended_app|].
  rewrite !stage_lines_app by auto using ended_app.
  replace (stage_lines recipe_library) with (@nil string)
    by (subst recipe_library; vm_compute; reflexivity).
  replace (stage_lines recipe_copy) with (@nil string)
    by (subst recipe_copy; vm_compute; reflexivity).
  replace (stage_lines recipe_data) with (@nil string)
    by (subst recipe_data; vm_compute; reflexivity).
  rewrite !app_nil_r. stages_known Hl.
Qed.

Lemma recipe_end_stages : ended recipe_end /\ stage_lines recipe_end = [].
Proof. split; [ended_closed | vm_compute; reflexivity]. Qed.

Lemma production_base_no_newline machine v :
  clean v -> has_charb newline (production_base machine v) = false.
Proof.
  intros Hv. unfold production_base. destruct (String.eqb machine "generic");
    [|reflexivity].
  now rewrite has_charb_app, (clean_no_newline v Hv).
Qed.

(** X20.  A product recipe that [make_yandasoft] returns, for a revision
    name that is one line, has one build stage for [develop] and for
    [master], the stage [build_image] on the base image of the variant, and
    two for a release tag: that stage and then the stage [production_image]
    on the foundation image. *)
Theorem yandasoft_recipe_stages (script_file : string) (nproc_available : Z)
  (machine : string) (mpi : pyval) (prepend append git_branch image : string)
  (execute : bool) (h h' : host) (target : DockerClass) :
  has_charb newline script_file = false ->
  has_charb newline git_branch = false ->
  make_yandasoft script_file nproc_available machine mpi prepend append git_branch image
    execute h = (Ok target, h') ->
  exists v, variant machine mpi v /\
    files (disk h') !! recipe_name target = Some (recipe target) /\
    stage_lines (recipe target) =
      ("FROM csirocass/yandabase:" +:+ v +:+ " AS build_image ") ::
      (if is_release_tag git_branch
       then ["FROM " +:+ production_base machine v +:+ " AS production_image "]
       else []).
Proof.
  intros Hs Hg H.
  destruct (make_yandasoft_cases script_file nproc_available machine mpi prepend append
              git_branch image execute h) as [[e He]|(v & big & Hv & Hbig & Hr & _ & _ & E)];
    [congruence|].
  cbv zeta in E. rewrite E in H. injection H as <- <-.
  exists v. split; [exact Hv|]. split; [apply lookup_insert_eq|]. cbn [recipe].
  apply is_proper_name_clean in Hr as [_ Hr].
  assert (Cv : clean v) by (repeat (apply clean_app in Hr as [_ Hr]); exact Hr).
  assert (Hb : has_charb newline ("csirocass/yandabase:" +:+ v) = false)
    by now rewrite has_charb_app, (clean_no_newline v Cv).
  destruct (big_recipe_stages _ _ _ _ _ Hbig Hb Hg) as [Ebig Sbig].
  destruct (header_ended script_file Hs) as [Eh Sh].
  destruct (small_recipe_stages (production_base machine v)
              (production_base_no_newline machine v Cv)) as [Esmall Ssmall].
  destruct recipe_end_stages as [_ Send].
  rewrite stage_lines_app, Sh by exact Eh. cbn [app].
  destruct (is_release_tag git_branch).
  - rewrite stage_lines_app by auto using ended_app.
    rewrite stage_lines_app, Sbig, Ssmall, Send by exact Ebig.
    rewrite !app_assoc_str. reflexivity.
  - rewrite stage_lines_app, Sbig, Send by exact Ebig.
    rewrite !app_assoc_str. reflexivity.
Qed.

Lemma yandasoft_recipe_stages_witness :
  exists target h',
    make_yandasoft "make_docker_images.py" 8 "galaxy" (PyStr "galaxy") "csirocass/" ""
      "1.2.3" "askapsoft" false empty_host = (Ok target, h') /\
    stage_lines (recipe target) =
      ["FROM csirocass/yandabase:galaxy AS build_image ";
       "FROM pawsey/mpich-base:3.1.4_ubuntu18.04 AS production_image "].
Proof.
  destruct (make_yandasoft_ok "make_docker_images.py" 8 "galaxy" (PyStr "galaxy") "galaxy"
              "csirocass/" "" "1.2.3" "askapsoft" false empty_host)
    as (big & _ & E);
    [right; split; reflexivity | right; reflexivity
    | first [apply clean_iff; reflexivity | split; reflexivity] ..|].
  cbv zeta in E.
  destruct (yandasoft_recipe_stages "make_docker_images.py" 8 "galaxy" (PyStr "galaxy")
              "csirocass/" "" "1.2.3" "askapsoft" false empty_host _ _ eq_refl eq_refl E)
    as (v & [[[=] _]|[_ ->]] & _ & H).
  eexists _, _. split; [exact E | exact H].
Defined.

(** * The entry point *)

(** ** Loops *)

Lemma for_each_ok {S A} (xs : list A) (body : A -> stexn S unit) (step : A -> S -> S) :
  forall s,
  (forall x s, x ∈ xs -> body x s = (Ok tt, step x s)) ->
  for_each xs body s = (Ok tt, fold_left (fun s x => step x s) xs s).
Proof.
  induction xs as [|x xs IH]; intros s H; [reflexivity|].
  cbn [for_each fold_left].
  rewrite (bind_ok _ _ s tt (step x s)) by (apply H; left).
  apply IH. intros y s' Hy. apply H. now right.
Qed.

Lemma machine_loop {S} (body : string -> stexn S unit) s :
  for_each machine_targets body s = body "generic" s.
Proof.
  change machine_targets with ["generic"]. cbn [for_each].
  unfold mbind, stexn_bind. destruct (body "generic" s) as [[[]|e] s']; reflexivity.
Qed.

Lemma main_yandabase_loop script_file nproc_available git_branch execute h :
  exists h0,
    files (disk h0) = files (disk h) /\ ran h0 = ran h /\
    main script_file nproc_available "yandabase" git_branch execute h =
      for_each mpi_targets (fun mpi =>
        make_yandabase script_file nproc_available "generic" (PyStr mpi) "csirocass/" ""
          execute;; mret tt) h0.
Proof.
  destruct execute; eexists; (split; [|split]); cycle 2.
  1, 4: unfold main; cbn [String.eqb Ascii.eqb Bool.eqb];
    rewrite ?bind_assoc; erewrite bind_ok by reflexivity;
    rewrite machine_loop; reflexivity.
  all: reflexivity.
Qed.

Lemma main_product_loop script_file nproc_available image git_branch execute h :
  image = "yandasoft" \/ image = "askapsoft" ->
  exists h0,
    files (disk h0) = files (disk h) /\ ran h0 = ran h /\
    main script_file nproc_available image git_branch execute h =
      for_each mpi_targets (fun mpi =>
        make_yandasoft script_file nproc_available "generic" (PyStr mpi) "csirocass/" ""
          git_branch image execute;; mret tt) h0.
Proof.
  intros [-> | ->]; destruct execute; eexists; (split; [|split]); cycle 2.
  1, 4, 7, 10: unfold main; cbn [String.eqb Ascii.eqb Bool.eqb orb];
    rewrite ?bind_assoc; erewrite bind_ok by reflexivity;
    rewrite machine_loop; reflexivity.
  all: reflexivity.
Qed.

Lemma main_unknown script_file nproc_available image git_branch execute h :
  image <> "yandabase" -> image <> "yandasoft" -> image <> "askapsoft" ->
  main script_file nproc_available image git_branch execute h =
    (Raise (ValueError [PyStr "Image must be either 'yandabase' or 'yandasoft"]), h).
Proof.
  intros H1 H2 H3. unfold main.
  apply String.eqb_neq in H1, H2, H3. rewrite H1, H2, H3. reflexivity.
Qed.

(** ** What a sequence of deliveries leaves behind *)

Lemma deliver_all_snoc execute ts t h :
  deliver_all execute (ts ++ [t]) h = deliver execute t (deliver_all execute ts h).
Proof. unfold deliver_all. now rewrite fold_left_app. Qed.

Lemma deliver_all_ran execute ts : forall h,
  ran (deliver_all execute ts h) =
    ran h ++ (if execute then map (fun t => docker_build (image_name t) (recipe_name t)) ts
              else []).
Proof.
  induction ts as [|t ts IH]; intros h; cbn [deliver_all fold_left].
  - destruct execute; cbn; now rewrite app_nil_r.
  - fold (deliver_all execute ts (deliver execute t h)). rewrite IH.
    destruct execute; cbn [deliver ran map]; now rewrite <- app_assoc.
Qed.

Lemma deliver_all_other execute f ts : forall h,
  (forall t, t ∈ ts -> recipe_name t <> f) ->
  files (disk (deliver_all execute ts h)) !! f = files (disk h) !! f.
Proof.
  induction ts as [|t ts IH]; intros h H; [reflexivity|].
  cbn [deliver_all fold_left]. fold (deliver_all execute ts (deliver execute t h)).
  rewrite IH by (intros t' Ht'; apply H; now right).
  cbn [deliver disk files]. apply lookup_insert_ne, H. left.
Qed.

Lemma deliver_all_written execute ts : forall h t,
  NoDup (map recipe_name ts) -> t ∈ ts ->
  files (disk (deliver_all execute ts h)) !! recipe_name t = Some (recipe t).
Proof.
  induction ts as [|t0 ts IH]; intros h t Hnd Ht; [now apply elem_of_nil in Ht|].
  cbn [map] in Hnd. apply NoDup_cons in Hnd as [Hnotin Hnd].
  cbn [deliver_all fold_left]. fold (deliver_all execute ts (deliver execute t0 h)).
  apply elem_of_cons in Ht as [->|Ht].
  - rewrite deliver_all_other.
    + cbn [deliver disk files]. apply lookup_insert_eq.
    + intros t' Ht' E. apply Hnotin. rewrite <- E. now apply (list_elem_of_fmap_2 recipe_name).
  - now apply IH.
Qed.

Lemma deliver_all_map {A} execute (tgt : A -> DockerClass) xs : forall h,
  deliver_all execute (map tgt xs) h =
    fold_left (fun h x => deliver execute (tgt x) h) xs h.
Proof. induction xs as [|x xs IH]; intros h; [reflexivity|]. apply IH. Qed.

Lemma mpi_targets_eq :
  mpi_targets = ["mpich"; "openmpi4"; "openmpi3"; "openmpi2"; "openmpi2.0"].
Proof. reflexivity. Qed.

Lemma app_inj_l (p a b : string) : p +:+ a = p +:+ b -> a = b.
Proof.
  induction p as [|c p IH]; [now rewrite !app_empty_l|].
  rewrite !app_cons. intros [= E]. auto.
Qed.

Lemma named_targets_nodup (p : string) (tgt : string -> DockerClass) :
  (forall m, recipe_name (tgt m) = p +:+ m) ->
  NoDup (map recipe_name (map tgt mpi_targets)).
Proof.
  intros H. rewrite map_map.
  rewrite (map_ext _ (fun m => p +:+ m)) by exact H.
  apply (NoDup_fmap_2_strong (fun m => p +:+ m)).
  - intros a b _ _. apply app_inj_l.
  - rewrite mpi_targets_eq.
    repeat constructor; rewrite ?elem_of_cons, ?elem_of_nil; intuition discriminate.
Qed.

Lemma mpi_targets_clean m : m ∈ mpi_targets -> clean m.
Proof.
  intros H. apply clean_iff. rewrite mpi_targets_eq in H.
  rewrite ?elem_of_cons, elem_of_nil in H.
  repeat destruct H as [->|H]; [reflexivity ..|contradiction].
Qed.

Lemma mpi_targets_plain m : m ∈ mpi_targets -> no_path_chars m.
Proof.
  intros H. rewrite mpi_targets_eq in H.
  rewrite ?elem_of_cons, elem_of_nil in H.
  repeat destruct H as [->|H]; [split; reflexivity ..|contradiction].
Qed.

Lemma main_yandabase_ok script_file nproc_available git_branch execute h :
  exists h0,
    files (disk h0) = files (disk h) /\ ran h0 = ran h /\
    main script_file nproc_available "yandabase" git_branch execute h =
      (Ok tt, deliver_all execute
                (map (generic_yandabase script_file nproc_available) mpi_targets) h0).
Proof.
  destruct (main_yandabase_loop script_file nproc_available git_branch execute h)
    as (h0 & Hf & Hr & E).
  exists h0. split; [exact Hf|]. split; [exact Hr|]. rewrite E.
  rewrite deliver_all_map.
  apply (for_each_ok mpi_targets _
           (fun m => deliver execute (generic_yandabase script_file nproc_available m))).
  intros m s Hm.
  rewrite (bind_ok _ _ s (generic_yandabase script_file nproc_available m)
             (deliver execute (generic_yandabase script_file nproc_available m) s));
    [reflexivity|].
  rewrite (make_yandabase_generic_ok script_file nproc_available m "csirocass/" "" execute s)
    by first [now apply mpi_targets_clean | now apply mpi_targets_plain
             | apply clean_iff; reflexivity].
  rewrite app_empty_r. reflexivity.
Qed.

(** X21.  [main] for [yandabase] always succeeds, whatever revision was
    asked for: it writes one recipe for each configured variant of the
    generic machine, [.gitlab-docker-yandabase-<variant>], leaves every
    other file as it was, and runs one build command a variant, in the
    order of the configuration, when it was asked to execute, and none
    otherwise. *)
Theorem main_yandabase (script_file : string) (nproc_available : Z)
  (git_branch : string) (execute : bool) (h : host) :
  exists h',
    main script_file nproc_available "yandabase" git_branch execute h = (Ok tt, h') /\
    (forall m, m ∈ mpi_targets ->
       files (disk h') !! (".gitlab-docker-yandabase-" +:+ m) =
         Some (header script_file +:+
               ("FROM csirocass/base:" +:+ m +:+ " AS base_image " +:+ nl) +:+
               yandabase_recipe nproc_available)) /\
    (forall f, (forall m, m ∈ mpi_targets -> f <> ".gitlab-docker-yandabase-" +:+ m) ->
       files (disk h') !! f = files (disk h) !! f) /\
    ran h' = ran h ++
      (if execute
       then map (fun m => docker_build ("csirocass/yandabase:" +:+ m)
                            (".gitlab-docker-yandabase-" +:+ m)) mpi_targets
       else []).
Proof.
  destruct (main_yandabase_ok script_file nproc_available git_branch execute h)
    as (h0 & Hf & Hr & E).
  eexists. split; [exact E|]. split; [|split].
  - intros m Hm.
    apply (deliver_all_written execute _ h0 (generic_yandabase script_file nproc_available m)).
    + now apply (named_targets_nodup ".gitlab-docker-yandabase-").
    + now apply (list_elem_of_fmap_2 (generic_yandabase script_file nproc_available)).
  - intros f Hne. rewrite deliver_all_other, Hf; [reflexivity|].
    intros t Ht E'. apply list_elem_of_fmap in Ht as (m & -> & Hm).
    now apply (Hne m Hm).
  - rewrite deliver_all_ran, Hr, map_map. reflexivity.
Qed.

Lemma for_each_raise {S A} (x : A) (xs : list A) (body : A -> stexn S unit) s e s' :
  body x s = (Raise e, s') -> for_each (x :: xs) body s = (Raise e, s').
Proof. intros H. cbn [for_each]. now apply bind_raise. Qed.

Lemma main_product_cases script_file nproc_available image git_branch execute h :
  image = "yandasoft" \/ image = "askapsoft" ->
  exists h0,
    files (disk h0) = files (disk h) /\ ran h0 = ran h /\
    ((~ (clean (revision_part git_branch) /\ no_path_chars (revision_part git_branch)) /\
      exists e, main script_file nproc_available image git_branch execute h = (Raise e, h0)) \/
     ((clean (revision_part git_branch) /\ no_path_chars (revision_part git_branch)) /\
      main script_file nproc_available image git_branch execute h =
        (Ok tt, deliver_all execute
                  (map (generic_product script_file nproc_available image git_branch)
                     mpi_targets) h0))).
Proof.
  intros Himg.
  destruct (main_product_loop script_file nproc_available image git_branch execute h Himg)
    as (h0 & Hf & Hr & E).
  exists h0. split; [exact Hf|]. split; [exact Hr|]. rewrite E.
  assert (Hok : clean (revision_part git_branch) ->
    no_path_chars (revision_part git_branch) ->
    forall m s, m ∈ mpi_targets ->
      make_yandasoft script_file nproc_available "generic" (PyStr m) "csirocass/" ""
        git_branch image execute s =
      (Ok (generic_product script_file nproc_available image git_branch m),
       deliver execute (generic_product script_file nproc_available image git_branch m) s)).
  { intros Hc Hp m s Hm.
    destruct (make_yandasoft_ok script_file nproc_available "generic" (PyStr m) m
                "csirocass/" "" git_branch image execute s) as (big & Hbig & Hrun);
      [left; split; reflexivity | exact Himg | now apply mpi_targets_clean
      | apply clean_iff; reflexivity | apply clean_iff; reflexivity | exact Hc
      | now apply mpi_targets_plain | exact Hp |].
    cbv zeta in Hrun. rewrite Hrun. unfold generic_product.
    rewrite Hbig, !app_empty_r. unfold production_base. reflexivity. }
  destruct (make_yandasoft_cases script_file nproc_available "generic" (PyStr "mpich")
              "csirocass/" "" git_branch image execute h0)
    as [[e He]|(v & big & Hv & _ & Hname & _ & Ho & _)].
  - left. split.
    + intros [Hc Hp]. rewrite (Hok Hc Hp "mpich" h0) in He by (rewrite mpi_targets_eq; left).
      discriminate.
    + exists e. rewrite mpi_targets_eq. apply for_each_raise.
      now rewrite (bind_raise _ _ h0 e h0).
  - right.
    assert (Hc : clean (revision_part git_branch)).
    { apply is_proper_name_clean in Hname as [_ Hname].
      do 3 (apply clean_app in Hname as [_ Hname]).
      now apply clean_app in Hname as [Hname _]. }
    assert (Hp : no_path_chars (revision_part git_branch)).
    { now apply (product_file_opens image _ v Himg) in Ho as [Ho _]. }
    split; [now split|]. rewrite deliver_all_map.
    apply (for_each_ok mpi_targets _
             (fun m => deliver execute
                         (generic_product script_file nproc_available image git_branch m))).
    intros m s Hm.
    now rewrite (bind_ok _ _ s _ _ (Hok Hc Hp m s Hm)).
Qed.

(** X22.  [main] for a product, [yandasoft] or [askapsoft], whose revision
    gives a name part without forbidden characters and without a slash or
    a NUL, succeeds: it writes one recipe for each
    configured variant of the generic machine, named after the product, the
    revision and the variant, leaves every other file as it was, and runs
    one build command a variant, in the order of the configuration, when it
    was asked to execute, and none otherwise. *)
Theorem main_product (script_file : string) (nproc_available : Z)
  (image git_branch : string) (execute : bool) (h : host) :
  image = "yandasoft" \/ image = "askapsoft" ->
  clean (revision_part git_branch) ->
  no_path_chars (revision_part git_branch) ->
  exists h',
    main script_file nproc_available image git_branch execute h = (Ok tt, h') /\
    (forall m, m ∈ mpi_targets ->
       exists big,
         make_big_yandasoft_recipe nproc_available ("csirocass/yandabase:" +:+ m) image
           git_branch = Ok big /\
         files (disk h') !!
           (".gitlab-docker-" +:+ image +:+ "-" +:+ revision_part git_branch +:+ m) =
           Some (header script_file +:+
                 (if is_release_tag git_branch
                  then big +:+ make_small_yandasoft_recipe ("csirocass/base:" +:+ m)
                  else big) +:+ recipe_end)) /\
    (forall f,
       (forall m, m ∈ mpi_targets ->
          f <> ".gitlab-docker-" +:+ image +:+ "-" +:+ revision_part git_branch +:+ m) ->
       files (disk h') !! f = files (disk h) !! f) /\
    ran h' = ran h ++
      (if execute
       then map (fun m =>
                   docker_build
                     ("csirocass/" +:+ image +:+ ":" +:+ revision_part git_branch +:+ m)
                     (".gitlab-docker-" +:+ image +:+ "-" +:+ revision_part git_branch +:+ m))
              mpi_targets
       else []).
Proof.
  intros Himg Hc Hp.
  destruct (main_product_cases script_file nproc_available image git_branch execute h Himg)
    as (h0 & Hf & Hr & [[Hn _]|[_ E]]); [now destruct Hn|].
  eexists. split; [exact E|]. split; [|split].
  - intros m Hm.
    destruct (make_big_ok nproc_available ("csirocass/yandabase:" +:+ m) image git_branch
                Himg) as [big Hbig].
    exists big. split; [exact Hbig|].
    pose proof (deliver_all_written execute
                  (map (generic_product script_file nproc_available image git_branch)
                     mpi_targets) h0
                  (generic_product script_file nproc_available image git_branch m)) as W.
    cbn [generic_product recipe_name recipe] in W. rewrite Hbig in W. apply W.
    + apply (named_targets_nodup
               (".gitlab-docker-" +:+ image +:+ "-" +:+ revision_part git_branch)).
      intros m'. cbn [generic_product recipe_name]. now rewrite !app_assoc_str.
    + now apply (list_elem_of_fmap_2
                   (generic_product script_file nproc_available image git_branch)).
  - intros f Hne. rewrite deliver_all_other, Hf; [reflexivity|].
    intros t Ht E'. apply list_elem_of_fmap in Ht as (m & -> & Hm).
    now apply (Hne m Hm).
  - rewrite deliver_all_ran, Hr, map_map. reflexivity.
Qed.

Lemma main_product_witness :
  exists h',
    main "make_docker_images.py" 8 "yandasoft" "develop" true empty_host = (Ok tt, h') /\
    ran h' =
      ["docker build --no-cache --pull -t csirocass/yandasoft:dev-mpich -f .gitlab-docker-yandasoft-dev-mpich .";
       "docker build --no-cache --pull -t csirocass/yandasoft:dev-openmpi4 -f .gitlab-docker-yandasoft-dev-openmpi4 .";
       "docker build --no-cache --pull -t csirocass/yandasoft:dev-openmpi3 -f .gitlab-docker-yandasoft-dev-openmpi3 .";
       "docker build --no-cache --pull -t csirocass/yandasoft:dev-openmpi2 -f .gitlab-docker-yandasoft-dev-openmpi2 .";
       "docker build --no-cache --pull -t csirocass/yandasoft:dev-openmpi2.0 -f .gitlab-docker-yandasoft-dev-openmpi2.0 ."].
Proof.
  destruct (main_product "make_docker_images.py" 8 "yandasoft" "develop" true empty_host
              (or_introl eq_refl) (proj2 (clean_iff "dev-") eq_refl)
              (conj eq_refl eq_refl))
    as (h' & E & _ & _ & Hr).
  exists h'. split; [exact E | exact Hr].
Defined.

(** X23.  [main] succeeds exactly for [yandabase], and for [yandasoft] and
    [askapsoft] when the revision gives a name part that makes a proper
    name and a file name: [develop], [master], or a tag whose first three
    characters hold no forbidden character, no slash and no NUL. *)
Theorem main_succeeds_iff (script_file : string) (nproc_available : Z)
  (image git_branch : string) (execute : bool) (h : host) :
  (exists h', main script_file nproc_available image git_branch execute h = (Ok tt, h')) <->
  (image = "yandabase" \/
   ((image = "yandasoft" \/ image = "askapsoft") /\
    clean (revision_part git_branch) /\ no_path_chars (revision_part git_branch))).
Proof.
  split.
  - intros [h' E].
    destruct (String.eqb_spec image "yandabase") as [->|H1]; [now left|]. right.
    destruct (String.eqb_spec image "yandasoft") as [->|H2].
    + split; [now left|].
      destruct (main_product_cases script_file nproc_available "yandasoft" git_branch
                  execute h (or_introl eq_refl)) as (h0 & _ & _ & [[_ [e He]]|[Hc _]]);
        [congruence | exact Hc].
    + destruct (String.eqb_spec image "askapsoft") as [->|H3].
      * split; [now right|].
        destruct (main_product_cases script_file nproc_available "askapsoft" git_branch
                    execute h (or_intror eq_refl)) as (h0 & _ & _ & [[_ [e He]]|[Hc _]]);
          [congruence | exact Hc].
      * rewrite main_unknown in E by assumption. discriminate.
  - intros [->|[Himg Hc]].
    + destruct (main_yandabase_ok script_file nproc_available git_branch execute h)
        as (h0 & _ & _ & E). eauto.
    + destruct (main_product_cases script_file nproc_available image git_branch execute h
                  Himg) as (h0 & _ & _ & [[Hn _]|[_ E]]); [contradiction | eauto].
Qed.

(** X24.  When [main] raises, it has written no file and run no command:
    with the configured targets every error shows at the first target,
    before its recipe is written. *)
Theorem main_raises_before_writing (script_file : string) (nproc_available : Z)
  (image git_branch : string) (execute : bool) (h h' : host) (e : exn) :
  main script_file nproc_available image git_branch execute h = (Raise e, h') ->
  files (disk h') = files (disk h) /\ ran h' = ran h.
Proof.
  intros E.
  destruct (String.eqb_spec image "yandabase") as [->|H1].
  { destruct (main_yandabase_ok script_file nproc_available git_branch execute h)
      as (h0 & _ & _ & E0). congruence. }
  assert (Hp : image = "yandasoft" \/ image = "askapsoft" ->
               files (disk h') = files (disk h) /\ ran h' = ran h).
  { intros Himg.
    destruct (main_product_cases script_file nproc_available image git_branch execute h
                Himg) as (h0 & Hf & Hr & [[_ [e0 He]]|[_ E0]]); [|congruence].
    rewrite He in E. injection E as _ <-. now split. }
  destruct (String.eqb_spec image "yandasoft") as [->|H2]; [now apply Hp; left|].
  destruct (String.eqb_spec image "askapsoft") as [->|H3]; [now apply Hp; right|].
  rewrite main_unknown in E by assumption. injection E as _ <-. now split.
Qed.

Lemma main_raises_before_writing_witness :
  exists e h',
    main "make_docker_images.py" 8 "yandasoft" "1 2" true empty_host = (Raise e, h') /\
    files (disk h') = files (disk empty_host) /\ ran h' = ran empty_host.
Proof.
  eexists _, _.
  assert (E : main "make_docker_images.py" 8 "yandasoft" "1 2" true empty_host =
              (Raise (ValueError [PyStr "Illegal recipe_name:";
                                  PyStr ".gitlab-docker-yandasoft-1 2-mpich"]),
               {| disk := {| files := ∅;
                             stdout := ["Making yandasoft image from git branch 1 2"] |};
                  ran := [] |}))
    by (vm_compute; reflexivity).
  split; [exact E|].
  exact (main_raises_before_writing _ _ _ _ _ _ _ _ E).
Defined.
